(** * Building-block slide generators: requirements classifier and grid layout

    A shallow embedding of the keyword classifier ([analyze_requirements]) and
    of the slide layout arithmetic ([create_conceptual_slide],
    [create_azure_specific_slide], [create_building_block_slide]) of

      - [direct_generator.py]              (class DirectBuildingBlockGenerator)
      - [unified_powerpoint_generator.py]  (class UnifiedPowerPointGenerator)
      - [building_block_agent.py]          (class BuildingBlockAgent)

    Conventions of the embedding.
      - A Python [str] is a [string]: the UTF-8 byte sequence of the text.
        All keyword tables are ASCII, so substring tests on bytes agree with
        the tests on code points.  [str.lower] and [str.title] are modelled
        on the ASCII letters, and a statement that reads their result on the
        input takes ASCII input as a hypothesis; [str.isspace] is modelled
        on all the white space of Unicode.
      - Python [int] is [Z]; [//] and [%] raise [ZeroDivisionError] on a zero
        divisor and are otherwise [Z.div] and [Z.modulo] (both floor).
      - Python [float] is the binary64 type [float] of the kernel.
      - The python-pptx calls are recorded as the list of shapes a slide
        holds; a function that draws is a computation in the monad [M], which
        threads the slide and may stop with an exception, keeping what was
        drawn before. *)

From Stdlib Require Import ZArith List String Ascii Bool Lia.
From Stdlib Require Import Floats.PrimFloat Numbers.Cyclic.Int63.Uint63.
Import ListNotations.
Set Warnings "-inexact-float".

Local Open Scope string_scope.
Local Open Scope list_scope.
Local Open Scope Z_scope.

(** ** Python primitives *)

Module Py.

(** A text is held as the bytes of its UTF-8 encoding.  The keywords, the
    table keys and the names the code builds from them are ASCII, and a
    keyword occurs in a text exactly when its bytes occur in the bytes of
    the text.  [lower] and [title] are [str.lower] and [str.title] on ASCII
    text ([isascii]); they leave the bytes from 128 on as they are, where
    the built-ins also case the letters outside ASCII.  [all_space] reads
    the white space outside ASCII as well. *)

(** [str.lower] on one character: 'A'..'Z' move to 'a'..'z'. *)
Definition lower_char (c : ascii) : ascii :=
  let n := nat_of_ascii c in
  if ((65 <=? n) && (n <=? 90))%nat then ascii_of_nat (n + 32) else c.

Definition upper_char (c : ascii) : ascii :=
  let n := nat_of_ascii c in
  if ((97 <=? n) && (n <=? 122))%nat then ascii_of_nat (n - 32) else c.

Definition is_lower_char (c : ascii) : bool :=
  let n := nat_of_ascii c in ((97 <=? n) && (n <=? 122))%nat.

Definition is_upper_char (c : ascii) : bool :=
  let n := nat_of_ascii c in ((65 <=? n) && (n <=? 90))%nat.

Fixpoint lower (s : string) : string :=
  match s with
  | EmptyString => EmptyString
  | String c t => String (lower_char c) (lower t)
  end.

(** [sub in s] on strings: [sub] occurs in [s] as a contiguous substring. *)
Fixpoint str_in (sub s : string) : bool :=
  String.prefix sub s ||
  match s with
  | EmptyString => false
  | String _ t => str_in sub t
  end.

(** [any(term in s for term in terms)]. *)
Definition any_in (terms : list string) (s : string) : bool :=
  existsb (fun term => str_in term s) terms.

(** [x in l] on a list of strings. *)
Definition list_in (x : string) (l : list string) : bool :=
  existsb (String.eqb x) l.

(** [list(dict.fromkeys(l))]: the keys of an insertion-ordered dict filled
    from [l]; a key that is already present keeps its place. *)
Definition dict_fromkeys (l : list string) : list string :=
  fold_left (fun d k => if list_in k d then d else d ++ [k]) l [].

(** In the words of the specification: later duplicates are suppressed,
    the first occurrence wins.  Compared with [dict_fromkeys] below. *)
Fixpoint first_occurrences (l : list string) : list string :=
  match l with
  | [] => []
  | x :: t =>
      x :: filter (fun y => negb (String.eqb y x)) (first_occurrences t)
  end.

(** [l] can be read off [order] from left to right, skipping entries. *)
Fixpoint is_subsequence (l order : list string) : bool :=
  match l, order with
  | [], _ => true
  | _ :: _, [] => false
  | x :: l', y :: order' =>
      if String.eqb x y then is_subsequence l' order'
      else is_subsequence l order'
  end.

(** [s.replace(a, b)] for single characters. *)
Fixpoint replace_char (a b : ascii) (s : string) : string :=
  match s with
  | EmptyString => EmptyString
  | String c t => String (if Ascii.eqb c a then b else c) (replace_char a b t)
  end.

(** [str.title] on ASCII text: a letter that follows a letter is lowered,
    any other letter is raised. *)
Fixpoint title_from (prev_cased : bool) (s : string) : string :=
  match s with
  | EmptyString => EmptyString
  | String c t =>
      if is_lower_char c then
        String (if prev_cased then c else upper_char c) (title_from true t)
      else if is_upper_char c then
        String (if prev_cased then lower_char c else c) (title_from true t)
      else String c (title_from false t)
  end.

Definition title (s : string) : string := title_from false s.

(** [str.isspace] on one ASCII character: tab, LF, VT, FF, CR, the four
    separators 28..31 and the space. *)
Definition is_space_char (c : ascii) : bool :=
  let n := nat_of_ascii c in
  (((9 <=? n) && (n <=? 13)) || ((28 <=? n) && (n <=? 32)))%nat.

(** [str.isspace] on the white space outside ASCII, by its UTF-8 bytes:
    U+0085 and U+00A0 take two bytes (194, then 133 or 160). *)
Definition is_space_2 (c1 c2 : ascii) : bool :=
  let n1 := nat_of_ascii c1 in
  let n2 := nat_of_ascii c2 in
  ((n1 =? 194) && ((n2 =? 133) || (n2 =? 160)))%nat.

(** U+1680 (225 154 128), U+2000..U+200A (226 128 128..138), U+2028,
    U+2029 and U+202F (226 128 168, 169 and 175), U+205F (226 129 159) and
    U+3000 (227 128 128) take three bytes. *)
Definition is_space_3 (c1 c2 c3 : ascii) : bool :=
  let n1 := nat_of_ascii c1 in
  let n2 := nat_of_ascii c2 in
  let n3 := nat_of_ascii c3 in
  (((n1 =? 225) && ((n2 =? 154) && (n3 =? 128)))
   || ((n1 =? 226)
       && (((n2 =? 128)
            && (((128 <=? n3) && (n3 <=? 138))
                || ((n3 =? 168) || ((n3 =? 169) || (n3 =? 175)))))
           || ((n2 =? 129) && (n3 =? 159))))
   || ((n1 =? 227) && ((n2 =? 128) && (n3 =? 128))))%nat.

(** [s == '' or s.isspace()]: the text is empty, or every character of it
    is white space. *)
Fixpoint all_space (s : string) : bool :=
  match s with
  | EmptyString => true
  | String c1 t1 =>
      if is_space_char c1 then all_space t1
      else
        match t1 with
        | EmptyString => false
        | String c2 t2 =>
            if is_space_2 c1 c2 then all_space t2
            else
              match t2 with
              | EmptyString => false
              | String c3 t3 => is_space_3 c1 c2 c3 && all_space t3
              end
        end
  end.

(** [str.isascii]. *)
Fixpoint isascii (s : string) : bool :=
  match s with
  | EmptyString => true
  | String c t => (nat_of_ascii c <? 128)%nat && isascii t
  end.

(** [s.endswith(suffix)]. *)
Fixpoint endswith (s suffix : string) : bool :=
  String.eqb s suffix ||
  match s with
  | EmptyString => false
  | String _ t => endswith t suffix
  end.

(** Exceptions the modelled code can raise. *)
Inductive exn : Type :=
| ZeroDivisionError
| KeyError (key : string)
| NameError (name : string).

(** [a // b] and [a % b] on ints. *)
Definition floordiv (a b : Z) : exn + Z :=
  if b =? 0 then inl ZeroDivisionError else inr (a / b).

Definition pymod (a b : Z) : exn + Z :=
  if b =? 0 then inl ZeroDivisionError else inr (a mod b).

(** The implicit int-to-float conversion of [int * float]; exact below 2^53,
    far beyond the length of any list. *)
Definition float_of_int (z : Z) : float := PrimFloat.of_uint63 (Uint63.of_Z z).

(** A dict as an association list in insertion order. *)
Definition dict (V : Type) : Type := list (string * V).

Fixpoint dict_get {V : Type} (d : dict V) (k : string) : option V :=
  match d with
  | [] => None
  | (k', v) :: d' => if String.eqb k k' then Some v else dict_get d' k
  end.

(** [k in d]. *)
Definition dict_has {V : Type} (d : dict V) (k : string) : bool :=
  match dict_get d k with Some _ => true | None => false end.

(** [sep.join(l)]. *)
Fixpoint join (sep : string) (l : list string) : string :=
  match l with
  | [] => EmptyString
  | [a] => a
  | a :: t => (a ++ sep ++ join sep t)%string
  end.

End Py.

Definition nl : string := String (ascii_of_nat 10) EmptyString.

(** The bullet U+2022 in UTF-8. *)
Definition bullet : string :=
  String (ascii_of_nat 226) (String (ascii_of_nat 128)
    (String (ascii_of_nat 162) EmptyString)).

(** ** Slides and the drawing monad *)

Definition RGBColor : Type := (Z * Z * Z)%type.

Inductive shape_type : Type := TEXT_BOX | ROUNDED_RECTANGLE | RECTANGLE.

(** A shape as python-pptx holds it after the drawing code is done with it:
    its kind, its box in inches (the arguments of [Inches]), its solid fill
    if one was set, and the paragraphs of its text frame. *)
Record Shape : Type := mkShape {
  sh_type : shape_type;
  sh_left : float;
  sh_top : float;
  sh_width : float;
  sh_height : float;
  sh_fill : option RGBColor;
  sh_paragraphs : list string
}.

Definition Slide : Type := list Shape.

(** Drawing computations: the slide is threaded through, an exception stops
    the computation and leaves the slide as it is at that point. *)
Definition M (A : Type) : Type := Slide -> Slide * (Py.exn + A).

Definition ret {A : Type} (a : A) : M A := fun s => (s, inr a).

Definition raise {A : Type} (e : Py.exn) : M A := fun s => (s, inl e).

Definition lift {A : Type} (r : Py.exn + A) : M A := fun s => (s, r).

Definition bind {A B : Type} (m : M A) (k : A -> M B) : M B :=
  fun s =>
    match m s with
    | (s', inl e) => (s', inl e)
    | (s', inr a) => k a s'
    end.

Notation "x <- c1 ;; c2" := (bind c1 (fun x => c2))
  (at level 61, c1 at next level, right associativity).
Notation "c1 ;; c2" := (bind c1 (fun _ => c2))
  (at level 61, right associativity).

(** [slide.shapes.add_shape] / [add_textbox]: the shape goes last. *)
Definition add_shape (sh : Shape) : M unit := fun s => (s ++ [sh], inr tt).

(** [for i, a in enumerate(l)], counting from [i]. *)
Fixpoint for_enumerate {A : Type} (body : Z -> A -> M unit) (i : Z)
    (l : list A) : M unit :=
  match l with
  | [] => ret tt
  | a :: t => body i a ;; for_enumerate body (i + 1) t
  end.

(** [d[k]]. *)
Definition getitem {V : Type} (d : Py.dict V) (k : string) : Py.exn + V :=
  match Py.dict_get d k with
  | Some v => inr v
  | None => inl (Py.KeyError k)
  end.

Local Open Scope float_scope.

Definition text_box (left top width height : float) (text : string) : Shape :=
  mkShape TEXT_BOX left top width height None [text].

Definition black : RGBColor := (0, 0, 0)%Z.

(** One box of the cross-cutting strip: a black rectangle with its label. *)
Definition service_box (x_pos security_y_pos box_width box_height : float)
    (service : string) : Shape :=
  mkShape RECTANGLE x_pos security_y_pos box_width box_height
    (Some black) [service].

Definition bullet_line (item : string) : string :=
  (bullet ++ " " ++ item)%string.

(** What a slide function reads as the geometry of a shape. *)
Definition geometry (sh : Shape) : shape_type * (float * float * float * float) :=
  (sh_type sh, (sh_left sh, sh_top sh, sh_width sh, sh_height sh)).

(** [[sh for sh in slide if sh is of kind k]]. *)
Definition shapes_of (k : shape_type) (s : Slide) : Slide :=
  filter (fun sh => match sh_type sh, k with
                    | TEXT_BOX, TEXT_BOX => true
                    | ROUNDED_RECTANGLE, ROUNDED_RECTANGLE => true
                    | RECTANGLE, RECTANGLE => true
                    | _, _ => false
                    end) s.

(** ** Slides that also hold pictures *)

(** What [slide.shapes] holds once icons are loaded: the shapes as before,
    and the pictures [add_picture] placed, each with its file and its box
    in inches. *)
Inductive Item : Type :=
| AutoShape (sh : Shape)
| Picture (image_file : string) (left top width height : float).

Definition Canvas : Type := list Item.

(** The shapes of a canvas, its pictures left out. *)
Definition drawn (c : Canvas) : Slide :=
  flat_map (fun it => match it with
                      | AutoShape sh => [sh]
                      | Picture _ _ _ _ _ => []
                      end) c.

(** The pictures of a canvas. *)
Definition pictures (c : Canvas) : Canvas :=
  filter (fun it => match it with
                    | AutoShape _ => false
                    | Picture _ _ _ _ _ => true
                    end) c.

(** Drawing computations on a canvas; as [M], with the canvas threaded. *)
Definition MC (A : Type) : Type := Canvas -> Canvas * (Py.exn + A).

Definition cret {A : Type} (a : A) : MC A := fun c => (c, inr a).

Definition craise {A : Type} (e : Py.exn) : MC A := fun c => (c, inl e).

Definition clift {A : Type} (r : Py.exn + A) : MC A := fun c => (c, r).

Definition cbind {A B : Type} (m : MC A) (k : A -> MC B) : MC B :=
  fun c =>
    match m c with
    | (c', inl e) => (c', inl e)
    | (c', inr a) => k a c'
    end.

Declare Scope canvas_scope.
Delimit Scope canvas_scope with canvas.
Notation "x <- c1 ;; c2" := (cbind c1 (fun x => c2))
  (at level 61, c1 at next level, right associativity) : canvas_scope.
Notation "c1 ;; c2" := (cbind c1 (fun _ => c2))
  (at level 61, right associativity) : canvas_scope.

(** [slide.shapes.add_shape] and [add_picture]: the item goes last. *)
Definition add_item (it : Item) : MC unit := fun c => (c ++ [it], inr tt).

(** Setting the text of the shape that was added as item number [k]; the
    other items, and a picture at [k], stay as they are. *)
Fixpoint set_paragraphs_at (k : nat) (paragraphs : list string) (c : Canvas)
    : Canvas :=
  match c, k with
  | [], _ => []
  | AutoShape sh :: rest, O =>
      AutoShape
        (mkShape (sh_type sh) (sh_left sh) (sh_top sh) (sh_width sh)
           (sh_height sh) (sh_fill sh) paragraphs) :: rest
  | it :: rest, O => it :: rest
  | it :: rest, S k' => it :: set_paragraphs_at k' paragraphs rest
  end.

Definition set_paragraphs (k : nat) (paragraphs : list string) : MC unit :=
  fun c => (set_paragraphs_at k paragraphs c, inr tt).

(** The number of items so far: the index the next item will get. *)
Definition next_index : MC nat := fun c => (c, inr (List.length c)).

(** [for i, a in enumerate(l)] on a canvas, counting from [i]. *)
Fixpoint for_enumerate_canvas {A : Type} (body : Z -> A -> MC unit) (i : Z)
    (l : list A) : MC unit :=
  match l with
  | [] => cret tt
  | a :: t => cbind (body i a) (fun _ => for_enumerate_canvas body (i + 1) t)
  end.

(** ** The three generators *)

Module DirectBuildingBlockGenerator.

(** [analyze_requirements], up to the list [categories] as it stands before
    the final [dict.fromkeys]. *)
Definition analyze_requirements_appended (requirements : string) : list string :=
  let req_lower := Py.lower requirements in
  let categories : list string := [] in
  let categories :=
    if Py.any_in ["user experience"; "ux"; "frontend"; "application layer";
                  "app layer"; "web"; "portal"] req_lower
    then categories ++ ["web_application"] else categories in
  let categories :=
    if Py.any_in ["data and intelligence"; "data intelligence"; "analytics";
                  "ai"; "machine learning"] req_lower
    then
      let categories := categories ++ ["ai_analytics"] in
      if Py.str_in "data" req_lower
      then categories ++ ["data_platform"] else categories
    else categories in
  let categories :=
    if Py.any_in ["integration layer"; "integration"; "api"] req_lower
    then categories ++ ["integration"] else categories in
  categories.

Definition analyze_requirements (requirements : string) : list string :=
  Py.dict_fromkeys (analyze_requirements_appended requirements).

(** The categories in the order in which the checks can append them. *)
Definition check_order : list string :=
  ["web_application"; "ai_analytics"; "data_platform"; "integration"].

(** The catalogs of [__init__]: category id, display name, display items. *)
Definition conceptual_blocks : Py.dict (string * list string) :=
  [("web_application",
    ("User Experience & Application Layer",
     ["Web Portals"; "Mobile Applications"; "User Interfaces";
      "Frontend Services"]));
   ("ai_analytics",
    ("Data & Intelligence Layer",
     ["AI/ML Models"; "Analytics Engine"; "Data Processing";
      "Intelligent Services"]));
   ("data_platform",
    ("Data Platform Layer",
     ["Databases"; "Data Storage"; "Data Lakes"; "Data Pipelines"]));
   ("integration",
    ("Integration & API Layer",
     ["API Gateway"; "Message Queues"; "Workflow Engine";
      "Event Processing"]))].

Definition service_recommendations : Py.dict (string * list string) :=
  [("web_application",
    ("User Experience & Application Layer",
     ["Azure Web Apps"; "Azure Container Apps"; "Azure Kubernetes Service";
      "Azure Front Door"]));
   ("ai_analytics",
    ("Data & Intelligence Layer",
     ["Azure OpenAI"; "Microsoft Fabric"; "Azure Databricks";
      "Azure AI Services"]));
   ("data_platform",
    ("Data Platform Layer",
     ["Azure SQL Database"; "Azure Cosmos DB"; "Azure Storage";
      "Azure Data Factory"]));
   ("integration",
    ("Integration & API Layer",
     ["Azure API Management"; "Azure Service Bus"; "Azure Logic Apps";
      "Azure Event Grid"]))].

Definition conceptual_cross_cutting : list string :=
  ["Security & Compliance"; "Network Security"; "Monitoring & Defense";
   "Data Encryption"; "System Monitoring"; "Backup & Recovery";
   "Identity Management"].

Definition azure_cross_cutting_services : list string :=
  ["Azure Policy and Compliance"; "Azure Firewall and DDoS";
   "Microsoft Sentinel and Defender"; "Encryption"; "Azure Monitor";
   "Azure Backup and BCDR"; "Microsoft Entra ID"].

Definition colors : Py.dict RGBColor :=
  [("web_application", (0, 120, 212)%Z);
   ("ai_analytics", (138, 43, 226)%Z);
   ("data_platform", (0, 188, 140)%Z);
   ("integration", (255, 140, 0)%Z);
   ("security", (232, 17, 35)%Z);
   ("infrastructure", (16, 110, 190)%Z)].

(** The [if num_categories <= 3: ... else: ...] block:
    [(blocks_per_row, block_width, block_height)]. *)
Definition layout_tier (num_categories : Z) : Z * float * float :=
  if (num_categories <=? 3)%Z then (num_categories, 2.8, 2.2)
  else (3%Z, 2.5, 2.0).

Definition start_x : float := 0.5.
Definition start_y : float := 1.3.
Definition spacing_x : float := 0.3.
Definition spacing_y : float := 0.4.
Definition box_width : float := 1.25.
Definition box_height : float := 0.6.
Definition start_x_cross : float := 0.5.
Definition spacing_x_cross : float := 0.05.

(** The rounded rectangle drawn for the grid slot [(row, col)]. *)
Definition block_shape (block_width block_height : float) (row col : Z)
    (fill : option RGBColor) (paragraphs : list string) : Shape :=
  let x_pos := start_x + Py.float_of_int col * (block_width + spacing_x) in
  let y_pos := start_y + Py.float_of_int row * (block_height + spacing_y) in
  mkShape ROUNDED_RECTANGLE x_pos y_pos block_width block_height fill
    paragraphs.

(** The paragraphs of a finished block: its name and up to four items. *)
Definition block_text (entry : string * list string) : list string :=
  fst entry :: map bullet_line (firstn 4 (snd entry)).

(** One pass of the loop over [categories] in [create_conceptual_slide]. *)
Definition conceptual_block_pass (blocks_per_row : Z)
    (block_width block_height : float) (i : Z) (category : string)
    : M unit :=
  match Py.dict_get conceptual_blocks category with
  | Some entry =>
      row <- lift (Py.floordiv i blocks_per_row) ;;
      col <- lift (Py.pymod i blocks_per_row) ;;
      match Py.dict_get colors category with
      | Some rgb =>
          add_shape
            (block_shape block_width block_height row col (Some rgb)
               (block_text entry))
      | None =>
          add_shape (block_shape block_width block_height row col None [""]) ;;
          raise (Py.KeyError category)
      end
  | None => ret tt
  end.

(** One pass of the loop over the cross-cutting services. *)
Definition service_box_pass (security_y_pos : float) (i : Z)
    (service : string) : Shape :=
  let x_pos :=
    start_x_cross + Py.float_of_int i * (box_width + spacing_x_cross) in
  service_box x_pos security_y_pos box_width box_height service.

(** [start_y + ((num_categories - 1) // blocks_per_row + 1)
              * (block_height + spacing_y) + 0.3], the division done. *)
Definition strip_origin (q : Z) (block_height : float) : float :=
  start_y + Py.float_of_int (q + 1) * (block_height + spacing_y) + 0.3.

Definition strip_header (security_y_pos : float) : Shape :=
  text_box 0.5 (security_y_pos - 0.3) 9 0.25
    "Cross-cutting Security and Infrastructure Services".

Definition conceptual_title_box : Shape :=
  text_box 0.5 0.3 9 0.8 "Conceptual Architecture Building Blocks".

Definition azure_title_box : Shape :=
  text_box 0.5 0.3 9 0.8 "Azure Solution Architecture Building Blocks".

Definition create_conceptual_slide (categories : list string)
    : M (float * float) :=
  add_shape conceptual_title_box ;;
  let num_categories := Z.of_nat (List.length categories) in
  let '(blocks_per_row, block_width, block_height) :=
    layout_tier num_categories in
  for_enumerate (conceptual_block_pass blocks_per_row block_width block_height)
    0 categories ;;
  q <- lift (Py.floordiv (num_categories - 1) blocks_per_row) ;;
  let security_y_pos := strip_origin q block_height in
  for_enumerate
    (fun i service => add_shape (service_box_pass security_y_pos i service))
    0 conceptual_cross_cutting ;;
  add_shape (strip_header security_y_pos) ;;
  ret (security_y_pos, box_height).

(** One pass of the loop over [categories] in [create_azure_specific_slide].
    The loop over the services of the block reads [shape.left]; no [shape]
    is bound anywhere, so its first pass raises [NameError], after the block
    got its fill, its name and the empty paragraph of that first service. *)
Definition azure_block_pass (blocks_per_row : Z)
    (block_width block_height : float) (i : Z) (category : string)
    : M unit :=
  match Py.dict_get service_recommendations category with
  | Some entry =>
      row <- lift (Py.floordiv i blocks_per_row) ;;
      col <- lift (Py.pymod i blocks_per_row) ;;
      match Py.dict_get colors category with
      | Some rgb =>
          match firstn 4 (snd entry) with
          | [] =>
              add_shape
                (block_shape block_width block_height row col (Some rgb)
                   [fst entry])
          | _ :: _ =>
              add_shape
                (block_shape block_width block_height row col (Some rgb)
                   [fst entry; ""]) ;;
              raise (Py.NameError "shape")
          end
      | None =>
          add_shape (block_shape block_width block_height row col None [""]) ;;
          raise (Py.KeyError category)
      end
  | None => ret tt
  end.

(** One pass of the strip loop of [create_azure_specific_slide]: it reads
    [service_shape.left], a name bound nowhere, after the black box of the
    pass was added and its text frame cleared. *)
Definition azure_service_pass (security_y_pos : float) (i : Z)
    (service : string) : M unit :=
  let x_pos :=
    start_x_cross + Py.float_of_int i * (box_width + spacing_x_cross) in
  add_shape
    (mkShape RECTANGLE x_pos security_y_pos box_width box_height
       (Some black) [""]) ;;
  raise (Py.NameError "service_shape").

Definition create_azure_specific_slide (categories : list string)
    : M (float * float) :=
  add_shape azure_title_box ;;
  let num_categories := Z.of_nat (List.length categories) in
  let '(blocks_per_row, block_width, block_height) :=
    layout_tier num_categories in
  for_enumerate (azure_block_pass blocks_per_row block_width block_height)
    0 categories ;;
  q <- lift (Py.floordiv (num_categories - 1) blocks_per_row) ;;
  let security_y_pos := strip_origin q block_height in
  for_enumerate (azure_service_pass security_y_pos)
    0 azure_cross_cutting_services ;;
  add_shape (strip_header security_y_pos) ;;
  ret (security_y_pos, box_height).

(** What [create_building_block_slide] returns: the success text (the file
    that was saved, with its slides and the block count it reports) or the
    error text built from the exception it caught. *)
Inductive outcome : Type :=
| Saved (prs : list Slide) (filename : string) (building_blocks : nat)
| ErrorCreatingSlide (e : Py.exn).

Definition create_building_block_slide (requirements : string)
    (filename : option string) : outcome :=
  let categories := analyze_requirements requirements in
  match create_conceptual_slide categories [] with
  | (_, inl e) => ErrorCreatingSlide e
  | (slide1, inr (security_y_pos1, box_height1)) =>
      match create_azure_specific_slide categories [] with
      | (_, inl e) => ErrorCreatingSlide e
      | (slide2, inr (security_y_pos2, box_height2)) =>
          let req_y_pos := security_y_pos2 + box_height2 + 0.2 in
          let req_box :=
            text_box 0.5 req_y_pos 9 0.5
              ("Requirements: " ++ requirements)%string in
          let prs := [slide1 ++ [req_box]; slide2 ++ [req_box]] in
          let filename :=
            match filename with
            | None | Some EmptyString => "Building_Blocks_Architecture.pptx"
            | Some f =>
                if Py.endswith f ".pptx" then f else (f ++ ".pptx")%string
            end in
          Saved prs filename (List.length categories)
      end
  end.

End DirectBuildingBlockGenerator.

Module UnifiedPowerPointGenerator.

Definition analyze_requirements_appended (requirements : string) : list string :=
  let req_lower := Py.lower requirements in
  let categories : list string := [] in
  let categories :=
    if Py.any_in ["user experience"; "ux"; "frontend"; "application layer";
                  "app layer"; "web"; "portal"] req_lower
    then categories ++ ["web_application"] else categories in
  let categories :=
    if Py.any_in ["data and intelligence"; "data intelligence"; "analytics";
                  "ai"; "machine learning"] req_lower
    then
      let categories := categories ++ ["ai_analytics"] in
      if Py.str_in "data" req_lower
      then categories ++ ["data_platform"] else categories
    else categories in
  let categories :=
    if Py.any_in ["integration layer"; "integration"; "api"] req_lower
    then categories ++ ["integration"] else categories in
  categories.

Definition analyze_requirements (requirements : string) : list string :=
  Py.dict_fromkeys (analyze_requirements_appended requirements).

Definition conceptual_blocks : Py.dict (string * list string) :=
  [("web_application",
    ("User Experience & Application Layer",
     ["Web Portals"; "Mobile Applications"; "User Interfaces";
      "Frontend Services"]));
   ("ai_analytics",
    ("Data & Intelligence Layer",
     ["AI/ML Models"; "Analytics Engine"; "Data Processing";
      "Intelligent Services"]));
   ("data_platform",
    ("Data Platform Layer",
     ["Databases"; "Data Storage"; "Data Lakes"; "Data Pipelines"]));
   ("integration",
    ("Integration & API Layer",
     ["API Gateway"; "Message Queues"; "Workflow Engine";
      "Event Processing"]))].

Definition conceptual_cross_cutting : list string :=
  ["Security & Compliance"; "Network Security"; "Monitoring & Defense";
   "Data Encryption"; "System Monitoring"; "Backup & Recovery";
   "Identity Management"].

Definition colors : Py.dict RGBColor :=
  [("web_application", (0, 120, 212)%Z);
   ("ai_analytics", (138, 43, 226)%Z);
   ("data_platform", (0, 188, 140)%Z);
   ("integration", (255, 140, 0)%Z);
   ("security", (232, 17, 35)%Z);
   ("infrastructure", (16, 110, 190)%Z)].

Definition layout_tier (num_categories : Z) : Z * float * float :=
  if (num_categories <=? 3)%Z then (num_categories, 2.8, 2.2)
  else (3%Z, 2.5, 2.0).

Definition create_conceptual_slide (categories : list string)
    : M (float * float) :=
  add_shape (text_box 0.5 0.3 9 0.8 "Conceptual Architecture Building Blocks") ;;
  let num_categories := Z.of_nat (List.length categories) in
  let '(blocks_per_row, block_width, block_height) :=
    layout_tier num_categories in
  let start_x := 0.5 in
  let start_y := 1.3 in
  let spacing_x := 0.3 in
  let spacing_y := 0.4 in
  for_enumerate
    (fun i category =>
       match Py.dict_get conceptual_blocks category with
       | Some entry =>
           row <- lift (Py.floordiv i blocks_per_row) ;;
           col <- lift (Py.pymod i blocks_per_row) ;;
           let x_pos :=
             start_x + Py.float_of_int col * (block_width + spacing_x) in
           let y_pos :=
             start_y + Py.float_of_int row * (block_height + spacing_y) in
           match Py.dict_get colors category with
           | Some rgb =>
               add_shape
                 (mkShape ROUNDED_RECTANGLE x_pos y_pos block_width
                    block_height (Some rgb)
                    (fst entry :: map bullet_line (firstn 4 (snd entry))))
           | None =>
               add_shape
                 (mkShape ROUNDED_RECTANGLE x_pos y_pos block_width
                    block_height None [""]) ;;
               raise (Py.KeyError category)
           end
       | None => ret tt
       end) 0 categories ;;
  q <- lift (Py.floordiv (num_categories - 1) blocks_per_row) ;;
  let security_y_pos :=
    start_y + Py.float_of_int (q + 1) * (block_height + spacing_y) + 0.3 in
  let box_width := 1.25 in
  let box_height := 0.6 in
  let start_x_cross := 0.5 in
  let spacing_x_cross := 0.05 in
  for_enumerate
    (fun i service =>
       let x_pos :=
         start_x_cross + Py.float_of_int i * (box_width + spacing_x_cross) in
       add_shape (service_box x_pos security_y_pos box_width box_height service))
    0 conceptual_cross_cutting ;;
  add_shape
    (text_box 0.5 (security_y_pos - 0.3) 9 0.25
       "Cross-cutting Security and Infrastructure Services") ;;
  ret (security_y_pos, box_height).

(** The other tables of [__init__]. *)
Definition service_recommendations : Py.dict (string * list string) :=
  [("web_application",
    ("User Experience & Application Layer",
     ["Azure Web Apps"; "Azure Container Apps"; "Azure Kubernetes Service";
      "Azure Front Door"]));
   ("ai_analytics",
    ("Data & Intelligence Layer",
     ["Azure OpenAI"; "Microsoft Fabric"; "Azure Databricks";
      "Azure AI Services"]));
   ("data_platform",
    ("Data Platform Layer",
     ["Azure SQL Database"; "Azure Cosmos DB"; "Azure Storage";
      "Azure Data Factory"]));
   ("integration",
    ("Integration & API Layer",
     ["Azure API Management"; "Azure Service Bus"; "Azure Logic Apps";
      "Azure Event Grid"]))].

Definition azure_cross_cutting_services : list string :=
  ["Azure Policy and Compliance"; "Azure Firewall and DDoS";
   "Microsoft Sentinel and Defender"; "Encryption"; "Azure Monitor";
   "Azure Backup and BCDR"; "Microsoft Entra ID"].

(** [self.azure_icons]: the symbol shown for a service when no icon file is
    loaded. *)
Definition azure_icons : Py.dict string :=
  [("Azure Web Apps", "🌐");
   ("Azure Container Apps", "📦");
   ("Azure Kubernetes Service", "⚙️");
   ("Azure Front Door", "🚪");
   ("Azure App Service", "🌐");
   ("Azure Application Gateway", "🚪");
   ("Azure Load Balancer", "⚖️");
   ("Azure OpenAI", "🤖");
   ("Microsoft Fabric", "🧩");
   ("Azure Databricks", "📊");
   ("Azure AI Services", "🧠");
   ("Azure Synapse Analytics", "📈");
   ("Azure ML", "🔬");
   ("Power BI", "📊");
   ("Azure AI Search", "🔍");
   ("Azure SQL Database", "🗄️");
   ("Azure Cosmos DB", "🌌");
   ("Azure Storage", "💾");
   ("Azure Data Factory", "🏭");
   ("Azure Data Lake", "🏞️");
   ("Azure Synapse", "📈");
   ("Azure Purview", "🔍");
   ("Azure API Management", "🔌");
   ("Azure Service Bus", "🚌");
   ("Azure Logic Apps", "⚡");
   ("Azure Event Grid", "📋");
   ("Azure Event Hub", "📡");
   ("Function Apps", "⚡");
   ("Power Automate", "🔄");
   ("Microsoft Entra ID", "🔐");
   ("Azure Key Vault", "🔑");
   ("Microsoft Sentinel", "🛡️");
   ("Azure Firewall", "🔥");
   ("Microsoft Defender", "🛡️");
   ("Azure Policy", "📋");
   ("Encryption", "🔒");
   ("Azure Virtual Networks", "🌐");
   ("Azure Virtual Machines", "🖥️");
   ("Azure Monitor", "📊");
   ("Azure DevOps", "🔧");
   ("Azure Backup", "💾");
   ("Azure Policy and Compliance", "📋");
   ("Azure Firewall and DDoS", "🔥");
   ("Microsoft Sentinel and Defender", "🛡️");
   ("Azure Backup and BCDR", "💾")].

(** [get_azure_icon_symbol]: the symbol of the table, the wrench for a name
    the table does not have. *)
Definition get_azure_icon_symbol (service_name : string) : string :=
  match Py.dict_get azure_icons service_name with
  | Some symbol => symbol
  | None => "🔧"
  end.

Local Open Scope canvas_scope.

Section Environment.

(** What the code reads from outside itself. *)

(** [os.path.exists]. *)
Variable path_exists : string -> bool.

(** [os.path.join]. *)
Variable path_join : string -> string -> string.

(** Whether [add_picture] accepts the file at a path; where it does not,
    it raises and the code goes on with the next file name. *)
Variable picture_loads : string -> bool.

(** What [shape.left / 914400] and [shape.top / 914400] read for a length
    that was set as [Inches(x)]. *)
Variable read_inches : float -> float.

(** Whether [prs.save] can write the file of that name. *)
Variable write_ok : string -> bool.

(** The module flag [AI_AVAILABLE]. *)
Variable AI_AVAILABLE : bool.

(** [asyncio.run(self.create_ai_presentation(user_request))]: the text the
    remote agent answers with. *)
Variable create_ai_presentation : string -> string.

(** The file names tried for a service, in this order. *)
Definition possible_filenames (service_name : string) : list string :=
  [(Py.replace_char " " "-" (Py.lower service_name) ++ ".svg")%string;
   (Py.replace_char " " "_" (Py.lower service_name) ++ ".svg")%string;
   (Py.replace_char " " "-" (Py.lower service_name) ++ ".png")%string;
   (Py.replace_char " " "_" (Py.lower service_name) ++ ".png")%string;
   (Py.lower service_name ++ ".svg")%string;
   (Py.lower service_name ++ ".png")%string].

(** The loop over [possible_filenames] in [load_azure_icon_image]. *)
Fixpoint try_filenames (x_pos y_pos : float) (icon_folder : string)
    (filenames : list string) : MC (option Item) :=
  match filenames with
  | [] => cret None
  | filename :: rest =>
      let icon_path := path_join icon_folder filename in
      if path_exists icon_path
      then
        if picture_loads icon_path
        then
          let icon_shape := Picture icon_path x_pos y_pos 0.3 0.3 in
          add_item icon_shape ;; cret (Some icon_shape)
        else try_filenames x_pos y_pos icon_folder rest
      else try_filenames x_pos y_pos icon_folder rest
  end.

Definition load_azure_icon_image (x_pos y_pos : float)
    (service_name icon_folder : string) : MC (option Item) :=
  if negb (path_exists icon_folder) then cret None
  else try_filenames x_pos y_pos icon_folder (possible_filenames service_name).

(** The loop over [services[:4]] of one block, whose box is at [left],
    [top]; [paragraphs] are the paragraphs of the block so far.  Each pass
    adds an empty paragraph, looks for an icon and sets the text of the
    paragraph. *)
Fixpoint service_lines (left top : float) (paragraphs services : list string)
    : MC (list string) :=
  match services with
  | [] => cret paragraphs
  | service :: rest =>
      let paragraphs := paragraphs ++ [""] in
      icon_loaded <-
        load_azure_icon_image (read_inches left - 0.35)
          (read_inches top
           + Py.float_of_int (Z.of_nat (List.length paragraphs)) * 0.15)
          service "azure_icons" ;;
      let text :=
        match icon_loaded with
        | Some _ => service
        | None => (get_azure_icon_symbol service ++ " " ++ service)%string
        end in
      service_lines left top (removelast paragraphs ++ [text]) rest
  end.

(** One pass of the loop over [categories] in [create_azure_specific_slide]:
    the block is added with its fill and its name, then its services are
    written into it while their icons are added behind it. *)
Definition azure_block_pass (blocks_per_row : Z)
    (block_width block_height : float) (i : Z) (category : string)
    : MC unit :=
  match Py.dict_get service_recommendations category with
  | Some entry =>
      row <- clift (Py.floordiv i blocks_per_row) ;;
      col <- clift (Py.pymod i blocks_per_row) ;;
      let start_x := 0.5 in
      let start_y := 1.3 in
      let spacing_x := 0.3 in
      let spacing_y := 0.4 in
      let x_pos := start_x + Py.float_of_int col * (block_width + spacing_x) in
      let y_pos :=
        start_y + Py.float_of_int row * (block_height + spacing_y) in
      k <- next_index ;;
      match Py.dict_get colors category with
      | Some rgb =>
          add_item
            (AutoShape
               (mkShape ROUNDED_RECTANGLE x_pos y_pos block_width
                  block_height (Some rgb) [fst entry])) ;;
          paragraphs <-
            service_lines x_pos y_pos [fst entry] (firstn 4 (snd entry)) ;;
          set_paragraphs k paragraphs
      | None =>
          add_item
            (AutoShape
               (mkShape ROUNDED_RECTANGLE x_pos y_pos block_width
                  block_height None [""])) ;;
          craise (Py.KeyError category)
      end
  | None => cret tt
  end.

(** One pass of the loop over the cross-cutting services: the black box,
    its icon if one loads, then its text. *)
Definition azure_service_pass (security_y_pos : float) (i : Z)
    (service : string) : MC unit :=
  let box_width := 1.25 in
  let box_height := 0.6 in
  let start_x_cross := 0.5 in
  let spacing_x_cross := 0.05 in
  let x_pos :=
    start_x_cross + Py.float_of_int i * (box_width + spacing_x_cross) in
  k <- next_index ;;
  add_item
    (AutoShape
       (mkShape RECTANGLE x_pos security_y_pos box_width box_height
          (Some black) [""])) ;;
  icon_loaded <-
    load_azure_icon_image (read_inches x_pos)
      (read_inches security_y_pos - 0.2) service "azure_icons" ;;
  let text :=
    match icon_loaded with
    | Some _ => service
    | None => (get_azure_icon_symbol service ++ nl ++ service)%string
    end in
  set_paragraphs k [text].

Definition create_azure_specific_slide (categories : list string)
    : MC (float * float) :=
  add_item
    (AutoShape
       (text_box 0.5 0.3 9 0.8 "Azure Solution Architecture Building Blocks")) ;;
  let num_categories := Z.of_nat (List.length categories) in
  let '(blocks_per_row, block_width, block_height) :=
    layout_tier num_categories in
  let start_y := 1.3 in
  let spacing_y := 0.4 in
  for_enumerate_canvas
    (azure_block_pass blocks_per_row block_width block_height) 0 categories ;;
  q <- clift (Py.floordiv (num_categories - 1) blocks_per_row) ;;
  let security_y_pos :=
    start_y + Py.float_of_int (q + 1) * (block_height + spacing_y) + 0.3 in
  let box_height := 0.6 in
  for_enumerate_canvas (azure_service_pass security_y_pos) 0
    azure_cross_cutting_services ;;
  add_item
    (AutoShape
       (text_box 0.5 (security_y_pos - 0.3) 9 0.25
          "Cross-cutting Security and Infrastructure Services")) ;;
  cret (security_y_pos, box_height).

(** What [create_building_block_presentation] returns: the success text
    (with the presentation that was saved, its file name, the slide count,
    the block count and the slide descriptions it reports) or the error
    text, built from the exception of a slide routine or from a failed
    write. *)
Inductive presentation_answer : Type :=
| Created (prs : list Canvas) (filename : string)
    (slide_count building_blocks : nat) (slide_description : list string)
| ErrorCreatingPresentation (e : Py.exn)
| ErrorWriting.

(** [create_building_block_presentation].  [security_y_pos] and
    [box_height] are [None] until a slide was made; the loop that reads
    them runs once per slide. *)
Definition create_building_block_presentation (requirements : string)
    (filename : option string) (slide_type : string) : presentation_answer :=
  let categories := analyze_requirements requirements in
  let prs : list Canvas := [] in
  let strip : option (float * float) := None in
  let after_conceptual : Py.exn + list Canvas * option (float * float) :=
    if Py.list_in slide_type ["conceptual"; "both"]
    then
      match create_conceptual_slide categories [] with
      | (_, inl e) => inl e
      | (slide, inr (security_y_pos1, box_height1)) =>
          inr (prs ++ [map AutoShape slide],
               Some (security_y_pos1, box_height1))
      end
    else inr (prs, strip) in
  match after_conceptual with
  | inl e => ErrorCreatingPresentation e
  | inr (prs, strip) =>
      let after_azure : Py.exn + list Canvas * option (float * float) :=
        if Py.list_in slide_type ["azure"; "both"]
        then
          match create_azure_specific_slide categories [] with
          | (_, inl e) => inl e
          | (slide, inr (security_y_pos2, box_height2)) =>
              inr (prs ++ [slide],
                   match strip with
                   | None => Some (security_y_pos2, box_height2)
                   | Some _ => strip
                   end)
          end
        else inr (prs, strip) in
      match after_azure with
      | inl e => ErrorCreatingPresentation e
      | inr (prs, strip) =>
          let prs :=
            match strip with
            | Some (security_y_pos, box_height) =>
                let req_y_pos := security_y_pos + box_height + 0.2 in
                map
                  (fun slide =>
                     slide
                       ++ [AutoShape
                             (text_box 0.5 req_y_pos 9 0.5
                                ("Requirements: " ++ requirements)%string)])
                  prs
            | None => prs
            end in
          let filename :=
            match filename with
            | None | Some EmptyString => "Building_Blocks_Architecture.pptx"
            | Some f =>
                if negb (Py.endswith f ".pptx") then (f ++ ".pptx")%string
                else f
            end in
          if write_ok filename
          then
            let slide_count := List.length prs in
            let slide_description : list string := [] in
            let slide_description :=
              if Py.list_in slide_type ["conceptual"; "both"]
              then slide_description
                     ++ ["Conceptual Architecture Building Blocks"]
              else slide_description in
            let slide_description :=
              if Py.list_in slide_type ["azure"; "both"]
              then slide_description
                     ++ ["Azure-Specific Architecture Building Blocks"]
              else slide_description in
            Created prs filename slide_count (List.length categories)
              slide_description
          else ErrorWriting
      end
  end.

(** What [generate] returns: the answer of the direct path, the text of the
    remote agent, or the text about an unknown method. *)
Inductive generated : Type :=
| DirectAnswer (a : presentation_answer)
| AgentAnswer (text : string)
| UnknownMethod (method : string).

Definition generate (github_token : option string)
    (requirements method : string) (filename : option string)
    (slide_type : string) : generated :=
  let has_token :=
    match github_token with
    | None | Some EmptyString => false
    | Some _ => true
    end in
  let method :=
    if String.eqb method "auto"
    then if AI_AVAILABLE && has_token then "ai" else "direct"
    else method in
  let method :=
    if String.eqb method "ai"
    then
      if negb AI_AVAILABLE then "direct"
      else if negb has_token then "direct" else method
    else method in
  if String.eqb method "direct"
  then
    DirectAnswer
      (create_building_block_presentation requirements filename slide_type)
  else if String.eqb method "ai"
  then AgentAnswer (create_ai_presentation requirements)
  else UnknownMethod method.

End Environment.

Local Close Scope canvas_scope.

End UnifiedPowerPointGenerator.

Module BuildingBlockAgent.

(** [analyze_requirements], up to [needed_categories] as it stands after the
    unconditional append of "infrastructure" and before [dict.fromkeys]. *)
Definition needed_categories_appended (requirements : string) : list string :=
  let requirements_lower := Py.lower requirements in
  let needed_categories : list string := [] in
  let needed_categories :=
    if Py.str_in "user experience" requirements_lower
       || Py.str_in "ux" requirements_lower
       || Py.str_in "frontend" requirements_lower
    then needed_categories ++ ["web_application"] else needed_categories in
  let needed_categories :=
    if Py.str_in "application layer" requirements_lower
       || Py.str_in "app layer" requirements_lower
    then needed_categories ++ ["web_application"] else needed_categories in
  let needed_categories :=
    if Py.str_in "data and intelligence" requirements_lower
       || Py.str_in "data intelligence" requirements_lower
       || Py.str_in "analytics" requirements_lower
    then (needed_categories ++ ["ai_analytics"]) ++ ["data_platform"]
    else needed_categories in
  let needed_categories :=
    if Py.str_in "integration layer" requirements_lower
    then needed_categories ++ ["integration"] else needed_categories in
  let ai_keywords :=
    ["ai"; "analytics"; "machine learning"; "ml"; "data science"; "openai";
     "chatbot"; "intelligent"; "prediction"] in
  let needed_categories :=
    if Py.any_in ai_keywords requirements_lower
    then needed_categories ++ ["ai_analytics"] else needed_categories in
  let web_keywords :=
    ["web"; "website"; "portal"; "api"; "frontend"; "backend"; "application";
     "app"] in
  let needed_categories :=
    if Py.any_in web_keywords requirements_lower
    then needed_categories ++ ["web_application"] else needed_categories in
  let data_keywords :=
    ["database"; "data"; "storage"; "sql"; "cosmos"; "warehouse"; "lake"] in
  let needed_categories :=
    if Py.any_in data_keywords requirements_lower
    then needed_categories ++ ["data_platform"] else needed_categories in
  let integration_keywords :=
    ["integration"; "api"; "messaging"; "event"; "workflow"; "automation"] in
  let needed_categories :=
    if Py.any_in integration_keywords requirements_lower
    then needed_categories ++ ["integration"] else needed_categories in
  let security_keywords :=
    ["security"; "authentication"; "authorization"; "identity"; "firewall";
     "compliance"] in
  let needed_categories :=
    if Py.any_in security_keywords requirements_lower
    then needed_categories ++ ["security"] else needed_categories in
  needed_categories ++ ["infrastructure"].

(** The category sequence of the classifier: [needed_categories] after the
    [dict.fromkeys] pass. *)
Definition needed_categories (requirements : string) : list string :=
  Py.dict_fromkeys (needed_categories_appended requirements).

(** The returned text: a header and one bullet line per category. *)
Definition analyze_requirements (requirements : string) : string :=
  let result :=
    ("Analysis of requirements: '" ++ requirements ++ "'" ++ nl ++ nl
       ++ "Identified solution categories:" ++ nl)%string in
  fold_left
    (fun result category =>
       (result ++ bullet ++ " "
          ++ Py.title (Py.replace_char "_" " " category) ++ nl)%string)
    (needed_categories requirements) result.

(** The categories in the order in which the checks append them. *)
Definition check_order : list string :=
  ["web_application"; "web_application"; "ai_analytics"; "data_platform";
   "integration"; "ai_analytics"; "web_application"; "data_platform";
   "integration"; "security"; "infrastructure"].

(** [service_recommendations]: category id, primary and supporting
    services. *)
Definition service_recommendations : Py.dict (list string * list string) :=
  [("ai_analytics",
    (["Azure OpenAI"; "Microsoft Fabric"; "Azure Databricks"],
     ["Azure AI Services"; "Azure Synapse Analytics"; "Azure ML"; "Power BI";
      "Azure AI Search"]));
   ("web_application",
    (["Azure Web Apps"; "Azure Container Apps"; "Azure Kubernetes Service"],
     ["Azure App Service"; "Azure Front Door"; "Azure Application Gateway";
      "Azure Load Balancer"]));
   ("data_platform",
    (["Azure SQL Database"; "Azure Cosmos DB"; "Azure Storage"],
     ["Azure Data Factory"; "Azure Data Lake"; "Azure Synapse";
      "Azure Purview"]));
   ("integration",
    (["Azure API Management"; "Azure Service Bus"; "Azure Logic Apps"],
     ["Azure Event Grid"; "Azure Event Hub"; "Function Apps";
      "Power Automate"]));
   ("security",
    (["Microsoft Entra ID"; "Azure Key Vault"; "Microsoft Sentinel"],
     ["Azure Firewall"; "Microsoft Defender"; "Azure Policy";
      "Azure Monitor"]));
   ("infrastructure",
    (["Azure Virtual Networks"; "Azure Virtual Machines"; "Azure Backup"],
     ["Azure DevOps"; "Azure Monitor"; "Azure Policy and Compliance"]))].

Definition building_block_colors : Py.dict RGBColor :=
  [("ai_analytics", (138, 43, 226)%Z);
   ("web_application", (0, 120, 212)%Z);
   ("data_platform", (0, 188, 140)%Z);
   ("integration", (255, 140, 0)%Z);
   ("security", (232, 17, 35)%Z);
   ("infrastructure", (16, 110, 190)%Z);
   ("default", (68, 68, 68)%Z)].

Definition cross_cutting_services : list string :=
  ["Azure Policy and Compliance"; "Azure Firewall and DDoS";
   "Microsoft Sentinel and Defender"; "Encryption"; "Azure Monitor";
   "Azure Backup and BCDR"; "Microsoft Entra ID"].

(** The [if ... elif ... else] block:
    [(blocks_per_row, block_width, block_height)]. *)
Definition layout_tier (num_categories : Z) : Z * float * float :=
  if (num_categories <=? 3)%Z then (num_categories, 2.8, 2.0)
  else if (num_categories <=? 6)%Z then (3%Z, 2.5, 1.8)
  else (3%Z, 2.2, 1.5).

Definition start_x : float := 0.5.
Definition start_y : float := 1.8.
Definition spacing_x : float := 0.3.
Definition spacing_y : float := 0.4.
Definition box_width : float := 1.25.
Definition box_height : float := 0.6.
Definition start_x_cross : float := 0.5.
Definition spacing_x_cross : float := 0.05.

(** The block drawn for [category] with the counters at [row], [col]. *)
Definition block_shape (block_width block_height : float) (row col : Z)
    (category : string) (services : list string * list string) : Shape :=
  let x_pos := start_x + Py.float_of_int col * (block_width + spacing_x) in
  let y_pos := start_y + Py.float_of_int row * (block_height + spacing_y) in
  let rgb :=
    match Py.dict_get building_block_colors category with
    | Some rgb => rgb
    | None => (68, 68, 68)%Z
    end in
  mkShape ROUNDED_RECTANGLE x_pos y_pos block_width block_height (Some rgb)
    (Py.title (Py.replace_char "_" " " category)
       :: map bullet_line (firstn 4 (fst services))).

(** The loop over [categories]; the locals [row] and [col] it updates are
    carried from one pass to the next. *)
Fixpoint place_blocks (blocks_per_row : Z) (block_width block_height : float)
    (row col : Z) (categories : list string) : M unit :=
  match categories with
  | [] => ret tt
  | category :: rest =>
      match Py.dict_get service_recommendations category with
      | Some services =>
          add_shape
            (block_shape block_width block_height row col category services) ;;
          let col := (col + 1)%Z in
          if (col >=? blocks_per_row)%Z
          then place_blocks blocks_per_row block_width block_height
                 (row + 1)%Z 0%Z rest
          else place_blocks blocks_per_row block_width block_height
                 row col rest
      | None =>
          place_blocks blocks_per_row block_width block_height row col rest
      end
  end.

(** One pass of the loop over the cross-cutting services. *)
Definition service_box_pass (security_y_pos : float) (i : Z)
    (service : string) : Shape :=
  let x_pos :=
    start_x_cross + Py.float_of_int i * (box_width + spacing_x_cross) in
  service_box x_pos security_y_pos box_width box_height service.

(** [start_y + ((num_categories - 1) // blocks_per_row + 1)
              * (block_height + spacing_y) + 0.3], the division done. *)
Definition strip_origin (q : Z) (block_height : float) : float :=
  start_y + Py.float_of_int (q + 1) * (block_height + spacing_y) + 0.3.

Definition strip_header (security_y_pos : float) : Shape :=
  text_box 0.5 (security_y_pos - 0.3) 9 0.25
    "Cross-cutting Security and Infrastructure Services".

Definition title_box (title : string) : Shape :=
  text_box 0.5 0.5 9 1 title.

Definition requirements_box (security_y_pos : float) (requirements : string)
    : Shape :=
  let req_y_pos := security_y_pos + box_height + 0.2 in
  text_box 0.5 req_y_pos 9 0.5 ("Requirements: " ++ requirements)%string.

(** The body of the [try] block of [create_building_block_slide], on the
    slide it has just added. *)
Definition draw_building_block_slide (title requirements : string)
    (categories : list string) : M unit :=
  add_shape (title_box title) ;;
  let num_categories :=
    Z.of_nat
      (List.length (filter (Py.dict_has service_recommendations) categories)) in
  let '(blocks_per_row, block_width, block_height) :=
    layout_tier num_categories in
  place_blocks blocks_per_row block_width block_height 0 0 categories ;;
  q <- lift (Py.floordiv (num_categories - 1) blocks_per_row) ;;
  let security_y_pos := strip_origin q block_height in
  for_enumerate
    (fun i service => add_shape (service_box_pass security_y_pos i service))
    0 cross_cutting_services ;;
  add_shape (strip_header security_y_pos) ;;
  add_shape (requirements_box security_y_pos requirements) ;;
  ret tt.

(** The text [create_building_block_slide] returns: success with the title
    and [len(categories)], or the caught exception. *)
Inductive status : Type :=
| Created (title : string) (building_blocks : nat)
| ErrorCreating (e : Py.exn).

(** [create_building_block_slide] on the presentation the agent keeps
    between tool calls: the new slide stays in it, also when drawing
    stopped half way. *)
Definition create_building_block_slide (title requirements : string)
    (categories : list string) (presentation : list Slide)
    : list Slide * status :=
  match draw_building_block_slide title requirements categories [] with
  | (slide, inr _) => (presentation ++ [slide], Created title (List.length categories))
  | (slide, inl e) => (presentation ++ [slide], ErrorCreating e)
  end.

(** [get_service_recommendations]: a header and, for each id of the catalog
    in [categories], its name and its two service lists. *)
Definition get_service_recommendations (categories : list string) : string :=
  let result := ("Azure Service Recommendations:" ++ nl ++ nl)%string in
  fold_left
    (fun result category =>
       match Py.dict_get service_recommendations category with
       | Some services =>
           let result :=
             (result ++ Py.title (Py.replace_char "_" " " category) ++ ":"
                ++ nl)%string in
           let result :=
             (result ++ "  Primary services: "
                ++ Py.join ", " (fst services) ++ nl)%string in
           (result ++ "  Supporting services: "
              ++ Py.join ", " (snd services) ++ nl ++ nl)%string
       | None => result
       end)
    categories result.

(** What [save_presentation] answers: that there is nothing to save, the
    success text (with the file name it saved under and the slide count),
    or the error text of a failed write. *)
Inductive save_answer : Type :=
| NoPresentation
| SavedPresentation (filename : string) (slide_count : nat)
| ErrorSaving.

(** [save_presentation].  [presentation] is [None] while the attribute
    [self.presentation] is missing.  [write_ok] tells whether
    [Presentation.save] can write the file of that name in the working
    directory. *)
Definition save_presentation (write_ok : string -> bool)
    (presentation : option (list Slide)) (filename : string) : save_answer :=
  match presentation with
  | None => NoPresentation
  | Some slides =>
      let filename :=
        if negb (Py.endswith filename ".pptx")
        then (filename ++ ".pptx")%string else filename in
      if write_ok filename
      then SavedPresentation filename (List.length slides)
      else ErrorSaving
  end.

End BuildingBlockAgent.

Module Direct := DirectBuildingBlockGenerator.
Module Unified := UnifiedPowerPointGenerator.
Module Agent := BuildingBlockAgent.

(** ** The tools of the presentation agent *)

(** [powerpoint_agent.py]; the unified generator holds the same table and
    the same tools under the names [ai_get_azure_services],
    [ai_create_architecture_diagram] and [ai_save_presentation]. *)
Module PowerPointAgent.

Local Open Scope float_scope.

Definition azure_building_blocks : Py.dict (Py.dict string) :=
  [("compute",
     [("virtual_machines",
       "Azure Virtual Machines (VMs) provide on-demand, scalable computing resources");
      ("app_service",
       "Azure App Service hosts web apps, REST APIs, and mobile backends");
      ("azure_functions",
       "Azure Functions enables serverless compute for event-driven applications");
      ("container_instances",
       "Azure Container Instances run containers without managing servers");
      ("kubernetes_service",
       "Azure Kubernetes Service (AKS) manages containerized applications")]);
   ("storage",
     [("blob_storage",
       "Azure Blob Storage stores massive amounts of unstructured object data");
      ("disk_storage",
       "Azure Disk Storage provides high-performance, durable block storage");
      ("files",
       "Azure Files offers fully managed file shares in the cloud");
      ("queue_storage",
       "Azure Queue Storage provides messaging between application components");
      ("table_storage",
       "Azure Table Storage stores structured NoSQL data")]);
   ("networking",
     [("virtual_network",
       "Azure Virtual Network enables secure communication between Azure resources");
      ("load_balancer",
       "Azure Load Balancer distributes incoming traffic across healthy VMs");
      ("application_gateway",
       "Azure Application Gateway provides application-level routing and load balancing");
      ("vpn_gateway",
       "Azure VPN Gateway connects on-premises networks to Azure");
      ("express_route",
       "Azure ExpressRoute creates private connections to Azure datacenters")]);
   ("database",
     [("sql_database",
       "Azure SQL Database provides managed relational database service");
      ("cosmos_db",
       "Azure Cosmos DB offers globally distributed, multi-model database service");
      ("postgresql",
       "Azure Database for PostgreSQL provides managed PostgreSQL service");
      ("mysql",
       "Azure Database for MySQL offers managed MySQL service");
      ("redis_cache",
       "Azure Cache for Redis provides in-memory data caching")]);
   ("ai_ml",
     [("cognitive_services",
       "Azure Cognitive Services provides AI capabilities via REST APIs");
      ("machine_learning",
       "Azure Machine Learning enables building and deploying ML models");
      ("ai_search",
       "Azure AI Search provides full-text search capabilities");
      ("openai_service",
       "Azure OpenAI Service offers OpenAI models with enterprise security");
      ("bot_service",
       "Azure Bot Service builds conversational AI experiences")]);
   ("security",
     [("key_vault",
       "Azure Key Vault securely stores and manages secrets, keys, and certificates");
      ("active_directory",
       "Azure Active Directory provides identity and access management");
      ("security_center",
       "Azure Security Center provides unified security management");
      ("sentinel",
       "Azure Sentinel offers cloud-native SIEM and SOAR capabilities");
      ("firewall",
       "Azure Firewall provides network security filtering")]);
   ("monitoring",
     [("monitor",
       "Azure Monitor provides comprehensive monitoring for applications and infrastructure");
      ("log_analytics",
       "Azure Log Analytics collects and analyzes log data");
      ("application_insights",
       "Azure Application Insights monitors live applications");
      ("service_health",
       "Azure Service Health provides insights into Azure service issues");
      ("advisor",
       "Azure Advisor provides personalized recommendations")])].

(** [get_azure_services]. *)
Definition get_azure_services (category : string) : string :=
  match Py.dict_get azure_building_blocks (Py.lower category) with
  | Some services =>
      let result :=
        ("Azure " ++ Py.title category ++ " Services:" ++ nl ++ nl)%string in
      fold_left
        (fun result item =>
           let '(service, description) := item in
           (result ++ bullet ++ " "
              ++ Py.title (Py.replace_char "_" " " service) ++ ": "
              ++ description ++ nl)%string)
        services result
  | None =>
      let available_categories :=
        Py.join ", " (map fst azure_building_blocks) in
      ("Category '" ++ category ++ "' not found. Available categories: "
         ++ available_categories)%string
  end.

Definition colors : list RGBColor :=
  [(0, 120, 212)%Z; (0, 188, 140)%Z; (255, 140, 0)%Z; (232, 17, 35)%Z;
   (136, 23, 152)%Z; (16, 110, 190)%Z].

(** The box drawn for the component at index [i]. *)
Definition component_box (i : Z) (component : string) : Shape :=
  let start_x := 1.5 in
  let start_y := 2.0 in
  let box_width := 2.0 in
  let box_height := 1.0 in
  let spacing := 0.5 in
  let x_pos := start_x + Py.float_of_int (i mod 3) * (box_width + spacing) in
  let y_pos := start_y + Py.float_of_int (i / 3) * (box_height + spacing) in
  mkShape ROUNDED_RECTANGLE x_pos y_pos box_width box_height
    (Some
       (nth (Z.to_nat (i mod Z.of_nat (List.length colors))) colors
          (0, 0, 0)%Z))
    [Py.title (Py.replace_char "_" " " component)].

(** What [create_architecture_diagram] returns: the success text (with the
    slide number, the title and the component count it reports) or the
    error text, here always for the attribute that was not found. *)
Inductive diagram_answer : Type :=
| CreatedDiagram (slide_number : nat) (title : string) (components : nat)
| ErrorCreatingDiagram (missing_attribute : string).

Section Library.

(** Whether the text frame of a shape has an attribute [text_frame_format];
    reading an attribute that is missing raises [AttributeError]. *)
Variable has_text_frame_format : bool.

(** The loop over [components[:6]], counting from [i]: the slide, and
    whether the loop was left by the exception. *)
Fixpoint draw_components (i : Z) (components : list string) (slide : Slide)
    : Slide * bool :=
  match components with
  | [] => (slide, false)
  | component :: rest =>
      let slide := slide ++ [component_box i component] in
      if has_text_frame_format then draw_components (i + 1) rest slide
      else (slide, true)
  end.

(** [create_architecture_diagram] on the presentation the agent keeps (the
    empty list before the first slide). *)
Definition create_architecture_diagram (title : string)
    (components : list string) (description : string)
    (presentation : list Slide) : list Slide * diagram_answer :=
  let slide := [text_box 0.5 0.5 9 1 title] in
  match draw_components 0 (firstn 6 components) slide with
  | (slide, true) =>
      (presentation ++ [slide], ErrorCreatingDiagram "text_frame_format")
  | (slide, false) =>
      let slide := slide ++ [text_box 0.5 5.5 9 1.5 description] in
      let presentation := presentation ++ [slide] in
      (presentation,
       CreatedDiagram (List.length presentation) title
         (List.length components))
  end.

End Library.

End PowerPointAgent.

(** ** The generator of [fixed_generator.py] *)

Module FixedBuildingBlockGenerator.

(** [analyze_with_ai]. *)
Definition analyze_with_ai (requirements : string) : list string :=
  Direct.analyze_requirements requirements.

(** [create_slide].  [agent_starts] tells whether [initialize_ai] returns;
    where it raises, the [except] branch runs. *)
Definition create_slide (github_token : option string) (agent_starts : bool)
    (requirements : string) (use_ai : bool) : Direct.outcome :=
  let has_token :=
    match github_token with
    | None | Some EmptyString => false
    | Some _ => true
    end in
  if use_ai && has_token
  then
    if agent_starts
    then
      let categories := analyze_with_ai requirements in
      Direct.create_building_block_slide requirements None
    else Direct.create_building_block_slide requirements None
  else Direct.create_building_block_slide requirements None.

End FixedBuildingBlockGenerator.

(** ** Notions used in the statements *)

(** A byte that white space is written with: an ASCII white space
    character, or a byte of a longer UTF-8 sequence. *)
Definition space_byte (c : ascii) : bool :=
  Py.is_space_char c || (128 <=? nat_of_ascii c)%nat.

Fixpoint only_space_bytes (s : string) : bool :=
  match s with
  | EmptyString => true
  | String c t => space_byte c && only_space_bytes t
  end.

(** A keyword that begins with a character that is no white space and no
    part of one: an ASCII character other than white space. *)
Definition starts_with_nonspace (term : string) : bool :=
  match term with
  | EmptyString => false
  | String c _ => negb (space_byte c)
  end.

(** U+00A0, the no-break space, in UTF-8. *)
Definition nbsp : string :=
  String (ascii_of_nat 194) (String (ascii_of_nat 160) EmptyString).

(** U+3000, the ideographic space, in UTF-8. *)
Definition ideographic_space : string :=
  String (ascii_of_nat 227) (String (ascii_of_nat 128)
    (String (ascii_of_nat 128) EmptyString)).

(** [[f(i, a) for i, a in enumerate(l, i)]]. *)
Fixpoint enumerate_map {A B : Type} (f : Z -> A -> B) (i : Z) (l : list A)
    : list B :=
  match l with
  | [] => []
  | a :: t => f i a :: enumerate_map f (i + 1) t
  end.

(** In the words of the specification (4.2): walk the category list in
    order; the id at index [i] owns the slot [row = i div blocks_per_row],
    [col = i mod blocks_per_row]; an id absent from the catalog draws
    nothing and its slot stays empty.  Compared with the loop of
    [create_conceptual_slide]. *)
Fixpoint grid_by_index (blocks_per_row : Z) (block_width block_height : float)
    (i : Z) (categories : list string) : list Shape :=
  match categories with
  | [] => []
  | category :: rest =>
      match Py.dict_get Direct.conceptual_blocks category,
            Py.dict_get Direct.colors category with
      | Some entry, Some rgb =>
          [Direct.block_shape block_width block_height
             (i / blocks_per_row) (i mod blocks_per_row) (Some rgb)
             (Direct.block_text entry)]
      | _, _ => []
      end ++ grid_by_index blocks_per_row block_width block_height (i + 1) rest
  end.

(** The same walk when only the ids of the catalog take a slot: the id that
    has [k] catalog ids before it owns the slot [row = k div blocks_per_row],
    [col = k mod blocks_per_row].  Compared with the loop of the agent's
    [create_building_block_slide]. *)
Fixpoint grid_by_rank (blocks_per_row : Z) (block_width block_height : float)
    (k : Z) (categories : list string) : list Shape :=
  match categories with
  | [] => []
  | category :: rest =>
      match Py.dict_get Agent.service_recommendations category with
      | Some services =>
          Agent.block_shape block_width block_height
            (k / blocks_per_row) (k mod blocks_per_row) category services
            :: grid_by_rank blocks_per_row block_width block_height
                 (k + 1) rest
      | None =>
          grid_by_rank blocks_per_row block_width block_height k rest
      end
  end.

(** Two slides hold shapes of the same kinds in the same boxes. *)
Definition same_geometry (s1 s2 : Slide) : Prop :=
  map geometry s1 = map geometry s2.

(** Two drawing computations that, started on slides of the same geometry,
    leave slides of the same geometry and end alike (same value or same
    exception). *)
Definition sim {A : Type} (m1 m2 : M A) : Prop :=
  forall s1 s2,
    same_geometry s1 s2 ->
    same_geometry (fst (m1 s1)) (fst (m2 s2)) /\ snd (m1 s1) = snd (m2 s2).

(** Two category lists that agree, position by position, on membership in
    the catalog [d]. *)
Definition same_membership {V : Type} (d : Py.dict V)
    (l1 l2 : list string) : Prop :=
  Forall2 (fun a b => Py.dict_has d a = Py.dict_has d b) l1 l2.

(** The appends of the direct [analyze_requirements], as a function of what
    its four tests found. *)
Definition direct_appends (web ai data integration : bool) : list string :=
  let categories : list string := [] in
  let categories :=
    if web then categories ++ ["web_application"] else categories in
  let categories :=
    if ai
    then
      let categories := categories ++ ["ai_analytics"] in
      if data then categories ++ ["data_platform"] else categories
    else categories in
  let categories :=
    if integration then categories ++ ["integration"] else categories in
  categories.

(** The appends of the agent's [analyze_requirements], as a function of
    what its nine tests found, in the order of the tests. *)
Definition agent_appends (ux app_layer intelligence integration_layer
    ai web data integration security : bool) : list string :=
  let needed_categories : list string := [] in
  let needed_categories :=
    if ux then needed_categories ++ ["web_application"]
    else needed_categories in
  let needed_categories :=
    if app_layer then needed_categories ++ ["web_application"]
    else needed_categories in
  let needed_categories :=
    if intelligence
    then (needed_categories ++ ["ai_analytics"]) ++ ["data_platform"]
    else needed_categories in
  let needed_categories :=
    if integration_layer then needed_categories ++ ["integration"]
    else needed_categories in
  let needed_categories :=
    if ai then needed_categories ++ ["ai_analytics"]
    else needed_categories in
  let needed_categories :=
    if web then needed_categories ++ ["web_application"]
    else needed_categories in
  let needed_categories :=
    if data then needed_categories ++ ["data_platform"]
    else needed_categories in
  let needed_categories :=
    if integration then needed_categories ++ ["integration"]
    else needed_categories in
  let needed_categories :=
    if security then needed_categories ++ ["security"]
    else needed_categories in
  needed_categories ++ ["infrastructure"].

(** A canvas and a slide hold shapes of the same kinds in the same boxes;
    the pictures of the canvas are left aside. *)
Definition same_shapes (c : Canvas) (s : Slide) : Prop :=
  map geometry (drawn c) = map geometry s.

(** A drawing on a canvas and a drawing on a slide that, started on the
    same shapes, leave the same shapes and end alike. *)
Definition canvas_sim {A : Type} (m1 : MC A) (m2 : M A) : Prop :=
  forall c s,
    same_shapes c s ->
    same_shapes (fst (m1 c)) (fst (m2 s)) /\ snd (m1 c) = snd (m2 s).

Local Close Scope float_scope.

(** * Properties *)

(** ** The Python primitives *)

Module PyFacts.

Lemma list_in_true (x : string) (l : list string) :
  Py.list_in x l = true <-> In x l.
Proof.
  unfold Py.list_in. rewrite existsb_exists. split.
  - intros [y [Hy Heq]]. apply String.eqb_eq in Heq. now subst y.
  - intros Hx. exists x. split; [assumption | apply String.eqb_refl].
Qed.

Lemma list_in_app (x : string) (l1 l2 : list string) :
  Py.list_in x (l1 ++ l2) = Py.list_in x l1 || Py.list_in x l2.
Proof. apply existsb_app. Qed.

Section Filters.

Context {A : Type}.
Implicit Types p q : A -> bool.

Lemma filter_swap p q (l : list A) :
  filter p (filter q l) = filter q (filter p l).
Proof.
  induction l as [| a l IH]; simpl; [reflexivity |].
  destruct (p a) eqn:Hp, (q a) eqn:Hq; simpl; rewrite ?Hp, ?Hq, IH;
    reflexivity.
Qed.

Lemma filter_absorb p q (l : list A) :
  (forall y, p y = true -> q y = true) ->
  filter p (filter q l) = filter p l.
Proof.
  intros Hpq. induction l as [| a l IH]; simpl; [reflexivity |].
  destruct (q a) eqn:Hq; simpl.
  - now rewrite IH.
  - destruct (p a) eqn:Hp; [| exact IH].
    apply Hpq in Hp. congruence.
Qed.

Lemma filter_both p q (l : list A) :
  filter (fun y => p y && q y) l = filter p (filter q l).
Proof.
  induction l as [| a l IH]; simpl; [reflexivity |].
  destruct (q a); simpl; rewrite ?andb_true_r, ?andb_false_r.
  - destruct (p a); now rewrite IH.
  - exact IH.
Qed.

Lemma filter_all p (l : list A) :
  (forall y, p y = true) -> filter p l = l.
Proof.
  intros Hp. induction l as [| a l IH]; simpl; [reflexivity |].
  now rewrite Hp, IH.
Qed.

End Filters.

(** Filtering commutes with keeping the first occurrences. *)
Lemma first_occurrences_filter (p : string -> bool) (l : list string) :
  Py.first_occurrences (filter p l) = filter p (Py.first_occurrences l).
Proof.
  induction l as [| x l IH]; simpl; [reflexivity |].
  destruct (p x) eqn:Hp; simpl.
  - rewrite IH. f_equal. apply filter_swap.
  - rewrite IH. symmetry. apply filter_absorb.
    intros y Hy. destruct (String.eqb_spec y x) as [-> | _];
      [congruence | reflexivity].
Qed.

(** The dict filled from [l], starting from the keys [d]. *)
Lemma fromkeys_from (l d : list string) :
  fold_left (fun d k => if Py.list_in k d then d else d ++ [k]) l d
  = d ++ Py.first_occurrences
           (filter (fun k => negb (Py.list_in k d)) l).
Proof.
  revert d. induction l as [| x l IH]; intros d; simpl.
  - now rewrite app_nil_r.
  - destruct (Py.list_in x d) eqn:Hx; simpl.
    + apply IH.
    + rewrite IH, <- app_assoc. simpl. do 2 f_equal.
      rewrite <- first_occurrences_filter, <- filter_both.
      f_equal. apply filter_ext. intros y.
      rewrite list_in_app. unfold Py.list_in at 2. simpl.
      rewrite orb_false_r, negb_orb. apply andb_comm.
Qed.

(** [dict.fromkeys] keeps exactly the first occurrences, in their order. *)
Lemma dict_fromkeys_first_occurrences (l : list string) :
  Py.dict_fromkeys l = Py.first_occurrences l.
Proof.
  unfold Py.dict_fromkeys. rewrite fromkeys_from. simpl.
  now rewrite filter_all.
Qed.

Lemma first_occurrences_In (x : string) (l : list string) :
  In x (Py.first_occurrences l) <-> In x l.
Proof.
  induction l as [| a l IH]; simpl; [tauto |].
  rewrite filter_In, IH.
  destruct (String.eqb_spec x a) as [-> | Hne]; simpl.
  - split; auto.
  - split.
    + intros [Ha | [Hx _]]; auto.
    + intros [Ha | Hx]; auto.
Qed.

Lemma first_occurrences_NoDup (l : list string) :
  NoDup (Py.first_occurrences l).
Proof.
  induction l as [| a l IH]; simpl; constructor.
  - rewrite filter_In. intros [_ Hne].
    now rewrite String.eqb_refl in Hne.
  - now apply NoDup_filter.
Qed.

Lemma dict_fromkeys_NoDup (l : list string) : NoDup (Py.dict_fromkeys l).
Proof.
  rewrite dict_fromkeys_first_occurrences. apply first_occurrences_NoDup.
Qed.

Lemma dict_fromkeys_In (x : string) (l : list string) :
  In x (Py.dict_fromkeys l) <-> In x l.
Proof.
  rewrite dict_fromkeys_first_occurrences. apply first_occurrences_In.
Qed.

Lemma is_subsequence_In (x : string) (order l : list string) :
  Py.is_subsequence l order = true -> In x l -> In x order.
Proof.
  revert l. induction order as [| y order IH]; intros [| a l] Hsub Hx;
    simpl in *; try contradiction; try discriminate.
  destruct (String.eqb_spec a y) as [-> | Hne].
  - destruct Hx as [-> | Hx]; [now left | right; eauto].
  - right. apply (IH (a :: l)); simpl; auto.
Qed.

(** *** Whitespace-only text holds no keyword *)

Lemma lower_char_space (c : ascii) :
  space_byte c = true -> Py.lower_char c = c.
Proof.
  destruct c as [[|] [|] [|] [|] [|] [|] [|] [|]];
    intros H; try discriminate H; reflexivity.
Qed.

Lemma high_byte_space (c : ascii) (n : nat) :
  (nat_of_ascii c =? n)%nat = true -> (128 <=? n)%nat = true ->
  space_byte c = true.
Proof.
  intros Hc Hn. apply Nat.eqb_eq in Hc. unfold space_byte.
  rewrite Hc, Hn. apply orb_true_r.
Qed.

Lemma is_space_2_bytes (c1 c2 : ascii) :
  Py.is_space_2 c1 c2 = true ->
  space_byte c1 = true /\ space_byte c2 = true.
Proof.
  unfold Py.is_space_2. cbv zeta. intros H.
  apply andb_true_iff in H as [H1 H2]. apply orb_true_iff in H2.
  split; [now apply (high_byte_space c1 194) |].
  destruct H2 as [H2 | H2];
    [now apply (high_byte_space c2 133) | now apply (high_byte_space c2 160)].
Qed.

Lemma is_space_3_bytes (c1 c2 c3 : ascii) :
  Py.is_space_3 c1 c2 c3 = true ->
  space_byte c1 = true /\ space_byte c2 = true /\ space_byte c3 = true.
Proof.
  unfold Py.is_space_3. cbv zeta. intros H.
  repeat match type of H with
         | (_ || _) = true => apply orb_true_iff in H as [H | H]
         end;
    repeat match goal with
           | H : (_ && _) = true |- _ => apply andb_true_iff in H as [? ?]
           | H : (_ || _) = true |- _ => apply orb_true_iff in H as [? | ?]
           end;
    repeat split;
    first
      [ eapply high_byte_space; [eassumption | reflexivity]
      | unfold space_byte; apply orb_true_iff; right; assumption ].
Qed.

(** Every byte of a whitespace-only text is a byte white space is written
    with. *)
Lemma all_space_bytes_upto (n : nat) :
  forall s,
    (String.length s <= n)%nat ->
    Py.all_space s = true -> only_space_bytes s = true.
Proof.
  induction n as [| n IH]; intros s Hlen.
  - destruct s; [reflexivity | cbn in Hlen; lia].
  - destruct s as [| c1 t1]; [reflexivity |].
    cbn [String.length] in Hlen. cbn [Py.all_space only_space_bytes].
    destruct (Py.is_space_char c1) eqn:H1.
    + intros H. unfold space_byte at 1. rewrite H1. cbn [orb andb].
      apply IH; [lia | exact H].
    + destruct t1 as [| c2 t2]; [discriminate |].
      cbn [String.length] in Hlen. cbn [only_space_bytes].
      destruct (Py.is_space_2 c1 c2) eqn:H2.
      * intros H. destruct (is_space_2_bytes c1 c2 H2) as [-> ->].
        cbn [andb]. apply IH; [lia | exact H].
      * destruct t2 as [| c3 t3]; [discriminate |].
        cbn [String.length] in Hlen. cbn [only_space_bytes].
        intros H. apply andb_true_iff in H as [H3 H].
        destruct (is_space_3_bytes c1 c2 c3 H3) as (-> & -> & ->).
        cbn [andb]. apply IH; [lia | exact H].
Qed.

Lemma all_space_bytes (s : string) :
  Py.all_space s = true -> only_space_bytes s = true.
Proof. apply (all_space_bytes_upto (String.length s)). lia. Qed.

Lemma lower_space_bytes (s : string) :
  only_space_bytes s = true -> Py.lower s = s.
Proof.
  induction s as [| c s IH]; cbn [only_space_bytes Py.lower];
    [reflexivity |].
  intros H. apply andb_true_iff in H as [Hc Hs].
  now rewrite (lower_char_space c Hc), IH.
Qed.

(** Lowering leaves a whitespace-only text as it is, as [str.lower]
    does. *)
Lemma lower_all_space (s : string) :
  Py.all_space s = true -> Py.lower s = s.
Proof. intros H. now apply lower_space_bytes, all_space_bytes. Qed.

Lemma str_in_space_bytes (term s : string) :
  starts_with_nonspace term = true ->
  only_space_bytes s = true ->
  Py.str_in term s = false.
Proof.
  destruct term as [| c term]; simpl; [discriminate |].
  intros Hc. apply negb_true_iff in Hc.
  induction s as [| a s IH]; simpl; [reflexivity |].
  intros H. apply andb_true_iff in H as [Ha Hs].
  rewrite (IH Hs), orb_false_r.
  destruct (ascii_dec c a) as [-> | _]; [congruence | reflexivity].
Qed.

Lemma str_in_all_space (term s : string) :
  starts_with_nonspace term = true ->
  Py.all_space s = true ->
  Py.str_in term s = false.
Proof.
  intros Hterm Hs. now apply str_in_space_bytes, all_space_bytes.
Qed.

Lemma any_in_all_space (terms : list string) (s : string) :
  forallb starts_with_nonspace terms = true ->
  Py.all_space s = true ->
  Py.any_in terms s = false.
Proof.
  intros Hterms Hs. unfold Py.any_in.
  induction terms as [| t terms IH]; simpl in *; [reflexivity |].
  apply andb_true_iff in Hterms as [Ht Hterms].
  now rewrite (str_in_all_space t s Ht Hs), IH.
Qed.

End PyFacts.

(** ** The classifiers *)

(** Case analysis on every keyword check that is left in the goal. *)
Ltac case_checks :=
  repeat match goal with
         | |- context [if ?b then _ else _] => destruct b
         end.

(** The unified generator carries a verbatim copy of the direct classifier. *)
Lemma unified_analyze_requirements (requirements : string) :
  Unified.analyze_requirements requirements
  = Direct.analyze_requirements requirements.
Proof. reflexivity. Qed.

Lemma direct_appended_in_check_order (requirements : string) :
  Py.is_subsequence (Direct.analyze_requirements_appended requirements)
    Direct.check_order = true.
Proof.
  cbv beta zeta delta [Direct.analyze_requirements_appended].
  case_checks; reflexivity.
Qed.

Lemma agent_appended_in_check_order (requirements : string) :
  Py.is_subsequence (Agent.needed_categories_appended requirements)
    Agent.check_order = true.
Proof.
  cbv beta zeta delta [Agent.needed_categories_appended].
  case_checks; reflexivity.
Qed.

(** The direct classifier appends no id twice, so its final
    [dict.fromkeys] changes nothing. *)
Lemma direct_fromkeys_is_identity (requirements : string) :
  Direct.analyze_requirements requirements
  = Direct.analyze_requirements_appended requirements.
Proof.
  unfold Direct.analyze_requirements.
  cbv beta zeta delta [Direct.analyze_requirements_appended].
  case_checks; reflexivity.
Qed.

Lemma agent_infrastructure_last (requirements : string) :
  exists front,
    Agent.needed_categories requirements = front ++ ["infrastructure"].
Proof.
  unfold Agent.needed_categories.
  cbv beta zeta delta [Agent.needed_categories_appended].
  case_checks;
    match goal with
    | |- exists front, ?l = _ => exists (removelast l)
    end; reflexivity.
Qed.

Lemma direct_never_infrastructure (requirements : string) :
  ~ In "infrastructure" (Direct.analyze_requirements requirements).
Proof.
  unfold Direct.analyze_requirements. rewrite PyFacts.dict_fromkeys_In.
  intros Hin.
  apply (PyFacts.is_subsequence_In _ _ _
           (direct_appended_in_check_order requirements)) in Hin.
  simpl in Hin. intuition discriminate.
Qed.

Lemma direct_data_platform_after_ai_analytics (requirements : string) :
  In "data_platform" (Direct.analyze_requirements requirements) ->
  exists front back,
    Direct.analyze_requirements requirements
    = front ++ "ai_analytics" :: "data_platform" :: back.
Proof.
  rewrite direct_fromkeys_is_identity.
  cbv beta zeta delta [Direct.analyze_requirements_appended].
  case_checks; simpl; intros Hin;
    try (exfalso; intuition discriminate);
    match goal with
    | |- exists front back, ?l = _ =>
        first [ exists (firstn 0 l), (skipn 2 l); reflexivity
              | exists (firstn 1 l), (skipn 3 l); reflexivity ]
    end.
Qed.

(** C2 (amended).  On "web portal with a database" the always-infrastructure
    classifier of the agent returns web_application, data_platform and
    infrastructure, so its result holds both ids; the classifier of the
    direct and unified generators has no data keyword list, appends
    data_platform only inside the ai_analytics branch, and returns
    web_application alone. *)
Theorem web_portal_with_a_database :
  Agent.needed_categories "web portal with a database"
  = ["web_application"; "data_platform"; "infrastructure"]
  /\ Direct.analyze_requirements "web portal with a database"
     = ["web_application"]
  /\ Unified.analyze_requirements "web portal with a database"
     = ["web_application"].
Proof. repeat split; reflexivity. Qed.

(** C2 as stated fails on the direct classifier: its result for the input
    does not hold data_platform. *)
Lemma web_portal_with_a_database_direct :
  ~ (In "web_application"
       (Direct.analyze_requirements "web portal with a database")
     /\ In "data_platform"
          (Direct.analyze_requirements "web portal with a database")).
Proof.
  intros [_ Hdata]. vm_compute in Hdata.
  destruct Hdata as [Heq | []]. discriminate Heq.
Qed.

(** C6.  The agent's classifier returns, for every input, a sequence that
    ends with infrastructure (so it is never empty); the direct and unified
    classifiers never return infrastructure at all.  On "AI-powered customer
    service with analytics" both variants return ai_analytics and the agent's
    result ends with infrastructure. *)
Theorem infrastructure_appended_last :
  (forall requirements,
      (exists front,
          Agent.needed_categories requirements = front ++ ["infrastructure"])
      /\ ~ In "infrastructure" (Direct.analyze_requirements requirements)
      /\ ~ In "infrastructure" (Unified.analyze_requirements requirements))
  /\ Agent.needed_categories "AI-powered customer service with analytics"
     = ["ai_analytics"; "data_platform"; "infrastructure"]
  /\ Direct.analyze_requirements "AI-powered customer service with analytics"
     = ["ai_analytics"]
  /\ Direct.analyze_requirements "" = [].
Proof.
  split; [| repeat split; reflexivity].
  intros requirements. split; [apply agent_infrastructure_last |].
  split; [| rewrite unified_analyze_requirements];
    apply direct_never_infrastructure.
Qed.

(** C7.  Every classifier returns a duplicate-free sequence: it is the
    sequence of first occurrences of the ids the checks appended, and those
    were appended in the fixed order of the checks. *)
Theorem classify_no_duplicates_in_check_order (requirements : string) :
  (NoDup (Direct.analyze_requirements requirements)
   /\ Direct.analyze_requirements requirements
      = Py.first_occurrences
          (Direct.analyze_requirements_appended requirements)
   /\ Py.is_subsequence (Direct.analyze_requirements_appended requirements)
        Direct.check_order = true)
  /\ (NoDup (Unified.analyze_requirements requirements)
      /\ Unified.analyze_requirements requirements
         = Py.first_occurrences
             (Unified.analyze_requirements_appended requirements)
      /\ Py.is_subsequence
           (Unified.analyze_requirements_appended requirements)
           Direct.check_order = true)
  /\ (NoDup (Agent.needed_categories requirements)
      /\ Agent.needed_categories requirements
         = Py.first_occurrences
             (Agent.needed_categories_appended requirements)
      /\ Py.is_subsequence (Agent.needed_categories_appended requirements)
           Agent.check_order = true).
Proof.
  repeat split;
    try apply PyFacts.dict_fromkeys_NoDup;
    try apply PyFacts.dict_fromkeys_first_occurrences.
  - apply direct_appended_in_check_order.
  - apply (direct_appended_in_check_order requirements).
  - apply agent_appended_in_check_order.
Qed.

(** C8.  On empty or whitespace-only text, whatever white space of Unicode
    it is written with, no keyword check fires: the direct and unified
    classifiers return the empty sequence, the list of the agent's
    classifier holds infrastructure alone, and the text the agent returns
    lists Infrastructure alone. *)
Theorem classify_whitespace_only (requirements : string) :
  Py.all_space requirements = true ->
  Direct.analyze_requirements requirements = []
  /\ Unified.analyze_requirements requirements = []
  /\ Agent.needed_categories requirements = ["infrastructure"]
  /\ Agent.analyze_requirements requirements
     = (("Analysis of requirements: '" ++ requirements ++ "'" ++ nl ++ nl
           ++ "Identified solution categories:" ++ nl)
          ++ bullet ++ " Infrastructure" ++ nl)%string.
Proof.
  intros Hspace.
  assert (Hagent : Agent.needed_categories requirements = ["infrastructure"]).
  { unfold Agent.needed_categories.
    cbv beta zeta delta [Agent.needed_categories_appended].
    rewrite (PyFacts.lower_all_space _ Hspace).
    rewrite !PyFacts.any_in_all_space by (reflexivity || assumption).
    rewrite !PyFacts.str_in_all_space by (reflexivity || assumption).
    reflexivity. }
  unfold Direct.analyze_requirements, Unified.analyze_requirements,
    Agent.analyze_requirements.
  rewrite Hagent.
  cbv beta zeta delta [Direct.analyze_requirements_appended
                         Unified.analyze_requirements_appended].
  rewrite (PyFacts.lower_all_space _ Hspace).
  rewrite !PyFacts.any_in_all_space by (reflexivity || assumption).
  repeat split; reflexivity.
Qed.

Lemma classify_whitespace_only_witness :
  let requirements := (" " ++ nbsp ++ nl ++ ideographic_space)%string in
  Direct.analyze_requirements requirements = []
  /\ Unified.analyze_requirements requirements = []
  /\ Agent.needed_categories requirements = ["infrastructure"]
  /\ Agent.analyze_requirements requirements
     = (("Analysis of requirements: '" ++ requirements ++ "'" ++ nl ++ nl
           ++ "Identified solution categories:" ++ nl)
          ++ bullet ++ " Infrastructure" ++ nl)%string.
Proof.
  apply (classify_whitespace_only
           (" " ++ nbsp ++ nl ++ ideographic_space)%string).
  reflexivity.
Defined.

(** C10.  In the direct and unified classifiers data_platform is returned
    only right behind ai_analytics: without an AI or analytics keyword no
    data word yields data_platform. *)
Theorem data_platform_only_behind_ai_analytics (requirements : string) :
  In "data_platform" (Direct.analyze_requirements requirements) ->
  (exists front back,
      Direct.analyze_requirements requirements
      = front ++ "ai_analytics" :: "data_platform" :: back)
  /\ (exists front back,
         Unified.analyze_requirements requirements
         = front ++ "ai_analytics" :: "data_platform" :: back).
Proof.
  intros Hin. split; [| rewrite unified_analyze_requirements];
    now apply direct_data_platform_after_ai_analytics.
Qed.

Lemma data_platform_only_behind_ai_analytics_witness :
  (exists front back,
      Direct.analyze_requirements "data analytics"
      = front ++ "ai_analytics" :: "data_platform" :: back)
  /\ (exists front back,
         Unified.analyze_requirements "data analytics"
         = front ++ "ai_analytics" :: "data_platform" :: back).
Proof.
  apply (data_platform_only_behind_ai_analytics "data analytics").
  vm_compute. right. left. reflexivity.
Defined.

(** A data word alone: "database" holds no AI or analytics keyword. *)
Example direct_database_alone :
  Direct.analyze_requirements "database" = []
  /\ Agent.needed_categories "database" = ["data_platform"; "infrastructure"].
Proof. split; reflexivity. Qed.

(** ** The drawing monad *)

Module MonadFacts.

Lemma same_geometry_refl (s : Slide) : same_geometry s s.
Proof. reflexivity. Qed.

Lemma same_geometry_snoc (s1 s2 : Slide) (sh1 sh2 : Shape) :
  same_geometry s1 s2 -> geometry sh1 = geometry sh2 ->
  same_geometry (s1 ++ [sh1]) (s2 ++ [sh2]).
Proof.
  unfold same_geometry. intros Hs Hsh.
  rewrite !map_app. simpl. now rewrite Hs, Hsh.
Qed.

Section Sim.

Context {A B : Type}.

Lemma sim_ret (a : A) : sim (ret a) (ret a).
Proof. intros s1 s2 Hs. now split. Qed.

Lemma sim_raise (e : Py.exn) : sim (@raise A e) (raise e).
Proof. intros s1 s2 Hs. now split. Qed.

Lemma sim_lift (r : Py.exn + A) : sim (lift r) (lift r).
Proof. intros s1 s2 Hs. now split. Qed.

Lemma sim_bind (m1 m2 : M A) (k1 k2 : A -> M B) :
  sim m1 m2 -> (forall a, sim (k1 a) (k2 a)) ->
  sim (bind m1 k1) (bind m2 k2).
Proof.
  intros Hm Hk s1 s2 Hs. unfold bind.
  destruct (Hm s1 s2 Hs) as [Hgeo Hres].
  destruct (m1 s1) as [s1' r1], (m2 s2) as [s2' r2]. simpl in *.
  subst r2. destruct r1 as [e | a].
  - now split.
  - now apply Hk.
Qed.

End Sim.

Lemma sim_add_shape (sh1 sh2 : Shape) :
  geometry sh1 = geometry sh2 -> sim (add_shape sh1) (add_shape sh2).
Proof.
  intros Hsh s1 s2 Hs. split; [| reflexivity].
  now apply same_geometry_snoc.
Qed.

Lemma sim_for_enumerate {A : Type} (R : A -> A -> Prop)
    (body1 body2 : Z -> A -> M unit) (l1 l2 : list A) :
  (forall i a1 a2, R a1 a2 -> sim (body1 i a1) (body2 i a2)) ->
  Forall2 R l1 l2 ->
  forall i, sim (for_enumerate body1 i l1) (for_enumerate body2 i l2).
Proof.
  intros Hbody HR. induction HR as [| a1 a2 l1 l2 Ha _ IH]; intros i; simpl.
  - apply sim_ret.
  - apply sim_bind; [now apply Hbody | intros _; apply IH].
Qed.

End MonadFacts.

(** ** The layout routines in closed form *)

Module LayoutFacts.

(** *** The catalogs *)

(** Case analysis on the key a lookup in a literal dict found. *)
Ltac dict_cases H c :=
  simpl in H;
  repeat match type of H with
         | (if String.eqb c ?k then _ else _) = _ =>
             destruct (String.eqb_spec c k) as [-> | _]
         end;
  try discriminate H.

Lemma direct_colors_cover_concepts (category : string)
    (entry : string * list string) :
  Py.dict_get Direct.conceptual_blocks category = Some entry ->
  exists rgb, Py.dict_get Direct.colors category = Some rgb.
Proof.
  unfold Direct.conceptual_blocks. intros H.
  dict_cases H category; eexists; reflexivity.
Qed.

Lemma direct_colors_cover_services (category : string)
    (entry : string * list string) :
  Py.dict_get Direct.service_recommendations category = Some entry ->
  exists rgb service rest,
    Py.dict_get Direct.colors category = Some rgb
    /\ firstn 4 (snd entry) = service :: rest.
Proof.
  unfold Direct.service_recommendations. intros H.
  dict_cases H category; injection H as <-; do 3 eexists; split; reflexivity.
Qed.

Lemma dict_has_get {V : Type} (d : Py.dict V) (k : string) :
  Py.dict_has d k = false <-> Py.dict_get d k = None.
Proof.
  unfold Py.dict_has. destruct (Py.dict_get d k); split; congruence.
Qed.

(** *** The tiers *)

Lemma direct_tier_blocks_per_row (n : Z) :
  1 <= n ->
  forall bpr w h, Direct.layout_tier n = (bpr, w, h) -> 0 < bpr.
Proof.
  unfold Direct.layout_tier. intros Hn bpr w h.
  destruct (n <=? 3); intros [= <- _ _]; lia.
Qed.

Lemma agent_tier_blocks_per_row (n : Z) :
  1 <= n ->
  forall bpr w h, Agent.layout_tier n = (bpr, w, h) -> 0 < bpr.
Proof.
  unfold Agent.layout_tier. intros Hn bpr w h.
  destruct (n <=? 3); [| destruct (n <=? 6)]; intros [= <- _ _]; lia.
Qed.

(** *** The loops *)

Lemma for_enumerate_add_shape {A : Type} (f : Z -> A -> Shape)
    (l : list A) (i : Z) (s : Slide) :
  for_enumerate (fun i a s0 => (s0 ++ [f i a], inr tt)) i l s
  = (s ++ enumerate_map f i l, inr tt).
Proof.
  revert i s. induction l as [| a l IH]; intros i s; simpl.
  - now rewrite app_nil_r.
  - unfold bind. rewrite IH, <- app_assoc. reflexivity.
Qed.

Lemma enumerate_map_length {A B : Type} (f : Z -> A -> B) (l : list A)
    (i : Z) :
  List.length (enumerate_map f i l) = List.length l.
Proof.
  revert i. induction l as [| a l IH]; intros i; simpl; [| rewrite IH];
    reflexivity.
Qed.

Lemma conceptual_block_pass_run (bpr : Z) (w h : float) (i : Z)
    (c : string) (s : Slide) :
  bpr <> 0 ->
  Direct.conceptual_block_pass bpr w h i c s
  = (s ++ grid_by_index bpr w h i [c], inr tt).
Proof.
  intros Hbpr. apply Z.eqb_neq in Hbpr.
  unfold Direct.conceptual_block_pass. cbn [grid_by_index].
  destruct (Py.dict_get Direct.conceptual_blocks c) as [entry |] eqn:Hc.
  - destruct (direct_colors_cover_concepts c entry Hc) as [rgb ->].
    unfold bind, lift, Py.floordiv, Py.pymod, add_shape. rewrite Hbpr.
    now rewrite app_nil_r.
  - unfold ret. now rewrite !app_nil_r.
Qed.

Lemma grid_by_index_cons (bpr : Z) (w h : float) (i : Z) (c : string)
    (l : list string) :
  grid_by_index bpr w h i (c :: l)
  = grid_by_index bpr w h i [c] ++ grid_by_index bpr w h (i + 1) l.
Proof. cbn [grid_by_index]. now rewrite app_nil_r. Qed.

(** The loop of [create_conceptual_slide] never raises once
    [blocks_per_row] is not zero, and draws the grid by list index. *)
Lemma conceptual_loop (bpr : Z) (w h : float) (l : list string) :
  bpr <> 0 ->
  forall i s,
    for_enumerate (Direct.conceptual_block_pass bpr w h) i l s
    = (s ++ grid_by_index bpr w h i l, inr tt).
Proof.
  intros Hbpr. induction l as [| c l IH]; intros i s.
  - cbn. now rewrite app_nil_r.
  - cbn [for_enumerate]. unfold bind at 1.
    rewrite conceptual_block_pass_run by assumption.
    rewrite IH, (grid_by_index_cons bpr w h i c l), app_assoc. reflexivity.
Qed.

Lemma succ_div_mod (k b : Z) :
  0 < b -> 0 <= k ->
  if k mod b + 1 >=? b
  then (k + 1) / b = k / b + 1 /\ (k + 1) mod b = 0
  else (k + 1) / b = k / b /\ (k + 1) mod b = k mod b + 1.
Proof.
  intros Hb Hk.
  pose proof (Z.div_mod k b ltac:(lia)) as Hdiv.
  pose proof (Z.mod_pos_bound k b Hb) as Hmod.
  destruct (Z.geb_spec (k mod b + 1) b) as [Hge | Hlt]; split.
  - symmetry. apply Z.div_unique with (r := 0); lia.
  - symmetry. apply Z.mod_unique with (q := k / b + 1); lia.
  - symmetry. apply Z.div_unique with (r := k mod b + 1); lia.
  - symmetry. apply Z.mod_unique with (q := k / b); lia.
Qed.

(** The agent's counters [row] and [col] are quotient and remainder of the
    number of blocks drawn so far. *)
Lemma agent_place_blocks (bpr : Z) (w h : float) (l : list string) :
  0 < bpr ->
  forall k s,
    0 <= k ->
    Agent.place_blocks bpr w h (k / bpr) (k mod bpr) l s
    = (s ++ grid_by_rank bpr w h k l, inr tt).
Proof.
  intros Hbpr. induction l as [| c l IH]; intros k s Hk;
    cbn [Agent.place_blocks grid_by_rank].
  - unfold ret. now rewrite app_nil_r.
  - destruct (Py.dict_get Agent.service_recommendations c) as [sv |].
    + unfold bind, add_shape at 1.
      pose proof (succ_div_mod k bpr Hbpr Hk) as Hstep.
      pose proof (IH (k + 1)
                    (s ++ [Agent.block_shape w h (k / bpr) (k mod bpr) c sv])
                    ltac:(lia)) as IH'.
      destruct (k mod bpr + 1 >=? bpr); destruct Hstep as [Hq Hr];
        rewrite Hq, Hr in IH'; rewrite IH', <- app_assoc; reflexivity.
    + now apply IH.
Qed.

Lemma agent_place_no_blocks (bpr : Z) (w h : float) (l : list string) :
  filter (Py.dict_has Agent.service_recommendations) l = [] ->
  forall row col s,
    Agent.place_blocks bpr w h row col l s = (s, inr tt).
Proof.
  induction l as [| c l IH]; intros Hnone row col s;
    cbn [Agent.place_blocks filter] in *; [reflexivity |].
  destruct (Py.dict_has Agent.service_recommendations c) eqn:Hc;
    [discriminate |].
  apply dict_has_get in Hc. rewrite Hc. now apply IH.
Qed.

(** *** The slides *)

Lemma direct_conceptual_slide_empty (s : Slide) :
  Direct.create_conceptual_slide [] s
  = (s ++ [Direct.conceptual_title_box], inl Py.ZeroDivisionError).
Proof. reflexivity. Qed.

(** On a list that is not empty [create_conceptual_slide] returns, and the
    slide holds the title, the grid, the strip and its header. *)
Lemma direct_conceptual_slide_nonempty (l : list string) (s : Slide)
    (bpr : Z) (w h : float) :
  l <> [] ->
  Direct.layout_tier (Z.of_nat (List.length l)) = (bpr, w, h) ->
  let y := Direct.strip_origin ((Z.of_nat (List.length l) - 1) / bpr) h in
  Direct.create_conceptual_slide l s
  = (s ++ Direct.conceptual_title_box
       :: grid_by_index bpr w h 0 l
       ++ enumerate_map (Direct.service_box_pass y) 0
            Direct.conceptual_cross_cutting
       ++ [Direct.strip_header y],
     inr (y, Direct.box_height)).
Proof.
  intros Hl Htier y.
  assert (Hn : 1 <= Z.of_nat (List.length l))
    by (destruct l; [congruence | cbn [List.length]; lia]).
  pose proof (direct_tier_blocks_per_row _ Hn _ _ _ Htier) as Hbpr.
  unfold Direct.create_conceptual_slide. rewrite Htier.
  unfold bind, add_shape, lift, ret.
  rewrite conceptual_loop by lia.
  unfold Py.floordiv. rewrite (proj2 (Z.eqb_neq bpr 0)) by lia.
  rewrite for_enumerate_add_shape.
  subst y. rewrite <- !app_assoc. reflexivity.
Qed.

Lemma agent_draw_without_known (title requirements : string)
    (l : list string) (s : Slide) :
  filter (Py.dict_has Agent.service_recommendations) l = [] ->
  Agent.draw_building_block_slide title requirements l s
  = (s ++ [Agent.title_box title], inl Py.ZeroDivisionError).
Proof.
  intros Hnone. unfold Agent.draw_building_block_slide. rewrite Hnone.
  cbn [List.length Z.of_nat Agent.layout_tier Z.leb Z.compare].
  unfold bind, add_shape. rewrite agent_place_no_blocks by assumption.
  reflexivity.
Qed.

(** With at least one id of the catalog in the list the agent's drawing
    returns, and the slide holds the title, the grid, the strip, its header
    and the requirements line. *)
Lemma agent_draw_with_known (title requirements : string) (l : list string)
    (s : Slide) (bpr : Z) (w h : float) :
  let n :=
    Z.of_nat
      (List.length (filter (Py.dict_has Agent.service_recommendations) l)) in
  1 <= n ->
  Agent.layout_tier n = (bpr, w, h) ->
  let y := Agent.strip_origin ((n - 1) / bpr) h in
  Agent.draw_building_block_slide title requirements l s
  = (s ++ Agent.title_box title
       :: grid_by_rank bpr w h 0 l
       ++ enumerate_map (Agent.service_box_pass y) 0
            Agent.cross_cutting_services
       ++ [Agent.strip_header y; Agent.requirements_box y requirements],
     inr tt).
Proof.
  intros n Hn Htier y.
  pose proof (agent_tier_blocks_per_row _ Hn _ _ _ Htier) as Hbpr.
  unfold Agent.draw_building_block_slide. fold n. rewrite Htier.
  unfold bind, add_shape, lift, ret.
  rewrite (agent_place_blocks bpr w h l Hbpr 0) by lia.
  unfold Py.floordiv. rewrite (proj2 (Z.eqb_neq bpr 0)) by lia.
  rewrite for_enumerate_add_shape.
  subst y. rewrite <- !app_assoc. reflexivity.
Qed.

(** *** The shapes of one kind on a slide *)

Lemma shapes_of_app (k : shape_type) (s1 s2 : Slide) :
  shapes_of k (s1 ++ s2) = shapes_of k s1 ++ shapes_of k s2.
Proof. apply filter_app. Qed.

Lemma shapes_of_all (k : shape_type) (s : Slide) :
  Forall (fun sh => sh_type sh = k) s -> shapes_of k s = s.
Proof.
  induction 1 as [| sh s Hsh _ IH]; [reflexivity |].
  cbn [shapes_of filter]. rewrite Hsh. fold (shapes_of k s). rewrite IH.
  now destruct k.
Qed.

Lemma shapes_of_none (k k' : shape_type) (s : Slide) :
  k <> k' ->
  Forall (fun sh => sh_type sh = k') s -> shapes_of k s = [].
Proof.
  intros Hk. induction 1 as [| sh s Hsh _ IH]; [reflexivity |].
  cbn [shapes_of filter]. rewrite Hsh. fold (shapes_of k s). rewrite IH.
  destruct k, k'; congruence.
Qed.

Lemma grid_by_index_rounded (bpr : Z) (w h : float) (l : list string)
    (i : Z) :
  Forall (fun sh => sh_type sh = ROUNDED_RECTANGLE)
    (grid_by_index bpr w h i l).
Proof.
  revert i. induction l as [| c l IH]; intros i; cbn [grid_by_index];
    [constructor |].
  apply Forall_app. split; [| apply IH].
  destruct (Py.dict_get Direct.conceptual_blocks c);
    [destruct (Py.dict_get Direct.colors c) |]; repeat constructor.
Qed.

Lemma grid_by_rank_rounded (bpr : Z) (w h : float) (l : list string)
    (k : Z) :
  Forall (fun sh => sh_type sh = ROUNDED_RECTANGLE)
    (grid_by_rank bpr w h k l).
Proof.
  revert k. induction l as [| c l IH]; intros k; cbn [grid_by_rank];
    [constructor |].
  destruct (Py.dict_get Agent.service_recommendations c);
    [constructor; [reflexivity |] |]; apply IH.
Qed.

Lemma enumerate_map_Forall {A B : Type} (P : B -> Prop) (f : Z -> A -> B)
    (l : list A) (i : Z) :
  (forall j a, P (f j a)) -> Forall P (enumerate_map f i l).
Proof.
  intros Hf. revert i. induction l as [| a l IH]; intros i; simpl;
    constructor; auto.
Qed.

(** An id of the catalog draws one block, any other id none. *)
Lemma grid_by_index_length (bpr : Z) (w h : float) (l : list string)
    (i : Z) :
  List.length (grid_by_index bpr w h i l)
  = List.length (filter (Py.dict_has Direct.conceptual_blocks) l).
Proof.
  revert i. induction l as [| c l IH]; intros i;
    cbn [grid_by_index filter]; [reflexivity |].
  rewrite length_app, IH. unfold Py.dict_has.
  destruct (Py.dict_get Direct.conceptual_blocks c) as [entry |] eqn:Hc;
    [| reflexivity].
  destruct (direct_colors_cover_concepts c entry Hc) as [rgb ->].
  reflexivity.
Qed.

Lemma grid_by_rank_length (bpr : Z) (w h : float) (l : list string)
    (k : Z) :
  List.length (grid_by_rank bpr w h k l)
  = List.length (filter (Py.dict_has Agent.service_recommendations) l).
Proof.
  revert k. induction l as [| c l IH]; intros k;
    cbn [grid_by_rank filter]; [reflexivity |].
  unfold Py.dict_has.
  destruct (Py.dict_get Agent.service_recommendations c);
    cbn [List.length]; now rewrite IH.
Qed.

(** The id at list index [j] sits in the slot of index [j]. *)
Lemma grid_by_index_In (bpr : Z) (w h : float) (l : list string) :
  forall (i : Z) (j : nat) (c : string) (entry : string * list string),
    nth_error l j = Some c ->
    Py.dict_get Direct.conceptual_blocks c = Some entry ->
    exists rgb,
      Py.dict_get Direct.colors c = Some rgb
      /\ In (Direct.block_shape w h ((i + Z.of_nat j) / bpr)
               ((i + Z.of_nat j) mod bpr) (Some rgb)
               (Direct.block_text entry))
            (grid_by_index bpr w h i l).
Proof.
  induction l as [| a l IH]; intros i [| j] c entry Hnth Hc;
    try discriminate Hnth; cbn [nth_error grid_by_index] in *.
  - injection Hnth as ->. rewrite Hc.
    destruct (direct_colors_cover_concepts c entry Hc) as [rgb Hrgb].
    exists rgb. rewrite Hrgb. split; [reflexivity |].
    apply in_or_app. left. rewrite Z.add_0_r. now left.
  - destruct (IH (i + 1) j c entry Hnth Hc) as (rgb & Hrgb & Hin).
    exists rgb. split; [assumption |].
    apply in_or_app. right.
    now replace (i + Z.of_nat (S j)) with (i + 1 + Z.of_nat j) by lia.
Qed.

(** The id at list index [j] sits in the slot numbered by the catalog ids
    before it. *)
Lemma grid_by_rank_In (bpr : Z) (w h : float) (l : list string) :
  forall (k : Z) (j : nat) (c : string) (sv : list string * list string),
    nth_error l j = Some c ->
    Py.dict_get Agent.service_recommendations c = Some sv ->
    let r :=
      k + Z.of_nat
            (List.length
               (filter (Py.dict_has Agent.service_recommendations)
                  (firstn j l))) in
    In (Agent.block_shape w h (r / bpr) (r mod bpr) c sv)
       (grid_by_rank bpr w h k l).
Proof.
  induction l as [| a l IH]; intros k [| j] c sv Hnth Hc;
    try discriminate Hnth; cbn [nth_error grid_by_rank firstn filter] in *.
  - injection Hnth as ->. rewrite Hc. cbn [List.length Z.of_nat].
    rewrite Z.add_0_r. now left.
  - unfold Py.dict_has.
    destruct (Py.dict_get Agent.service_recommendations a).
    + right. cbn [List.length].
      specialize (IH (k + 1) j c sv Hnth Hc). cbn zeta in IH.
      now rewrite Nat2Z.inj_succ, <- Z.add_1_l, Z.add_assoc.
    + apply (IH k j c sv Hnth Hc).
Qed.

(** *** What is on a slide, by kind of shape *)

(** The text boxes of a slide are neither blocks nor strip boxes. *)
Ltac drop_text_boxes :=
  repeat match goal with
         | |- context [shapes_of ?k [?sh]] =>
             change (shapes_of k [sh]) with (@nil Shape)
         | |- context [shapes_of ?k [?sh1; ?sh2]] =>
             change (shapes_of k [sh1; sh2]) with (@nil Shape)
         end;
  cbn [app]; rewrite ?app_nil_r; try reflexivity.

Lemma direct_blocks_on_slide (l : list string) (bpr : Z) (w h : float) :
  Direct.layout_tier (Z.of_nat (List.length l)) = (bpr, w, h) ->
  shapes_of ROUNDED_RECTANGLE (fst (Direct.create_conceptual_slide l []))
  = grid_by_index bpr w h 0 l.
Proof.
  intros Htier. destruct l as [| c l]; [reflexivity |].
  rewrite (direct_conceptual_slide_nonempty (c :: l) [] bpr w h)
    by (congruence || assumption).
  cbn [fst app]. change (?a :: ?b) with ([a] ++ b).
  rewrite !shapes_of_app.
  rewrite (shapes_of_all _ _ (grid_by_index_rounded bpr w h (c :: l) 0)).
  rewrite (shapes_of_none ROUNDED_RECTANGLE RECTANGLE
             (enumerate_map _ _ _))
    by (discriminate || (apply enumerate_map_Forall; reflexivity)).
  drop_text_boxes.
Qed.

Lemma direct_strip_on_slide (l : list string) (bpr : Z) (w h : float) :
  l <> [] ->
  Direct.layout_tier (Z.of_nat (List.length l)) = (bpr, w, h) ->
  shapes_of RECTANGLE (fst (Direct.create_conceptual_slide l []))
  = enumerate_map
      (Direct.service_box_pass
         (Direct.strip_origin ((Z.of_nat (List.length l) - 1) / bpr) h))
      0 Direct.conceptual_cross_cutting.
Proof.
  intros Hl Htier.
  rewrite (direct_conceptual_slide_nonempty l [] bpr w h) by assumption.
  cbn [fst app]. change (?a :: ?b) with ([a] ++ b).
  rewrite !shapes_of_app.
  rewrite (shapes_of_none RECTANGLE ROUNDED_RECTANGLE _ ltac:(discriminate)
             (grid_by_index_rounded bpr w h l 0)).
  rewrite (shapes_of_all RECTANGLE (enumerate_map _ _ _))
    by (apply enumerate_map_Forall; reflexivity).
  drop_text_boxes.
Qed.

Lemma agent_blocks_on_slide (title requirements : string) (l : list string)
    (bpr : Z) (w h : float) :
  Agent.layout_tier
    (Z.of_nat
       (List.length (filter (Py.dict_has Agent.service_recommendations) l)))
  = (bpr, w, h) ->
  shapes_of ROUNDED_RECTANGLE
    (fst (Agent.draw_building_block_slide title requirements l []))
  = grid_by_rank bpr w h 0 l.
Proof.
  intros Htier.
  destruct (filter (Py.dict_has Agent.service_recommendations) l)
    as [| c known] eqn:Hknown.
  - rewrite agent_draw_without_known by assumption.
    pose proof (grid_by_rank_length bpr w h l 0) as Hlen.
    rewrite Hknown in Hlen.
    destruct (grid_by_rank bpr w h 0 l); [reflexivity | discriminate].
  - rewrite (agent_draw_with_known title requirements l [] bpr w h);
      rewrite ?Hknown; [| cbn [List.length]; lia | assumption].
    cbn [fst app]. change (?a :: ?b) with ([a] ++ b).
    rewrite !shapes_of_app.
    rewrite (shapes_of_all _ _ (grid_by_rank_rounded bpr w h l 0)).
    rewrite (shapes_of_none ROUNDED_RECTANGLE RECTANGLE
               (enumerate_map _ _ _))
      by (discriminate || (apply enumerate_map_Forall; reflexivity)).
    drop_text_boxes.
Qed.

Lemma agent_strip_on_slide (title requirements : string) (l : list string)
    (bpr : Z) (w h : float) :
  let n :=
    Z.of_nat
      (List.length (filter (Py.dict_has Agent.service_recommendations) l)) in
  1 <= n ->
  Agent.layout_tier n = (bpr, w, h) ->
  shapes_of RECTANGLE
    (fst (Agent.draw_building_block_slide title requirements l []))
  = enumerate_map
      (Agent.service_box_pass (Agent.strip_origin ((n - 1) / bpr) h))
      0 Agent.cross_cutting_services.
Proof.
  intros n Hn Htier.
  rewrite (agent_draw_with_known title requirements l [] bpr w h)
    by assumption.
  cbn [fst app]. change (?a :: ?b) with ([a] ++ b).
  rewrite !shapes_of_app.
  rewrite (shapes_of_none RECTANGLE ROUNDED_RECTANGLE _ ltac:(discriminate)
             (grid_by_rank_rounded bpr w h l 0)).
  rewrite (shapes_of_all RECTANGLE (enumerate_map _ _ _))
    by (apply enumerate_map_Forall; reflexivity).
  drop_text_boxes.
Qed.

(** Where the layout is total: the strip is there with its seven boxes. *)
Lemma direct_strip_has_seven_boxes (l : list string) :
  l <> [] ->
  exists y,
    snd (Direct.create_conceptual_slide l []) = inr (y, Direct.box_height)
    /\ List.length
         (shapes_of RECTANGLE (fst (Direct.create_conceptual_slide l [])))
       = 7%nat.
Proof.
  intros Hl.
  destruct (Direct.layout_tier (Z.of_nat (List.length l)))
    as [[bpr w] h] eqn:Htier.
  rewrite (direct_strip_on_slide l bpr w h) by assumption.
  rewrite (direct_conceptual_slide_nonempty l [] bpr w h) by assumption.
  eexists. split; reflexivity.
Qed.

Lemma agent_strip_has_seven_boxes (title requirements : string)
    (l : list string) :
  filter (Py.dict_has Agent.service_recommendations) l <> [] ->
  snd (Agent.draw_building_block_slide title requirements l []) = inr tt
  /\ List.length
       (shapes_of RECTANGLE
          (fst (Agent.draw_building_block_slide title requirements l [])))
     = 7%nat.
Proof.
  intros Hknown.
  assert (Hn : 1 <= Z.of_nat
                      (List.length
                         (filter (Py.dict_has Agent.service_recommendations)
                            l)))
    by (destruct (filter _ l); [congruence | cbn [List.length]; lia]).
  destruct (Agent.layout_tier
              (Z.of_nat
                 (List.length
                    (filter (Py.dict_has Agent.service_recommendations) l))))
    as [[bpr w] h] eqn:Htier.
  rewrite (agent_strip_on_slide title requirements l bpr w h) by assumption.
  rewrite (agent_draw_with_known title requirements l [] bpr w h)
    by assumption.
  split; reflexivity.
Qed.

(** *** Geometry depends on catalog membership only *)

Import MonadFacts.

Lemma same_membership_length {V : Type} (d : Py.dict V)
    (l1 l2 : list string) :
  same_membership d l1 l2 -> List.length l1 = List.length l2.
Proof. apply Forall2_length. Qed.

Lemma same_membership_count {V : Type} (d : Py.dict V)
    (l1 l2 : list string) :
  same_membership d l1 l2 ->
  List.length (filter (Py.dict_has d) l1)
  = List.length (filter (Py.dict_has d) l2).
Proof.
  induction 1 as [| a b l1 l2 Hab _ IH]; [reflexivity |].
  cbn [filter]. rewrite Hab.
  destruct (Py.dict_has d b); cbn [List.length]; now rewrite IH.
Qed.

Lemma sim_strip {A : Type} (f : Z -> A -> Shape) (l : list A) (i : Z) :
  sim (for_enumerate (fun i a => add_shape (f i a)) i l)
      (for_enumerate (fun i a => add_shape (f i a)) i l).
Proof.
  intros s1 s2 Hs. unfold add_shape. rewrite !for_enumerate_add_shape.
  cbn [fst snd]. split; [| reflexivity].
  unfold same_geometry in *. now rewrite !map_app, Hs.
Qed.

Lemma sim_same_loop {A : Type} (body : Z -> A -> M unit) (l : list A) :
  (forall i a, sim (body i a) (body i a)) ->
  forall i, sim (for_enumerate body i l) (for_enumerate body i l).
Proof.
  intros Hbody. induction l as [| a l IH]; intros i; cbn [for_enumerate].
  - apply sim_ret.
  - apply sim_bind; [apply Hbody | intros _; apply IH].
Qed.

Lemma conceptual_block_pass_sim (bpr : Z) (w h : float) (i : Z)
    (a b : string) :
  Py.dict_has Direct.conceptual_blocks a
  = Py.dict_has Direct.conceptual_blocks b ->
  sim (Direct.conceptual_block_pass bpr w h i a)
      (Direct.conceptual_block_pass bpr w h i b).
Proof.
  unfold Py.dict_has, Direct.conceptual_block_pass.
  destruct (Py.dict_get Direct.conceptual_blocks a) as [ea |] eqn:Ha,
           (Py.dict_get Direct.conceptual_blocks b) as [eb |] eqn:Hb;
    intros Hab; try discriminate Hab; [| apply sim_ret].
  destruct (direct_colors_cover_concepts a ea Ha) as [rgba ->].
  destruct (direct_colors_cover_concepts b eb Hb) as [rgbb ->].
  apply sim_bind; [apply sim_lift | intros row].
  apply sim_bind; [apply sim_lift | intros col].
  now apply sim_add_shape.
Qed.

Lemma azure_block_pass_sim (bpr : Z) (w h : float) (i : Z) (a b : string) :
  Py.dict_has Direct.service_recommendations a
  = Py.dict_has Direct.service_recommendations b ->
  sim (Direct.azure_block_pass bpr w h i a)
      (Direct.azure_block_pass bpr w h i b).
Proof.
  unfold Py.dict_has, Direct.azure_block_pass.
  destruct (Py.dict_get Direct.service_recommendations a) as [ea |] eqn:Ha,
           (Py.dict_get Direct.service_recommendations b) as [eb |] eqn:Hb;
    intros Hab; try discriminate Hab; [| apply sim_ret].
  destruct (direct_colors_cover_services a ea Ha)
    as (rgba & sa & ra & -> & ->).
  destruct (direct_colors_cover_services b eb Hb)
    as (rgbb & sb & rb & -> & ->).
  apply sim_bind; [apply sim_lift | intros row].
  apply sim_bind; [apply sim_lift | intros col].
  apply sim_bind; [now apply sim_add_shape | intros _; apply sim_raise].
Qed.

Lemma direct_conceptual_sim (l1 l2 : list string) :
  same_membership Direct.conceptual_blocks l1 l2 ->
  sim (Direct.create_conceptual_slide l1) (Direct.create_conceptual_slide l2).
Proof.
  intros Hl. unfold Direct.create_conceptual_slide.
  rewrite <- (same_membership_length _ _ _ Hl).
  destruct (Direct.layout_tier (Z.of_nat (List.length l1))) as [[bpr w] h].
  apply sim_bind; [now apply sim_add_shape | intros _].
  apply sim_bind; [| intros _].
  { apply sim_for_enumerate with (2 := Hl).
    intros i a b. apply conceptual_block_pass_sim. }
  apply sim_bind; [apply sim_lift | intros q].
  apply sim_bind; [apply sim_strip | intros _].
  apply sim_bind; [now apply sim_add_shape | intros _; apply sim_ret].
Qed.

Lemma direct_azure_sim (l1 l2 : list string) :
  same_membership Direct.service_recommendations l1 l2 ->
  sim (Direct.create_azure_specific_slide l1)
      (Direct.create_azure_specific_slide l2).
Proof.
  intros Hl. unfold Direct.create_azure_specific_slide.
  rewrite <- (same_membership_length _ _ _ Hl).
  destruct (Direct.layout_tier (Z.of_nat (List.length l1))) as [[bpr w] h].
  apply sim_bind; [now apply sim_add_shape | intros _].
  apply sim_bind; [| intros _].
  { apply sim_for_enumerate with (2 := Hl).
    intros i a b. apply azure_block_pass_sim. }
  apply sim_bind; [apply sim_lift | intros q].
  apply sim_bind; [| intros _].
  { apply sim_same_loop. intros i service.
    apply sim_bind; [now apply sim_add_shape | intros _; apply sim_raise]. }
  apply sim_bind; [now apply sim_add_shape | intros _; apply sim_ret].
Qed.

Lemma agent_place_blocks_sim (bpr : Z) (w h : float) (l1 l2 : list string) :
  same_membership Agent.service_recommendations l1 l2 ->
  forall row col,
    sim (Agent.place_blocks bpr w h row col l1)
        (Agent.place_blocks bpr w h row col l2).
Proof.
  induction 1 as [| a b l1 l2 Hab _ IH]; intros row col;
    cbn [Agent.place_blocks]; [apply sim_ret |].
  unfold Py.dict_has in Hab.
  destruct (Py.dict_get Agent.service_recommendations a),
           (Py.dict_get Agent.service_recommendations b);
    try discriminate Hab; [| apply IH].
  apply sim_bind; [now apply sim_add_shape | intros _].
  destruct (col + 1 >=? bpr); apply IH.
Qed.

Lemma agent_draw_sim (title1 requirements1 title2 requirements2 : string)
    (l1 l2 : list string) :
  same_membership Agent.service_recommendations l1 l2 ->
  sim (Agent.draw_building_block_slide title1 requirements1 l1)
      (Agent.draw_building_block_slide title2 requirements2 l2).
Proof.
  intros Hl. unfold Agent.draw_building_block_slide.
  rewrite <- (same_membership_count _ _ _ Hl).
  destruct (Agent.layout_tier _) as [[bpr w] h].
  apply sim_bind; [now apply sim_add_shape | intros _].
  apply sim_bind; [now apply agent_place_blocks_sim | intros _].
  apply sim_bind; [apply sim_lift | intros q].
  apply sim_bind; [apply sim_strip | intros _].
  apply sim_bind; [now apply sim_add_shape | intros _].
  apply sim_bind; [now apply sim_add_shape | intros _; apply sim_ret].
Qed.

End LayoutFacts.

(** ** The layout claims *)

(** Refuting an equation between two shapes that were computed down to
    literals: either some constructor differs, or a coordinate does. *)
Ltac floats_differ H :=
  match type of H with
  | ?x = ?y =>
      apply (f_equal (fun a => PrimFloat.eqb a y)) in H;
      vm_compute in H; discriminate H
  end.

Ltac shapes_differ H :=
  first [ discriminate H
        | let Hl := fresh in
          pose proof (f_equal sh_left H) as Hl; cbn [sh_left] in Hl;
          floats_differ Hl
        | let Ht := fresh in
          pose proof (f_equal sh_top H) as Ht; cbn [sh_top] in Ht;
          floats_differ Ht
        | let Hw := fresh in
          pose proof (f_equal sh_width H) as Hw; cbn [sh_width] in Hw;
          floats_differ Hw ].

Ltac not_on_slide H :=
  repeat match type of H with
         | _ \/ _ => destruct H as [H | H]; [shapes_differ H |]
         end;
  first [contradiction H | shapes_differ H].

(** The unified generator carries a verbatim copy of the conceptual slide. *)
Lemma unified_create_conceptual_slide :
  Unified.create_conceptual_slide = Direct.create_conceptual_slide.
Proof. reflexivity. Qed.

(** C1 (the code departs from the claim).  On the empty category list
    [blocks_per_row] is 0 and the strip origin divides by it: the three
    layout routines raise [ZeroDivisionError] with only the title on the
    slide, and the two entry points turn that into their error text.  The
    text "hello" holds no keyword, so the direct generator reaches this
    from its own classifier. *)
Theorem layout_raises_on_empty_list (title requirements : string) :
  Direct.create_conceptual_slide [] []
  = ([Direct.conceptual_title_box], inl Py.ZeroDivisionError)
  /\ Unified.create_conceptual_slide [] []
     = ([Direct.conceptual_title_box], inl Py.ZeroDivisionError)
  /\ Direct.create_azure_specific_slide [] []
     = ([Direct.azure_title_box], inl Py.ZeroDivisionError)
  /\ Agent.draw_building_block_slide title requirements [] []
     = ([Agent.title_box title], inl Py.ZeroDivisionError)
  /\ Agent.create_building_block_slide title requirements [] []
     = ([[Agent.title_box title]], Agent.ErrorCreating Py.ZeroDivisionError)
  /\ Direct.analyze_requirements "hello" = []
  /\ Direct.create_building_block_slide "hello" None
     = Direct.ErrorCreatingSlide Py.ZeroDivisionError.
Proof. repeat split; reflexivity. Qed.

(** Everywhere else the conceptual slide is drawn to the end. *)
Lemma direct_layout_total_on_nonempty (categories : list string) :
  categories <> [] ->
  exists slide y,
    Direct.create_conceptual_slide categories []
    = (slide, inr (y, Direct.box_height)).
Proof.
  intros Hl.
  destruct (Direct.layout_tier (Z.of_nat (List.length categories)))
    as [[bpr w] h] eqn:Htier.
  rewrite (LayoutFacts.direct_conceptual_slide_nonempty categories [] bpr w h)
    by assumption.
  eauto.
Qed.

Lemma known_category_counts (l : list string) (i : nat) (c : string)
    (sv : list string * list string) :
  nth_error l i = Some c ->
  Py.dict_get Agent.service_recommendations c = Some sv ->
  1 <= Z.of_nat
         (List.length (filter (Py.dict_has Agent.service_recommendations) l)).
Proof.
  intros Hnth Hc.
  assert (Hin : In c (filter (Py.dict_has Agent.service_recommendations) l)).
  { apply filter_In. split; [eapply nth_error_In; eassumption |].
    unfold Py.dict_has. now rewrite Hc. }
  destruct (filter _ l); [contradiction | cbn [List.length]; lia].
Qed.

(** C3 (amended).  An id absent from the catalog never draws a block.  In
    the direct generator it still takes its slot: the catalog id at list
    index [i] is drawn in row [i div blocks_per_row], column
    [i mod blocks_per_row], with [blocks_per_row] chosen from the length of
    the whole list.  In the agent it takes no slot: the catalog id at index
    [i] is drawn in row [k div blocks_per_row], column
    [k mod blocks_per_row], where [k] counts the catalog ids before index
    [i] and [blocks_per_row] is chosen from the number of catalog ids. *)
Theorem known_category_slot (categories : list string) (i : nat)
    (category : string) (title requirements : string) :
  nth_error categories i = Some category ->
  (forall entry bpr w h,
      Py.dict_get Direct.conceptual_blocks category = Some entry ->
      Direct.layout_tier (Z.of_nat (List.length categories)) = (bpr, w, h) ->
      exists rgb,
        Py.dict_get Direct.colors category = Some rgb
        /\ In (Direct.block_shape w h (Z.of_nat i / bpr) (Z.of_nat i mod bpr)
                 (Some rgb) (Direct.block_text entry))
              (fst (Direct.create_conceptual_slide categories [])))
  /\ (forall services bpr w h,
         Py.dict_get Agent.service_recommendations category = Some services ->
         Agent.layout_tier
           (Z.of_nat
              (List.length
                 (filter (Py.dict_has Agent.service_recommendations)
                    categories)))
         = (bpr, w, h) ->
         let k :=
           Z.of_nat
             (List.length
                (filter (Py.dict_has Agent.service_recommendations)
                   (firstn i categories))) in
         In (Agent.block_shape w h (k / bpr) (k mod bpr) category services)
            (fst (Agent.draw_building_block_slide title requirements
                    categories [])))
  /\ List.length
       (shapes_of ROUNDED_RECTANGLE
          (fst (Direct.create_conceptual_slide categories [])))
     = List.length (filter (Py.dict_has Direct.conceptual_blocks) categories)
  /\ List.length
       (shapes_of ROUNDED_RECTANGLE
          (fst (Agent.draw_building_block_slide title requirements
                  categories [])))
     = List.length
         (filter (Py.dict_has Agent.service_recommendations) categories).
Proof.
  intros Hnth. repeat split.
  - intros entry bpr w h Hc Htier.
    destruct (LayoutFacts.grid_by_index_In bpr w h categories 0 i category
                entry Hnth Hc) as (rgb & Hrgb & Hin).
    exists rgb. split; [assumption |].
    rewrite (LayoutFacts.direct_conceptual_slide_nonempty categories []
               bpr w h)
      by (assumption || (intros ->; destruct i; discriminate Hnth)).
    cbn [fst app]. right. apply in_or_app. now left.
  - intros services bpr w h Hc Htier k.
    rewrite (LayoutFacts.agent_draw_with_known title requirements categories
               [] bpr w h)
      by (assumption || (eapply known_category_counts; eassumption)).
    cbn [fst app]. right. apply in_or_app. left.
    apply (LayoutFacts.grid_by_rank_In bpr w h categories 0 i category
             services Hnth Hc).
  - destruct (Direct.layout_tier (Z.of_nat (List.length categories)))
      as [[bpr w] h] eqn:Htier.
    rewrite (LayoutFacts.direct_blocks_on_slide categories bpr w h Htier).
    apply LayoutFacts.grid_by_index_length.
  - destruct (Agent.layout_tier
                (Z.of_nat
                   (List.length
                      (filter (Py.dict_has Agent.service_recommendations)
                         categories))))
      as [[bpr w] h] eqn:Htier.
    rewrite (LayoutFacts.agent_blocks_on_slide title requirements categories
               bpr w h Htier).
    apply LayoutFacts.grid_by_rank_length.
Qed.

Lemma known_category_slot_witness :
  In (Direct.block_shape 2.8 2.2 0 1 (Some (138, 43, 226))
        (Direct.block_text
           ("Data & Intelligence Layer",
            ["AI/ML Models"; "Analytics Engine"; "Data Processing";
             "Intelligent Services"])))
     (fst (Direct.create_conceptual_slide ["security"; "ai_analytics"] []))
  /\ In (Agent.block_shape 2.8 2.0 0 0 "ai_analytics"
           (["Azure OpenAI"; "Microsoft Fabric"; "Azure Databricks"],
            ["Azure AI Services"; "Azure Synapse Analytics"; "Azure ML";
             "Power BI"; "Azure AI Search"]))
        (fst (Agent.draw_building_block_slide "t" "r"
                ["unknown"; "ai_analytics"] [])).
Proof.
  destruct (known_category_slot ["security"; "ai_analytics"] 1 "ai_analytics"
              "t" "r" eq_refl) as (Hdirect & _).
  destruct (known_category_slot ["unknown"; "ai_analytics"] 1 "ai_analytics"
              "t" "r" eq_refl) as (_ & Hagent & _).
  split.
  - destruct (Hdirect _ _ _ _ eq_refl eq_refl) as (rgb & Hrgb & Hin).
    injection Hrgb as <-. exact Hin.
  - exact (Hagent _ _ _ _ eq_refl eq_refl).
Defined.

(** C3 as stated fails on the agent: with an unknown id in front, the
    catalog id at index 1 of a five-id list is not drawn in row 0,
    column 1; it is the first block drawn and sits in column 0. *)
Lemma agent_unknown_id_takes_no_slot :
  ~ (forall categories i category services bpr w h,
        nth_error categories i = Some category ->
        Py.dict_get Agent.service_recommendations category = Some services ->
        Agent.layout_tier
          (Z.of_nat
             (List.length
                (filter (Py.dict_has Agent.service_recommendations)
                   categories)))
        = (bpr, w, h) ->
        In (Agent.block_shape w h (Z.of_nat i / bpr) (Z.of_nat i mod bpr)
              category services)
           (fst (Agent.draw_building_block_slide "t" "r" categories []))).
Proof.
  intros Hclaim.
  specialize
    (Hclaim ["unknown"; "web_application"; "ai_analytics"; "data_platform";
             "integration"]
            1%nat "web_application" _ _ _ _ eq_refl eq_refl eq_refl).
  vm_compute in Hclaim. not_on_slide Hclaim.
Qed.

Lemma dict_has_of_get {V : Type} (d : Py.dict V) (k : string) (v : V) :
  Py.dict_get d k = Some v -> Py.dict_has d k = true.
Proof. unfold Py.dict_has. now intros ->. Qed.

(** C4 (amended).  The agent picks blocks per row and block size from the
    number [k] of catalog ids in the list: 1 to 3 give one row of [k] blocks
    of 2.8 x 2.0, 4 to 6 give 3 per row at 2.5 x 1.8, more than 6 give 3 per
    row at 2.2 x 1.5.  The direct generator picks them from the length [n]
    of the list and has two tiers only: up to 3 give one row of [n] slots
    of 2.8 x 2.2, anything longer gives 3 per row at 2.5 x 2.0.  Five
    catalog ids are drawn in rows of 3 and 2 blocks at the mid-tier size of
    the generator. *)
Theorem layout_tiers (categories : list string) (title requirements : string) :
  let n := Z.of_nat (List.length categories) in
  let k :=
    Z.of_nat
      (List.length
         (filter (Py.dict_has Agent.service_recommendations) categories)) in
  (1 <= k <= 3 ->
   shapes_of ROUNDED_RECTANGLE
     (fst (Agent.draw_building_block_slide title requirements categories []))
   = grid_by_rank k 2.8 2.0 0 categories)
  /\ (4 <= k <= 6 ->
      shapes_of ROUNDED_RECTANGLE
        (fst (Agent.draw_building_block_slide title requirements
                categories []))
      = grid_by_rank 3 2.5 1.8 0 categories)
  /\ (6 < k ->
      shapes_of ROUNDED_RECTANGLE
        (fst (Agent.draw_building_block_slide title requirements
                categories []))
      = grid_by_rank 3 2.2 1.5 0 categories)
  /\ (1 <= n <= 3 ->
      shapes_of ROUNDED_RECTANGLE
        (fst (Direct.create_conceptual_slide categories []))
      = grid_by_index n 2.8 2.2 0 categories)
  /\ (3 < n ->
      shapes_of ROUNDED_RECTANGLE
        (fst (Direct.create_conceptual_slide categories []))
      = grid_by_index 3 2.5 2.0 0 categories)
  /\ (forall c0 c1 c2 c3 c4 s0 s1 s2 s3 s4,
         categories = [c0; c1; c2; c3; c4] ->
         Py.dict_get Agent.service_recommendations c0 = Some s0 ->
         Py.dict_get Agent.service_recommendations c1 = Some s1 ->
         Py.dict_get Agent.service_recommendations c2 = Some s2 ->
         Py.dict_get Agent.service_recommendations c3 = Some s3 ->
         Py.dict_get Agent.service_recommendations c4 = Some s4 ->
         shapes_of ROUNDED_RECTANGLE
           (fst (Agent.draw_building_block_slide title requirements
                   categories []))
         = [Agent.block_shape 2.5 1.8 0 0 c0 s0;
            Agent.block_shape 2.5 1.8 0 1 c1 s1;
            Agent.block_shape 2.5 1.8 0 2 c2 s2;
            Agent.block_shape 2.5 1.8 1 0 c3 s3;
            Agent.block_shape 2.5 1.8 1 1 c4 s4])
  /\ (forall c0 c1 c2 c3 c4 e0 e1 e2 e3 e4,
         categories = [c0; c1; c2; c3; c4] ->
         Py.dict_get Direct.conceptual_blocks c0 = Some e0 ->
         Py.dict_get Direct.conceptual_blocks c1 = Some e1 ->
         Py.dict_get Direct.conceptual_blocks c2 = Some e2 ->
         Py.dict_get Direct.conceptual_blocks c3 = Some e3 ->
         Py.dict_get Direct.conceptual_blocks c4 = Some e4 ->
         shapes_of ROUNDED_RECTANGLE
           (fst (Direct.create_conceptual_slide categories []))
         = [Direct.block_shape 2.5 2.0 0 0 (Py.dict_get Direct.colors c0)
              (Direct.block_text e0);
            Direct.block_shape 2.5 2.0 0 1 (Py.dict_get Direct.colors c1)
              (Direct.block_text e1);
            Direct.block_shape 2.5 2.0 0 2 (Py.dict_get Direct.colors c2)
              (Direct.block_text e2);
            Direct.block_shape 2.5 2.0 1 0 (Py.dict_get Direct.colors c3)
              (Direct.block_text e3);
            Direct.block_shape 2.5 2.0 1 1 (Py.dict_get Direct.colors c4)
              (Direct.block_text e4)]).
Proof.
  intros n k.
  assert (Hagent :
            forall bpr w h,
              Agent.layout_tier k = (bpr, w, h) ->
              shapes_of ROUNDED_RECTANGLE
                (fst (Agent.draw_building_block_slide title requirements
                        categories []))
              = grid_by_rank bpr w h 0 categories)
    by (intros; now apply LayoutFacts.agent_blocks_on_slide).
  assert (Hdirect :
            forall bpr w h,
              Direct.layout_tier n = (bpr, w, h) ->
              shapes_of ROUNDED_RECTANGLE
                (fst (Direct.create_conceptual_slide categories []))
              = grid_by_index bpr w h 0 categories)
    by (intros; now apply LayoutFacts.direct_blocks_on_slide).
  repeat split.
  - intros Hk. apply Hagent. unfold Agent.layout_tier.
    now rewrite (proj2 (Z.leb_le k 3)) by lia.
  - intros Hk. apply Hagent. unfold Agent.layout_tier.
    rewrite (proj2 (Z.leb_gt k 3)) by lia.
    now rewrite (proj2 (Z.leb_le k 6)) by lia.
  - intros Hk. apply Hagent. unfold Agent.layout_tier.
    rewrite (proj2 (Z.leb_gt k 3)) by lia.
    now rewrite (proj2 (Z.leb_gt k 6)) by lia.
  - intros Hn. apply Hdirect. unfold Direct.layout_tier.
    now rewrite (proj2 (Z.leb_le n 3)) by lia.
  - intros Hn. apply Hdirect. unfold Direct.layout_tier.
    now rewrite (proj2 (Z.leb_gt n 3)) by lia.
  - intros c0 c1 c2 c3 c4 s0 s1 s2 s3 s4 Hl H0 H1 H2 H3 H4.
    rewrite (Hagent 3 2.5%float 1.8%float).
    + subst categories. cbn [grid_by_rank].
      rewrite H0, H1, H2, H3, H4. reflexivity.
    + subst k categories. cbn [filter].
      rewrite !(dict_has_of_get _ _ _ H0), !(dict_has_of_get _ _ _ H1),
        !(dict_has_of_get _ _ _ H2), !(dict_has_of_get _ _ _ H3),
        !(dict_has_of_get _ _ _ H4).
      reflexivity.
  - intros c0 c1 c2 c3 c4 e0 e1 e2 e3 e4 Hl H0 H1 H2 H3 H4.
    rewrite (Hdirect 3 2.5%float 2.0%float) by (subst n categories; reflexivity).
    subst categories. cbn [grid_by_index].
    rewrite H0, H1, H2, H3, H4.
    destruct (LayoutFacts.direct_colors_cover_concepts _ _ H0) as [? ->].
    destruct (LayoutFacts.direct_colors_cover_concepts _ _ H1) as [? ->].
    destruct (LayoutFacts.direct_colors_cover_concepts _ _ H2) as [? ->].
    destruct (LayoutFacts.direct_colors_cover_concepts _ _ H3) as [? ->].
    destruct (LayoutFacts.direct_colors_cover_concepts _ _ H4) as [? ->].
    reflexivity.
Qed.

Lemma layout_tiers_witness :
  shapes_of ROUNDED_RECTANGLE
    (fst (Agent.draw_building_block_slide "t" "r"
            ["web_application"; "ai_analytics"; "data_platform";
             "integration"; "security"] []))
  = grid_by_rank 3 2.5 1.8 0
      ["web_application"; "ai_analytics"; "data_platform"; "integration";
       "security"]
  /\ shapes_of ROUNDED_RECTANGLE
       (fst (Direct.create_conceptual_slide
               ["web_application"; "ai_analytics"; "data_platform";
                "integration"; "security"] []))
     = grid_by_index 3 2.5 2.0 0
         ["web_application"; "ai_analytics"; "data_platform"; "integration";
          "security"].
Proof.
  destruct (layout_tiers
              ["web_application"; "ai_analytics"; "data_platform";
               "integration"; "security"] "t" "r")
    as (_ & Hmid & _ & _ & Hlong & _).
  split; [apply Hmid | apply Hlong]; cbv; split; discriminate.
Defined.

(** C4 as stated fails on the direct generator: the blocks of a list of
    seven ids are not smaller than the mid-tier 2.5 x 2.0. *)
Lemma direct_has_no_third_tier :
  ~ (forall sh,
        In sh
           (shapes_of ROUNDED_RECTANGLE
              (fst (Direct.create_conceptual_slide
                      ["web_application"; "ai_analytics"; "data_platform";
                       "integration"; "web_application"; "ai_analytics";
                       "data_platform"] []))) ->
        PrimFloat.ltb (sh_width sh) 2.5 = true
        /\ PrimFloat.ltb (sh_height sh) 2.0 = true).
Proof.
  intros Hclaim.
  destruct (Hclaim (Direct.block_shape 2.5 2.0 0 0 (Some (0, 120, 212))
                      (Direct.block_text
                         ("User Experience & Application Layer",
                          ["Web Portals"; "Mobile Applications";
                           "User Interfaces"; "Frontend Services"]))))
    as [Hw _]; [now left | vm_compute in Hw; discriminate Hw].
Qed.

(** C5 (amended).  The layout has no state of its own, and its geometry is
    decided by the length of the list and by which positions hold ids of
    the catalog: two lists that agree, position by position, on catalog
    membership (two equal-length lists of catalog ids among them) leave
    slides with the same shapes in the same boxes and end alike. *)
Theorem geometry_by_catalog_membership (l1 l2 : list string)
    (title1 requirements1 title2 requirements2 : string) :
  (same_membership Direct.conceptual_blocks l1 l2 ->
   same_geometry (fst (Direct.create_conceptual_slide l1 []))
                 (fst (Direct.create_conceptual_slide l2 []))
   /\ snd (Direct.create_conceptual_slide l1 [])
      = snd (Direct.create_conceptual_slide l2 []))
  /\ (same_membership Direct.service_recommendations l1 l2 ->
      same_geometry (fst (Direct.create_azure_specific_slide l1 []))
                    (fst (Direct.create_azure_specific_slide l2 []))
      /\ snd (Direct.create_azure_specific_slide l1 [])
         = snd (Direct.create_azure_specific_slide l2 []))
  /\ (same_membership Agent.service_recommendations l1 l2 ->
      same_geometry
        (fst (Agent.draw_building_block_slide title1 requirements1 l1 []))
        (fst (Agent.draw_building_block_slide title2 requirements2 l2 []))
      /\ snd (Agent.draw_building_block_slide title1 requirements1 l1 [])
         = snd (Agent.draw_building_block_slide title2 requirements2 l2 [])).
Proof.
  repeat apply conj; intros Hl.
  - now apply LayoutFacts.direct_conceptual_sim.
  - now apply LayoutFacts.direct_azure_sim.
  - now apply LayoutFacts.agent_draw_sim.
Qed.

Lemma geometry_by_catalog_membership_witness :
  same_geometry
    (fst (Direct.create_conceptual_slide ["web_application"; "unknown"] []))
    (fst (Direct.create_conceptual_slide ["integration"; "other"] []))
  /\ same_geometry
       (fst (Agent.draw_building_block_slide "t1" "r1"
               ["web_application"; "unknown"] []))
       (fst (Agent.draw_building_block_slide "t2" "r2"
               ["integration"; "other"] [])).
Proof.
  destruct (geometry_by_catalog_membership
              ["web_application"; "unknown"] ["integration"; "other"]
              "t1" "r1" "t2" "r2") as (Hdirect & _ & Hagent).
  split; [apply Hdirect | apply Hagent]; repeat constructor.
Defined.

(** C5 as stated fails: equal length alone does not fix the geometry.  In
    the agent four catalog ids are drawn 2.5 wide, three catalog ids and an
    unknown one 2.8 wide; in the direct generator "security" is no catalog
    id and draws nothing where "web_application" draws a block. *)
Lemma equal_length_different_geometry :
  ~ (forall l1 l2,
        List.length l1 = List.length l2 ->
        same_geometry
          (fst (Agent.draw_building_block_slide "t" "r" l1 []))
          (fst (Agent.draw_building_block_slide "t" "r" l2 [])))
  /\ ~ (forall l1 l2,
           List.length l1 = List.length l2 ->
           same_geometry (fst (Direct.create_azure_specific_slide l1 []))
                         (fst (Direct.create_azure_specific_slide l2 []))).
Proof.
  split; intros Hclaim.
  - specialize
      (Hclaim ["web_application"; "ai_analytics"; "data_platform";
               "integration"]
              ["web_application"; "ai_analytics"; "data_platform"; "unknown"]
              eq_refl).
    apply (f_equal (@List.length _)) in Hclaim.
    vm_compute in Hclaim. discriminate Hclaim.
  - specialize (Hclaim ["web_application"] ["security"] eq_refl).
    vm_compute in Hclaim. discriminate Hclaim.
Qed.

(** C9 (the code departs from the claim).  On the empty category list, and
    in the agent on any list without a catalog id, the division by
    [blocks_per_row = 0] raises before the strip loop is reached: the slide
    is left without a single strip box. *)
Theorem strip_missing_on_empty_list (title requirements : string) :
  shapes_of RECTANGLE (fst (Direct.create_conceptual_slide [] [])) = []
  /\ shapes_of RECTANGLE (fst (Unified.create_conceptual_slide [] [])) = []
  /\ shapes_of RECTANGLE
       (fst (Agent.draw_building_block_slide title requirements [] []))
     = []
  /\ snd (Direct.create_conceptual_slide [] []) = inl Py.ZeroDivisionError
  /\ snd (Agent.draw_building_block_slide title requirements [] [])
     = inl Py.ZeroDivisionError.
Proof. repeat split; reflexivity. Qed.

(** On every other list the strip is drawn, with exactly seven boxes. *)
Lemma strip_has_seven_boxes_elsewhere (categories : list string)
    (title requirements : string) :
  (categories <> [] ->
   List.length
     (shapes_of RECTANGLE (fst (Direct.create_conceptual_slide categories [])))
   = 7%nat)
  /\ (filter (Py.dict_has Agent.service_recommendations) categories <> [] ->
      List.length
        (shapes_of RECTANGLE
           (fst (Agent.draw_building_block_slide title requirements
                   categories [])))
      = 7%nat).
Proof.
  split; intros Hl.
  - now destruct (LayoutFacts.direct_strip_has_seven_boxes categories Hl)
      as (y & _ & Hseven).
  - now destruct (LayoutFacts.agent_strip_has_seven_boxes title requirements
                    categories Hl) as (_ & Hseven).
Qed.


(** * Further properties *)

(** ** The classifiers and the catalogs *)

Module ClassifierFacts.


Lemma direct_appended_by_tests (requirements : string) :
  Direct.analyze_requirements_appended requirements
  = let t := Py.lower requirements in
    direct_appends
      (Py.any_in ["user experience"; "ux"; "frontend"; "application layer";
                  "app layer"; "web"; "portal"] t)
      (Py.any_in ["data and intelligence"; "data intelligence"; "analytics";
                  "ai"; "machine learning"] t)
      (Py.str_in "data" t)
      (Py.any_in ["integration layer"; "integration"; "api"] t).
Proof. reflexivity. Qed.

Lemma agent_appended_by_tests (requirements : string) :
  Agent.needed_categories_appended requirements
  = let t := Py.lower requirements in
    agent_appends
      (Py.str_in "user experience" t || Py.str_in "ux" t
       || Py.str_in "frontend" t)
      (Py.str_in "application layer" t || Py.str_in "app layer" t)
      (Py.str_in "data and intelligence" t || Py.str_in "data intelligence" t
       || Py.str_in "analytics" t)
      (Py.str_in "integration layer" t)
      (Py.any_in ["ai"; "analytics"; "machine learning"; "ml";
                  "data science"; "openai"; "chatbot"; "intelligent";
                  "prediction"] t)
      (Py.any_in ["web"; "website"; "portal"; "api"; "frontend"; "backend";
                  "application"; "app"] t)
      (Py.any_in ["database"; "data"; "storage"; "sql"; "cosmos";
                  "warehouse"; "lake"] t)
      (Py.any_in ["integration"; "api"; "messaging"; "event"; "workflow";
                  "automation"] t)
      (Py.any_in ["security"; "authentication"; "authorization"; "identity";
                  "firewall"; "compliance"] t).
Proof. reflexivity. Qed.

(** Every id a classifier returns is one of the catalog of its generator. *)
Lemma direct_appends_in_catalogs (web ai data integration : bool) :
  forallb
    (fun c =>
       Py.dict_has Direct.conceptual_blocks c
       && Py.dict_has Direct.service_recommendations c
       && Py.dict_has Direct.colors c)
    (Py.dict_fromkeys (direct_appends web ai data integration)) = true
  /\ (List.length (Py.dict_fromkeys (direct_appends web ai data integration))
       <=? 4)%nat = true.
Proof. destruct web, ai, data, integration; split; reflexivity. Qed.

Lemma agent_appends_in_catalogs
    (ux app_layer intelligence integration_layer ai web data integration
       security : bool) :
  let l :=
    Py.dict_fromkeys
      (agent_appends ux app_layer intelligence integration_layer ai web data
         integration security) in
  forallb
    (fun c =>
       Py.dict_has Agent.service_recommendations c
       && Py.dict_has Agent.building_block_colors c) l = true
  /\ ((1 <=? List.length l) && (List.length l <=? 6))%nat = true.
Proof.
  destruct ux, app_layer, intelligence, integration_layer, ai, web, data,
    integration, security; split; reflexivity.
Qed.


(** The name a category id is listed under: [id.replace('_', ' ').title()]. *)
Lemma display_name_is_no_id (category : string) :
  Py.dict_has Agent.service_recommendations category = true ->
  Py.dict_has Agent.service_recommendations
    (Py.title (Py.replace_char "_" " " category)) = false.
Proof.
  unfold Py.dict_has at 1. unfold Agent.service_recommendations at 1.
  cbn [Py.dict_get].
  repeat match goal with
         | |- context [String.eqb category ?k] =>
             destruct (String.eqb_spec category k) as [-> | _];
             [intros _; reflexivity |]
         end.
  discriminate.
Qed.

Lemma fold_left_names {A : Type} (f : string -> string) (g : A -> string)
    (l : list A) (result : string) :
  fold_left (fun result a => (result ++ f (g a))%string) l result
  = fold_left (fun result name => (result ++ f name)%string) (map g l) result.
Proof.
  revert result. induction l as [| a l IH]; intros result;
    [reflexivity | cbn [map fold_left]; apply IH].
Qed.

Lemma filter_Forall {A : Type} (p : A -> bool) (l : list A) :
  Forall (fun a => p a = true) l -> filter p l = l.
Proof.
  induction 1 as [| a l Ha _ IH]; [reflexivity |].
  cbn [filter]. now rewrite Ha, IH.
Qed.

Lemma direct_result_all_known (requirements : string) :
  filter (Py.dict_has Direct.service_recommendations)
    (Direct.analyze_requirements requirements)
  = Direct.analyze_requirements requirements
  /\ filter (Py.dict_has Direct.conceptual_blocks)
       (Direct.analyze_requirements requirements)
     = Direct.analyze_requirements requirements.
Proof.
  unfold Direct.analyze_requirements.
  rewrite direct_appended_by_tests. cbv zeta.
  match goal with
  | |- context [direct_appends ?a ?b ?c ?d] =>
      destruct (direct_appends_in_catalogs a b c d) as [Hall _]
  end.
  rewrite forallb_forall in Hall.
  split; apply filter_Forall, Forall_forall; intros c Hc;
    specialize (Hall c Hc);
    repeat (apply andb_true_iff in Hall as [Hall ?]); assumption.
Qed.

Lemma agent_result_all_known (requirements : string) :
  filter (Py.dict_has Agent.service_recommendations)
    (Agent.needed_categories requirements)
  = Agent.needed_categories requirements
  /\ Agent.needed_categories requirements <> [].
Proof.
  unfold Agent.needed_categories.
  rewrite agent_appended_by_tests. cbv zeta.
  match goal with
  | |- context [agent_appends ?a ?b ?c ?d ?e ?f ?g ?h ?i] =>
      destruct (agent_appends_in_catalogs a b c d e f g h i) as [Hall Hlen]
  end.
  cbv zeta in Hall, Hlen. rewrite forallb_forall in Hall. split.
  - apply filter_Forall, Forall_forall. intros c Hc.
    specialize (Hall c Hc). now apply andb_true_iff in Hall as [Hall _].
  - intros Hnil. rewrite Hnil in Hlen. discriminate Hlen.
Qed.

End ClassifierFacts.


(** ** The second slide of the direct generator *)

Module DirectAzureFacts.

Lemma azure_block_pass_unknown (bpr : Z) (w h : float) (i : Z) (c : string)
    (s : Slide) :
  Py.dict_has Direct.service_recommendations c = false ->
  Direct.azure_block_pass bpr w h i c s = (s, inr tt).
Proof.
  intros Hc. apply LayoutFacts.dict_has_get in Hc.
  unfold Direct.azure_block_pass. now rewrite Hc.
Qed.

(** A catalog id gets its block and then stops the slide. *)
Lemma azure_block_pass_known (bpr : Z) (w h : float) (i : Z) (c : string)
    (s : Slide) :
  bpr <> 0 ->
  Py.dict_has Direct.service_recommendations c = true ->
  exists sh,
    Direct.azure_block_pass bpr w h i c s
    = (s ++ [sh], inl (Py.NameError "shape"))
    /\ sh_type sh = ROUNDED_RECTANGLE.
Proof.
  intros Hbpr Hc. apply Z.eqb_neq in Hbpr.
  unfold Py.dict_has in Hc. unfold Direct.azure_block_pass.
  destruct (Py.dict_get Direct.service_recommendations c) as [entry |] eqn:He;
    [| discriminate Hc].
  destruct (LayoutFacts.direct_colors_cover_services c entry He)
    as (rgb & service & rest & -> & ->).
  unfold bind, lift, Py.floordiv, Py.pymod, add_shape, raise.
  rewrite Hbpr. eexists. split; reflexivity.
Qed.

Lemma azure_loop_without_known (bpr : Z) (w h : float) (l : list string) :
  filter (Py.dict_has Direct.service_recommendations) l = [] ->
  forall i s,
    for_enumerate (Direct.azure_block_pass bpr w h) i l s = (s, inr tt).
Proof.
  induction l as [| c l IH]; intros Hnone i s;
    cbn [filter for_enumerate] in *; [reflexivity |].
  destruct (Py.dict_has Direct.service_recommendations c) eqn:Hc;
    [discriminate Hnone |].
  unfold bind. rewrite azure_block_pass_unknown by assumption.
  now apply IH.
Qed.

Lemma azure_loop_with_known (bpr : Z) (w h : float) (l : list string) :
  bpr <> 0 ->
  filter (Py.dict_has Direct.service_recommendations) l <> [] ->
  forall i s,
    exists sh,
      for_enumerate (Direct.azure_block_pass bpr w h) i l s
      = (s ++ [sh], inl (Py.NameError "shape"))
      /\ sh_type sh = ROUNDED_RECTANGLE.
Proof.
  intros Hbpr. induction l as [| c l IH]; intros Hsome i s;
    cbn [filter for_enumerate] in *; [congruence |].
  unfold bind.
  destruct (Py.dict_has Direct.service_recommendations c) eqn:Hc.
  - destruct (azure_block_pass_known bpr w h i c s Hbpr Hc)
      as (sh & -> & Hsh).
    now exists sh.
  - rewrite azure_block_pass_unknown by assumption. now apply IH.
Qed.

Lemma azure_slide_raises (categories : list string) :
  exists slide,
    Direct.create_azure_specific_slide categories []
    = (slide,
       inl match categories,
                 filter (Py.dict_has Direct.service_recommendations)
                   categories with
           | [], _ => Py.ZeroDivisionError
           | _ :: _, _ :: _ => Py.NameError "shape"
           | _ :: _, [] => Py.NameError "service_shape"
           end)
    /\ (List.length slide <= 2)%nat
    /\ List.length (shapes_of ROUNDED_RECTANGLE slide)
       = match filter (Py.dict_has Direct.service_recommendations)
                 categories with
         | [] => 0%nat
         | _ :: _ => 1%nat
         end.
Proof.
  destruct categories as [| c l];
    [exists [Direct.azure_title_box];
     split; [reflexivity | split; [cbn; lia | reflexivity]] |].
  destruct (Direct.layout_tier (Z.of_nat (List.length (c :: l))))
    as [[bpr w] h] eqn:Htier.
  assert (Hn : 1 <= Z.of_nat (List.length (c :: l)))
    by (cbn [List.length]; lia).
  pose proof (LayoutFacts.direct_tier_blocks_per_row _ Hn _ _ _ Htier)
    as Hbpr.
  destruct (filter (Py.dict_has Direct.service_recommendations) (c :: l))
    as [| k known] eqn:Hknown.
  - eexists. split; [| split].
    + unfold Direct.create_azure_specific_slide. rewrite Htier.
      unfold bind at 1. unfold add_shape at 1. cbn [app]. unfold bind at 1.
      rewrite azure_loop_without_known by assumption.
      unfold bind, lift, Py.floordiv.
      rewrite (proj2 (Z.eqb_neq bpr 0)) by lia.
      cbn. reflexivity.
    + cbn. lia.
    + reflexivity.
  - destruct (azure_loop_with_known bpr w h (c :: l) ltac:(lia)
                ltac:(congruence) 0 [Direct.azure_title_box])
      as (sh & Hloop & Hsh).
    exists [Direct.azure_title_box; sh]. split; [| split].
    + unfold Direct.create_azure_specific_slide. rewrite Htier.
      unfold bind at 1. unfold add_shape at 1. cbn [app]. unfold bind at 1.
      now rewrite Hloop.
    + cbn. lia.
    + cbn. now rewrite Hsh.
Qed.

End DirectAzureFacts.

(** X1.  [create_azure_specific_slide] of the direct generator never
    returns.  On the empty list it divides by zero; on a list with a
    catalog id it raises [NameError] for [shape] after drawing the block of
    the first such id; on any other list it raises [NameError] for
    [service_shape] after the first strip box.  At most two shapes are ever
    on the slide. *)
Theorem direct_azure_slide_always_raises (categories : list string) :
  exists slide,
    Direct.create_azure_specific_slide categories []
    = (slide,
       inl match categories,
                 filter (Py.dict_has Direct.service_recommendations)
                   categories with
           | [], _ => Py.ZeroDivisionError
           | _ :: _, _ :: _ => Py.NameError "shape"
           | _ :: _, [] => Py.NameError "service_shape"
           end)
    /\ (List.length slide <= 2)%nat
    /\ List.length (shapes_of ROUNDED_RECTANGLE slide)
       = match filter (Py.dict_has Direct.service_recommendations)
                 categories with
         | [] => 0%nat
         | _ :: _ => 1%nat
         end.
Proof.
  apply DirectAzureFacts.azure_slide_raises.
Qed.

Lemma direct_entry_point_error (requirements : string)
    (filename : option string) :
  Direct.create_building_block_slide requirements filename
  = Direct.ErrorCreatingSlide
      match Direct.analyze_requirements requirements with
      | [] => Py.ZeroDivisionError
      | _ :: _ => Py.NameError "shape"
      end.
Proof.
  unfold Direct.create_building_block_slide.
  destruct (ClassifierFacts.direct_result_all_known requirements)
    as [Hknown _].
  destruct (Direct.analyze_requirements requirements) as [| c l] eqn:Hcats;
    [reflexivity |].
  destruct (Direct.layout_tier (Z.of_nat (List.length (c :: l))))
    as [[bpr w] h] eqn:Htier.
  rewrite (LayoutFacts.direct_conceptual_slide_nonempty (c :: l) [] bpr w h)
    by (congruence || assumption).
  destruct (DirectAzureFacts.azure_slide_raises (c :: l))
    as (slide & -> & _).
  now rewrite Hknown.
Qed.

(** X2.  The entry point of the direct generator never saves a file: for
    every requirements text and file name it returns its error text, built
    from [ZeroDivisionError] when the text holds no keyword and from the
    [NameError] of the second slide otherwise. *)
Theorem direct_entry_point_never_saves (requirements : string)
    (filename : option string) :
  Direct.create_building_block_slide requirements filename
  = Direct.ErrorCreatingSlide
      match Direct.analyze_requirements requirements with
      | [] => Py.ZeroDivisionError
      | _ :: _ => Py.NameError "shape"
      end.
Proof. exact (direct_entry_point_error requirements filename). Qed.

(** ** Drawing what the classifier returned *)

(** X4.  The names the agent's classifier hands out are not the ids its
    slide routine takes.  The text it returns lists every category under
    its display name (the id with spaces for underscores, in title case),
    Infrastructure always among them; none of these names is a key of the
    catalog, so the slide routine, called on them as they stand, draws no
    block and fails with [ZeroDivisionError]. *)
Theorem agent_listed_names_are_no_ids (requirements : string) :
  let names :=
    map (fun category => Py.title (Py.replace_char "_" " " category))
      (Agent.needed_categories requirements) in
  Agent.analyze_requirements requirements
  = fold_left
      (fun result name => (result ++ bullet ++ " " ++ name ++ nl)%string)
      names
      ("Analysis of requirements: '" ++ requirements ++ "'" ++ nl ++ nl
         ++ "Identified solution categories:" ++ nl)%string
  /\ In "Infrastructure" names
  /\ Forall
       (fun name => Py.dict_has Agent.service_recommendations name = false)
       names
  /\ forall (title : string) (presentation : list Slide),
       Agent.create_building_block_slide title requirements names
         presentation
       = (presentation ++ [[Agent.title_box title]],
          Agent.ErrorCreating Py.ZeroDivisionError).
Proof.
  cbv zeta.
  set (display := fun category => Py.title (Py.replace_char "_" " " category)).
  set (names := map display (Agent.needed_categories requirements)).
  assert (Hnone :
            Forall
              (fun name =>
                 Py.dict_has Agent.service_recommendations name = false)
              names).
  { destruct (ClassifierFacts.agent_result_all_known requirements)
      as [Hknown _].
    apply Forall_forall. intros name Hname.
    apply in_map_iff in Hname as (category & <- & Hin).
    apply ClassifierFacts.display_name_is_no_id.
    rewrite <- Hknown in Hin. now apply filter_In in Hin. }
  repeat apply conj.
  - exact (ClassifierFacts.fold_left_names
             (fun name => (bullet ++ " " ++ name ++ nl)%string) display
             (Agent.needed_categories requirements) _).
  - change "Infrastructure" with (display "infrastructure").
    apply in_map.
    destruct (agent_infrastructure_last requirements) as (front & ->).
    apply in_or_app. right. now left.
  - exact Hnone.
  - intros title presentation.
    assert (Hfilter :
              filter (Py.dict_has Agent.service_recommendations) names = []).
    { clear - Hnone. induction Hnone as [| name l Hname _ IH];
        [reflexivity |].
      cbn [filter]. now rewrite Hname. }
    unfold Agent.create_building_block_slide.
    now rewrite LayoutFacts.agent_draw_without_known.
Qed.

(** X5.  When the text holds a keyword, the conceptual slide of the direct
    and unified generators is drawn to the end on the classifier's result,
    with one block per category (no slot is left empty) and the seven strip
    boxes. *)
Theorem direct_conceptual_slide_of_classification (requirements : string) :
  Direct.analyze_requirements requirements <> [] ->
  let categories := Direct.analyze_requirements requirements in
  exists slide y,
    Direct.create_conceptual_slide categories []
    = (slide, inr (y, Direct.box_height))
    /\ Unified.create_conceptual_slide
         (Unified.analyze_requirements requirements) []
       = (slide, inr (y, Direct.box_height))
    /\ List.length (shapes_of ROUNDED_RECTANGLE slide)
       = List.length categories
    /\ List.length (shapes_of RECTANGLE slide) = 7%nat.
Proof.
  intros Hne categories. fold categories in Hne.
  destruct (ClassifierFacts.direct_result_all_known requirements)
    as [_ Hknown]. fold categories in Hknown.
  destruct (LayoutFacts.direct_strip_has_seven_boxes categories Hne)
    as (y & Hret & Hseven).
  destruct (Direct.layout_tier (Z.of_nat (List.length categories)))
    as [[bpr w] h] eqn:Htier.
  pose proof (LayoutFacts.direct_blocks_on_slide categories bpr w h Htier)
    as Hblocks.
  change (Unified.create_conceptual_slide
            (Unified.analyze_requirements requirements))
    with (Direct.create_conceptual_slide categories).
  destruct (Direct.create_conceptual_slide categories []) as [slide r].
  cbn [fst snd] in *. subst r.
  exists slide, y. repeat split; [| assumption].
  now rewrite Hblocks, LayoutFacts.grid_by_index_length, Hknown.
Qed.

Lemma direct_conceptual_slide_of_classification_witness :
  exists slide y,
    Direct.create_conceptual_slide
      (Direct.analyze_requirements "web portal with analytics") []
    = (slide, inr (y, Direct.box_height))
    /\ Unified.create_conceptual_slide
         (Unified.analyze_requirements "web portal with analytics") []
       = (slide, inr (y, Direct.box_height))
    /\ List.length (shapes_of ROUNDED_RECTANGLE slide)
       = List.length (Direct.analyze_requirements "web portal with analytics")
    /\ List.length (shapes_of RECTANGLE slide) = 7%nat.
Proof.
  apply (direct_conceptual_slide_of_classification
           "web portal with analytics").
  vm_compute. discriminate.
Defined.

(** ** How the classification depends on the text *)

Module TextFacts.

Lemma lower_char_idempotent (c : ascii) :
  Py.lower_char (Py.lower_char c) = Py.lower_char c.
Proof. destruct c as [[|] [|] [|] [|] [|] [|] [|] [|]]; reflexivity. Qed.

Lemma lower_idempotent (s : string) : Py.lower (Py.lower s) = Py.lower s.
Proof.
  induction s as [| c s IH]; cbn [Py.lower]; [reflexivity |].
  now rewrite lower_char_idempotent, IH.
Qed.

Lemma lower_append (a b : string) :
  Py.lower (a ++ b)%string = (Py.lower a ++ Py.lower b)%string.
Proof.
  induction a as [| c a IH]; cbn [Py.lower String.append]; [reflexivity |].
  now rewrite IH.
Qed.

Lemma prefix_append (k s post : string) :
  String.prefix k s = true -> String.prefix k (s ++ post)%string = true.
Proof.
  revert k. induction s as [| c s IH]; intros [| a k] H;
    cbn [String.prefix String.append] in *;
    try reflexivity; try discriminate H.
  - destruct post; reflexivity.
  - destruct (ascii_dec a c); [now apply IH | discriminate H].
Qed.

Lemma str_in_append_r (k s post : string) :
  Py.str_in k s = true -> Py.str_in k (s ++ post)%string = true.
Proof.
  induction s as [| c s IH]; cbn [Py.str_in String.append]; intros H.
  - rewrite orb_false_r in H.
    destruct k; [| discriminate H]. now destruct post.
  - apply orb_true_iff in H as [H | H].
    + change (String c (s ++ post)) with (String c s ++ post)%string.
      now rewrite prefix_append.
    + rewrite IH by assumption. apply orb_true_r.
Qed.

Lemma str_in_append_l (k pre s : string) :
  Py.str_in k s = true -> Py.str_in k (pre ++ s)%string = true.
Proof.
  intros H. induction pre as [| c pre IH]; cbn [Py.str_in String.append];
    [assumption |].
  rewrite IH. apply orb_true_r.
Qed.

(** A keyword found in a text is found in every text around it. *)
Lemma str_in_grows (k pre s post : string) :
  Py.str_in k (Py.lower s) = true ->
  Py.str_in k (Py.lower (pre ++ s ++ post)%string) = true.
Proof.
  intros H. rewrite !lower_append.
  now apply str_in_append_l, str_in_append_r.
Qed.

Lemma any_in_grows (terms : list string) (pre s post : string) :
  Py.any_in terms (Py.lower s) = true ->
  Py.any_in terms (Py.lower (pre ++ s ++ post)%string) = true.
Proof.
  unfold Py.any_in. rewrite !existsb_exists.
  intros (k & Hk & Hin). exists k. split; [assumption |].
  now apply str_in_grows.
Qed.

Lemma orb_grows (a b a' b' : bool) :
  (a = true -> a' = true) -> (b = true -> b' = true) ->
  a || b = true -> a' || b' = true.
Proof.
  intros Ha Hb H. apply orb_true_iff in H as [H | H]; apply orb_true_iff;
    auto.
Qed.

(** Who is in the result of the direct classifier, by its tests. *)
Lemma direct_members (web ai data integration : bool) :
  forallb
    (fun c =>
       (String.eqb c "web_application" && web)
       || (String.eqb c "ai_analytics" && ai)
       || (String.eqb c "data_platform" && (ai && data))
       || (String.eqb c "integration" && integration))
    (Py.dict_fromkeys (direct_appends web ai data integration)) = true
  /\ implb web
       (Py.list_in "web_application"
          (Py.dict_fromkeys (direct_appends web ai data integration))) = true
  /\ implb ai
       (Py.list_in "ai_analytics"
          (Py.dict_fromkeys (direct_appends web ai data integration))) = true
  /\ implb (ai && data)
       (Py.list_in "data_platform"
          (Py.dict_fromkeys (direct_appends web ai data integration))) = true
  /\ implb integration
       (Py.list_in "integration"
          (Py.dict_fromkeys (direct_appends web ai data integration))) = true.
Proof. destruct web, ai, data, integration; repeat split; reflexivity. Qed.

(** Who is in the result of the agent's classifier, by its tests. *)
Lemma agent_members
    (ux app_layer intelligence integration_layer ai web data integration
       security : bool) :
  let l :=
    Py.dict_fromkeys
      (agent_appends ux app_layer intelligence integration_layer ai web data
         integration security) in
  forallb
    (fun c =>
       (String.eqb c "web_application" && (ux || app_layer || web))
       || (String.eqb c "ai_analytics" && (intelligence || ai))
       || (String.eqb c "data_platform" && (intelligence || data))
       || (String.eqb c "integration" && (integration_layer || integration))
       || (String.eqb c "security" && security)
       || String.eqb c "infrastructure") l = true
  /\ implb (ux || app_layer || web) (Py.list_in "web_application" l) = true
  /\ implb (intelligence || ai) (Py.list_in "ai_analytics" l) = true
  /\ implb (intelligence || data) (Py.list_in "data_platform" l) = true
  /\ implb (integration_layer || integration) (Py.list_in "integration" l)
     = true
  /\ implb security (Py.list_in "security" l) = true
  /\ Py.list_in "infrastructure" l = true.
Proof.
  destruct ux, app_layer, intelligence, integration_layer, ai, web, data,
    integration, security; repeat split; reflexivity.
Qed.

Lemma implb_elim (b x : bool) : implb b x = true -> b = true -> x = true.
Proof. now intros H ->. Qed.

Ltac member_case H c :=
  apply andb_true_iff in H as [Hc Hb]; apply String.eqb_eq in Hc; subst c.

Ltac use_impl H := apply PyFacts.list_in_true, (implb_elim _ _ H).

Lemma direct_appends_mono (w a d i w' a' d' i' : bool) (c : string) :
  (w = true -> w' = true) -> (a = true -> a' = true) ->
  (d = true -> d' = true) -> (i = true -> i' = true) ->
  In c (Py.dict_fromkeys (direct_appends w a d i)) ->
  In c (Py.dict_fromkeys (direct_appends w' a' d' i')).
Proof.
  intros Hw Ha Hd Hi Hin.
  destruct (direct_members w a d i) as (Hmem & _).
  destruct (direct_members w' a' d' i') as (_ & Iw & Ia & Id & Ii).
  rewrite forallb_forall in Hmem. specialize (Hmem c Hin).
  repeat (apply orb_true_iff in Hmem as [Hmem | Hmem]);
    member_case Hmem c.
  - use_impl Iw. auto.
  - use_impl Ia. auto.
  - use_impl Id. apply andb_true_iff in Hb as [? ?].
    apply andb_true_iff. auto.
  - use_impl Ii. auto.
Qed.

Lemma agent_appends_mono
    (b1 b2 b3 b4 b5 b6 b7 b8 b9 b1' b2' b3' b4' b5' b6' b7' b8' b9' : bool)
    (c : string) :
  (b1 = true -> b1' = true) -> (b2 = true -> b2' = true) ->
  (b3 = true -> b3' = true) -> (b4 = true -> b4' = true) ->
  (b5 = true -> b5' = true) -> (b6 = true -> b6' = true) ->
  (b7 = true -> b7' = true) -> (b8 = true -> b8' = true) ->
  (b9 = true -> b9' = true) ->
  In c (Py.dict_fromkeys (agent_appends b1 b2 b3 b4 b5 b6 b7 b8 b9)) ->
  In c (Py.dict_fromkeys (agent_appends b1' b2' b3' b4' b5' b6' b7' b8' b9')).
Proof.
  intros H1 H2 H3 H4 H5 H6 H7 H8 H9 Hin.
  destruct (agent_members b1 b2 b3 b4 b5 b6 b7 b8 b9) as (Hmem & _).
  destruct (agent_members b1' b2' b3' b4' b5' b6' b7' b8' b9')
    as (_ & Iweb & Iai & Idata & Iint & Isec & Iinfra).
  cbv zeta in *.
  rewrite forallb_forall in Hmem. specialize (Hmem c Hin).
  repeat (apply orb_true_iff in Hmem as [Hmem | Hmem]);
    [member_case Hmem c | member_case Hmem c | member_case Hmem c
     | member_case Hmem c | member_case Hmem c
     | apply String.eqb_eq in Hmem; subst c ].
  - use_impl Iweb. revert Hb. repeat apply orb_grows; assumption.
  - use_impl Iai. revert Hb. repeat apply orb_grows; assumption.
  - use_impl Idata. revert Hb. repeat apply orb_grows; assumption.
  - use_impl Iint. revert Hb. repeat apply orb_grows; assumption.
  - use_impl Isec. auto.
  - now apply PyFacts.list_in_true.
Qed.

(** A test of a classifier that held on a text holds on the text around. *)
Ltac test_grows :=
  first [ apply any_in_grows
        | apply str_in_grows
        | apply orb_grows; test_grows ].

End TextFacts.

(** X6.  The classifiers do not look at the case of the text: lowering the
    text first changes nothing in what they find. *)
Theorem classify_ignores_case (requirements : string) :
  Direct.analyze_requirements (Py.lower requirements)
  = Direct.analyze_requirements requirements
  /\ Unified.analyze_requirements (Py.lower requirements)
     = Unified.analyze_requirements requirements
  /\ Agent.needed_categories (Py.lower requirements)
     = Agent.needed_categories requirements.
Proof.
  unfold Direct.analyze_requirements, Unified.analyze_requirements,
    Agent.needed_categories.
  change (Unified.analyze_requirements_appended)
    with (Direct.analyze_requirements_appended).
  rewrite !ClassifierFacts.direct_appended_by_tests,
    !ClassifierFacts.agent_appended_by_tests.
  cbv zeta. rewrite !TextFacts.lower_idempotent. repeat split.
Qed.

(** X7.  No text takes a category away: whatever a classifier finds in a
    text it also finds in every text that contains it. *)
Theorem classify_grows_with_text (pre requirements post category : string) :
  (In category (Direct.analyze_requirements requirements) ->
   In category
      (Direct.analyze_requirements (pre ++ requirements ++ post)%string))
  /\ (In category (Unified.analyze_requirements requirements) ->
      In category
         (Unified.analyze_requirements (pre ++ requirements ++ post)%string))
  /\ (In category (Agent.needed_categories requirements) ->
      In category
         (Agent.needed_categories (pre ++ requirements ++ post)%string)).
Proof.
  assert (Hdirect :
            In category (Direct.analyze_requirements requirements) ->
            In category
              (Direct.analyze_requirements
                 (pre ++ requirements ++ post)%string)).
  { unfold Direct.analyze_requirements.
    rewrite !ClassifierFacts.direct_appended_by_tests. cbv zeta.
    apply TextFacts.direct_appends_mono; TextFacts.test_grows. }
  repeat split; [exact Hdirect | exact Hdirect |].
  unfold Agent.needed_categories.
  rewrite !ClassifierFacts.agent_appended_by_tests. cbv zeta.
  apply TextFacts.agent_appends_mono; TextFacts.test_grows.
Qed.

Lemma classify_grows_with_text_witness :
  In "web_application"
     (Direct.analyze_requirements "an internal web site for analytics")
  /\ In "web_application"
        (Agent.needed_categories "an internal web site for analytics").
Proof.
  destruct (classify_grows_with_text "an internal " "web" " site for analytics"
              "web_application") as (Hdirect & _ & Hagent).
  split; [apply Hdirect | apply Hagent]; vm_compute; auto.
Defined.

(** ** The other tools of the agent *)

Module AgentToolFacts.

Lemma endswith_itself (s : string) : Py.endswith s s = true.
Proof. destruct s; cbn [Py.endswith]; now rewrite String.eqb_refl. Qed.

Lemma endswith_append (s suffix : string) :
  Py.endswith (s ++ suffix)%string suffix = true.
Proof.
  induction s as [| c s IH]; cbn [String.append].
  - apply endswith_itself.
  - cbn [Py.endswith]. rewrite IH. apply orb_true_r.
Qed.

Lemma create_leaves_a_slide (title requirements : string)
    (categories : list string) (presentation : list Slide) :
  exists slide answer,
    Agent.create_building_block_slide title requirements categories
      presentation
    = (presentation ++ [slide], answer).
Proof.
  unfold Agent.create_building_block_slide.
  destruct (Agent.draw_building_block_slide title requirements categories [])
    as [slide [e | u]]; eauto.
Qed.

(** The fold of [get_service_recommendations], from any text so far. *)
Lemma recommendations_skip_unknown (categories : list string) :
  forall result,
    fold_left
      (fun result category =>
         match Py.dict_get Agent.service_recommendations category with
         | Some services =>
             let result :=
               (result ++ Py.title (Py.replace_char "_" " " category) ++ ":"
                  ++ nl)%string in
             let result :=
               (result ++ "  Primary services: "
                  ++ Py.join ", " (fst services) ++ nl)%string in
             (result ++ "  Supporting services: "
                ++ Py.join ", " (snd services) ++ nl ++ nl)%string
         | None => result
         end)
      (filter (Py.dict_has Agent.service_recommendations) categories) result
    = fold_left
        (fun result category =>
           match Py.dict_get Agent.service_recommendations category with
           | Some services =>
               let result :=
                 (result ++ Py.title (Py.replace_char "_" " " category) ++ ":"
                    ++ nl)%string in
               let result :=
                 (result ++ "  Primary services: "
                    ++ Py.join ", " (fst services) ++ nl)%string in
               (result ++ "  Supporting services: "
                  ++ Py.join ", " (snd services) ++ nl ++ nl)%string
           | None => result
           end)
        categories result.
Proof.
  induction categories as [| c l IH]; intros result; cbn [filter fold_left];
    [reflexivity |].
  unfold Py.dict_has at 1.
  destruct (Py.dict_get Agent.service_recommendations c) eqn:Hc.
  - cbn [fold_left]. rewrite Hc. apply IH.
  - apply IH.
Qed.

End AgentToolFacts.

(** X8.  [save_presentation] of the agent never saves under a name without
    the extension: the name it reports ends with ".pptx", is the given name
    when that already ends with ".pptx" (lower case only) and the given name
    followed by ".pptx" otherwise, and the slide count it reports is the
    number of slides in the presentation. *)
Theorem agent_saves_with_extension (write_ok : string -> bool)
    (presentation : option (list Slide)) (filename saved_as : string)
    (count : nat) :
  Agent.save_presentation write_ok presentation filename
  = Agent.SavedPresentation saved_as count ->
  Py.endswith saved_as ".pptx" = true
  /\ saved_as
     = (if Py.endswith filename ".pptx" then filename
        else (filename ++ ".pptx")%string)
  /\ Some count = option_map (@List.length Slide) presentation
  /\ write_ok saved_as = true.
Proof.
  unfold Agent.save_presentation.
  destruct presentation as [slides |]; [| discriminate].
  destruct (Py.endswith filename ".pptx") eqn:Hext; cbn [negb];
    match goal with
    | |- context [if write_ok ?f then _ else _] =>
        destruct (write_ok f) eqn:Hok
    end; intros [= <- <-]; repeat split; auto.
  apply AgentToolFacts.endswith_append.
Qed.

Lemma agent_saves_with_extension_witness :
  Py.endswith "deck.PPTX.pptx" ".pptx" = true
  /\ "deck.PPTX.pptx"
     = (if Py.endswith "deck.PPTX" ".pptx" then "deck.PPTX"
        else ("deck.PPTX" ++ ".pptx")%string)
  /\ Some 1%nat
     = option_map (@List.length Slide) (Some [[Agent.title_box "t"]])
  /\ (fun _ : string => true) "deck.PPTX.pptx" = true.
Proof.
  apply (agent_saves_with_extension (fun _ => true)
           (Some [[Agent.title_box "t"]]) "deck.PPTX" "deck.PPTX.pptx" 1).
  reflexivity.
Defined.

(** X9.  A slide whose drawing failed stays in the presentation and is
    saved with it: whatever the arguments of
    [create_building_block_slide], and whether it answers with its success
    text or its error text, a [save_presentation] that follows writes one
    slide more than there were before the call. *)
Theorem agent_save_after_create (write_ok : string -> bool)
    (title requirements filename : string) (categories : list string)
    (presentation : list Slide) :
  let after :=
    fst (Agent.create_building_block_slide title requirements categories
           presentation) in
  let saved_as :=
    if Py.endswith filename ".pptx" then filename
    else (filename ++ ".pptx")%string in
  Agent.save_presentation write_ok (Some after) filename
  = (if write_ok saved_as
     then Agent.SavedPresentation saved_as (S (List.length presentation))
     else Agent.ErrorSaving).
Proof.
  intros after saved_as. subst after saved_as.
  destruct (AgentToolFacts.create_leaves_a_slide title requirements
              categories presentation) as (slide & answer & ->).
  cbn [fst]. unfold Agent.save_presentation.
  rewrite length_app, Nat.add_comm. cbn [List.length Nat.add].
  now destruct (Py.endswith filename ".pptx").
Qed.

(** X10.  [get_service_recommendations] skips the ids that are not in the
    catalog without a trace: its text for a list is its text for the
    catalog ids of that list, and only the header when there is none. *)
Theorem recommendations_ignore_unknown_ids (categories : list string) :
  Agent.get_service_recommendations categories
  = Agent.get_service_recommendations
      (filter (Py.dict_has Agent.service_recommendations) categories)
  /\ (filter (Py.dict_has Agent.service_recommendations) categories = [] ->
      Agent.get_service_recommendations categories
      = ("Azure Service Recommendations:" ++ nl ++ nl)%string).
Proof.
  assert (Hskip :
            Agent.get_service_recommendations categories
            = Agent.get_service_recommendations
                (filter (Py.dict_has Agent.service_recommendations)
                   categories)).
  { unfold Agent.get_service_recommendations. cbv zeta.
    symmetry. apply AgentToolFacts.recommendations_skip_unknown. }
  split; [exact Hskip |].
  intros Hnone. rewrite Hskip, Hnone. reflexivity.
Qed.

Lemma recommendations_ignore_unknown_ids_witness :
  Agent.get_service_recommendations ["compute"; "storage"]
  = ("Azure Service Recommendations:" ++ nl ++ nl)%string.
Proof.
  apply (recommendations_ignore_unknown_ids ["compute"; "storage"]).
  reflexivity.
Defined.

(** ** The second slide of the unified generator *)

Module UnifiedAzureFacts.

Section Environment.

Variable path_exists : string -> bool.
Variable path_join : string -> string -> string.
Variable picture_loads : string -> bool.
Variable read_inches : float -> float.

Let load := Unified.load_azure_icon_image path_exists path_join picture_loads.
Let lines :=
  Unified.service_lines path_exists path_join picture_loads read_inches.

(** *** Loading an icon *)

Lemma try_filenames_first (x y : float) (folder : string)
    (filenames : list string) (c : Canvas) :
  Unified.try_filenames path_exists path_join picture_loads x y folder
    filenames c
  = match
      find (fun f =>
              path_exists (path_join folder f)
              && picture_loads (path_join folder f)) filenames
    with
    | Some f =>
        (c ++ [Picture (path_join folder f) x y 0.3 0.3],
         inr (Some (Picture (path_join folder f) x y 0.3 0.3)))
    | None => (c, inr None)
    end.
Proof.
  induction filenames as [| f rest IH];
    cbn [Unified.try_filenames find]; [reflexivity |].
  destruct (path_exists (path_join folder f)); cbn [andb]; [| exact IH].
  destruct (picture_loads (path_join folder f)); [reflexivity | exact IH].
Qed.

Lemma load_first (x y : float) (name folder : string) (c : Canvas) :
  load x y name folder c
  = match
      (if path_exists folder
       then
         find (fun f =>
                 path_exists (path_join folder f)
                 && picture_loads (path_join folder f))
           (Unified.possible_filenames name)
       else None)
    with
    | Some f =>
        (c ++ [Picture (path_join folder f) x y 0.3 0.3],
         inr (Some (Picture (path_join folder f) x y 0.3 0.3)))
    | None => (c, inr None)
    end.
Proof.
  subst load. unfold Unified.load_azure_icon_image.
  destruct (path_exists folder); cbn [negb]; [| reflexivity].
  apply try_filenames_first.
Qed.

(** Loading never raises and leaves the canvas as it is, but for at most
    one picture at its end. *)
Lemma load_adds_pictures (x y : float) (name folder : string) (c : Canvas) :
  exists added icon,
    load x y name folder c = (c ++ added, inr icon)
    /\ drawn added = []
    /\ (List.length added <= 1)%nat
    /\ pictures added = added
    /\ (path_exists folder = false -> added = []).
Proof.
  rewrite load_first. destruct (path_exists folder).
  - destruct (find _ _) as [f |].
    + eexists [_], _. repeat split; cbn; auto; discriminate.
    + exists [], None. rewrite app_nil_r. repeat split; cbn; auto.
  - exists [], None. rewrite app_nil_r. repeat split; cbn; auto.
Qed.

Lemma service_lines_add_pictures (left top : float) (services : list string) :
  forall paragraphs c,
    exists added paragraphs',
      lines left top paragraphs services c = (c ++ added, inr paragraphs')
      /\ drawn added = []
      /\ (List.length added <= List.length services)%nat
      /\ pictures added = added
      /\ (path_exists "azure_icons" = false -> added = []).
Proof.
  subst lines.
  induction services as [| service rest IH]; intros paragraphs c;
    cbn [Unified.service_lines].
  - exists [], paragraphs. unfold cret. rewrite app_nil_r.
    repeat split; cbn; auto.
  - unfold cbind.
    match goal with
    | |- context [Unified.load_azure_icon_image _ _ _ ?x ?y ?n ?f c] =>
        destruct (load_adds_pictures x y n f c)
          as (a1 & icon & Hload & Hd1 & Hl1 & Hp1 & Hn1)
    end.
    subst load. rewrite Hload.
    match goal with
    | |- context [Unified.service_lines _ _ _ _ _ _ ?ps rest (c ++ a1)] =>
        destruct (IH ps (c ++ a1))
          as (a2 & ps' & Hrest & Hd2 & Hl2 & Hp2 & Hn2)
    end.
    rewrite Hrest. exists (a1 ++ a2), ps'. rewrite app_assoc.
    repeat split.
    + unfold drawn in *. now rewrite flat_map_app, Hd1, Hd2.
    + rewrite length_app. cbn [List.length]. lia.
    + unfold pictures in *. now rewrite filter_app, Hp1, Hp2.
    + intros Hno. now rewrite Hn1, Hn2.
Qed.

(** *** Setting the text of a shape *)

Lemma set_paragraphs_geometry (k : nat) (ps : list string) (c : Canvas) :
  map geometry (drawn (set_paragraphs_at k ps c)) = map geometry (drawn c).
Proof.
  revert k. induction c as [| it rest IH]; intros k;
    [now destruct k |].
  destruct k as [| k'], it as [sh | f l t w h];
    cbn [set_paragraphs_at drawn flat_map app map]; try reflexivity.
  - fold (drawn (set_paragraphs_at k' ps rest)). fold (drawn rest).
    now rewrite IH.
  - fold (drawn (set_paragraphs_at k' ps rest)). fold (drawn rest).
    now rewrite IH.
Qed.

Lemma set_paragraphs_pictures (k : nat) (ps : list string) (c : Canvas) :
  pictures (set_paragraphs_at k ps c) = pictures c.
Proof.
  revert k. induction c as [| it rest IH]; intros k;
    [now destruct k |].
  destruct k as [| k'], it as [sh | f l t w h];
    cbn [set_paragraphs_at pictures filter]; try reflexivity.
  - fold (pictures (set_paragraphs_at k' ps rest)). fold (pictures rest).
    now rewrite IH.
  - fold (pictures (set_paragraphs_at k' ps rest)). fold (pictures rest).
    now rewrite IH.
Qed.

Lemma drawn_app (c1 c2 : Canvas) : drawn (c1 ++ c2) = drawn c1 ++ drawn c2.
Proof. unfold drawn. apply flat_map_app. Qed.

Lemma pictures_app (c1 c2 : Canvas) :
  pictures (c1 ++ c2) = pictures c1 ++ pictures c2.
Proof. unfold pictures. apply filter_app. Qed.

(** *** The two catalogs have the same keys *)

Lemma catalogs_agree (category : string) :
  Py.dict_get Unified.service_recommendations category = None
  <-> Py.dict_get Direct.conceptual_blocks category = None.
Proof.
  unfold Unified.service_recommendations, Direct.conceptual_blocks.
  cbn [Py.dict_get].
  repeat match goal with
         | |- context [String.eqb category ?k] =>
             destruct (String.eqb category k)
         end;
    split; intros H; (reflexivity || discriminate H).
Qed.

Lemma services_have_colors (category : string) (entry : string * list string) :
  Py.dict_get Unified.service_recommendations category = Some entry ->
  exists rgb, Py.dict_get Unified.colors category = Some rgb.
Proof.
  intros H.
  destruct (Py.dict_get Direct.conceptual_blocks category) as [e |] eqn:He.
  - exact (LayoutFacts.direct_colors_cover_concepts category e He).
  - apply catalogs_agree in He. congruence.
Qed.

(** *** One block and its icons *)

Lemma unified_block_pass_unknown (bpr : Z) (w h : float) (i : Z)
    (category : string) (c : Canvas) :
  Py.dict_get Unified.service_recommendations category = None ->
  Unified.azure_block_pass path_exists path_join picture_loads read_inches
    bpr w h i category c = (c, inr tt).
Proof.
  intros H. unfold Unified.azure_block_pass. now rewrite H.
Qed.

Lemma unified_block_pass_zero (w h : float) (i : Z) (category : string)
    (entry : string * list string) (c : Canvas) :
  Py.dict_get Unified.service_recommendations category = Some entry ->
  Unified.azure_block_pass path_exists path_join picture_loads read_inches
    0 w h i category c = (c, inl Py.ZeroDivisionError).
Proof.
  intros H. unfold Unified.azure_block_pass. now rewrite H.
Qed.

Lemma unified_block_pass_known (bpr : Z) (w h : float) (i : Z)
    (category : string) (entry : string * list string) (c : Canvas) :
  Py.dict_get Unified.service_recommendations category = Some entry ->
  bpr <> 0%Z ->
  exists rgb added ps,
    Py.dict_get Unified.colors category = Some rgb
    /\ Unified.azure_block_pass path_exists path_join picture_loads
         read_inches bpr w h i category c
       = (set_paragraphs_at (List.length c) ps
            (c ++ AutoShape
                    (Direct.block_shape w h (i / bpr) (i mod bpr) (Some rgb)
                       [fst entry]) :: added),
          inr tt)
    /\ drawn added = []
    /\ (List.length added <= 4)%nat
    /\ pictures added = added
    /\ (path_exists "azure_icons" = false -> added = []).
Proof.
  intros He Hbpr.
  destruct (services_have_colors category entry He) as [rgb Hrgb].
  unfold Unified.azure_block_pass. rewrite He.
  unfold Py.floordiv, Py.pymod.
  destruct (Z.eqb_spec bpr 0) as [-> | _]; [congruence |].
  unfold cbind, clift, next_index, add_item. rewrite Hrgb.
  match goal with
  | |- context [Unified.service_lines _ _ _ _ ?l ?t ?ps ?sv ?c'] =>
      destruct (service_lines_add_pictures l t sv ps c')
        as (added & ps' & Hlines & Hd & Hl & Hp & Hn)
  end.
  subst lines. rewrite Hlines. unfold set_paragraphs.
  exists rgb, added, ps'. rewrite <- app_assoc. cbn [app].
  repeat split; auto.
  etransitivity; [exact Hl |]. apply firstn_le_length.
Qed.

(** *** Canvas against slide *)

Lemma canvas_sim_ret {A : Type} (a : A) : canvas_sim (cret a) (ret a).
Proof. intros c s Hcs. now split. Qed.

Lemma canvas_sim_lift {A : Type} (r : Py.exn + A) :
  canvas_sim (clift r) (lift r).
Proof. intros c s Hcs. now split. Qed.

Lemma canvas_sim_bind {A B : Type} (m1 : MC A) (m2 : M A)
    (k1 : A -> MC B) (k2 : A -> M B) :
  canvas_sim m1 m2 -> (forall a, canvas_sim (k1 a) (k2 a)) ->
  canvas_sim (cbind m1 k1) (bind m2 k2).
Proof.
  intros Hm Hk c s Hcs. unfold cbind, bind.
  destruct (Hm c s Hcs) as [Hgeo Hres].
  destruct (m1 c) as [c' r1], (m2 s) as [s' r2]. simpl in *.
  subst r2. destruct r1 as [e | a].
  - now split.
  - now apply Hk.
Qed.

Lemma same_shapes_snoc (c : Canvas) (s : Slide) (sh1 sh2 : Shape) :
  same_shapes c s -> geometry sh1 = geometry sh2 ->
  same_shapes (c ++ [AutoShape sh1]) (s ++ [sh2]).
Proof.
  unfold same_shapes. intros Hcs Hsh.
  rewrite drawn_app, !map_app. cbn. now rewrite Hcs, Hsh.
Qed.

Lemma canvas_sim_add (sh1 sh2 : Shape) :
  geometry sh1 = geometry sh2 ->
  canvas_sim (add_item (AutoShape sh1)) (add_shape sh2).
Proof.
  intros Hsh c s Hcs. split; [| reflexivity].
  now apply same_shapes_snoc.
Qed.

Lemma canvas_sim_for {A : Type} (body1 : Z -> A -> MC unit)
    (body2 : Z -> A -> M unit) (l : list A) :
  (forall i a, canvas_sim (body1 i a) (body2 i a)) ->
  forall i,
    canvas_sim (for_enumerate_canvas body1 i l) (for_enumerate body2 i l).
Proof.
  intros Hbody. induction l as [| a l IH]; intros i;
    cbn [for_enumerate_canvas for_enumerate].
  - apply canvas_sim_ret.
  - apply canvas_sim_bind; [apply Hbody | intros _; apply IH].
Qed.

Lemma canvas_sim_for_both {A B : Type} (body1 : Z -> A -> MC unit)
    (body2 : Z -> B -> M unit) (l1 : list A) (l2 : list B) :
  (forall i a b, canvas_sim (body1 i a) (body2 i b)) ->
  List.length l1 = List.length l2 ->
  forall i,
    canvas_sim (for_enumerate_canvas body1 i l1) (for_enumerate body2 i l2).
Proof.
  intros Hbody. revert l2.
  induction l1 as [| a l1 IH]; intros [| b l2] Hlen i;
    try discriminate Hlen; cbn [for_enumerate_canvas for_enumerate].
  - apply canvas_sim_ret.
  - apply canvas_sim_bind; [apply Hbody | intros _; apply IH].
    now injection Hlen.
Qed.

Lemma azure_block_pass_canvas_sim (bpr : Z) (w h : float) (i : Z)
    (category : string) :
  canvas_sim
    (Unified.azure_block_pass path_exists path_join picture_loads
       read_inches bpr w h i category)
    (Direct.conceptual_block_pass bpr w h i category).
Proof.
  intros c s Hcs.
  destruct (Py.dict_get Unified.service_recommendations category)
    as [entry |] eqn:He.
  - destruct (Py.dict_get Direct.conceptual_blocks category)
      as [concept |] eqn:Hc;
      [| apply catalogs_agree in Hc; congruence].
    destruct (Z.eq_dec bpr 0) as [-> | Hbpr].
    + rewrite (unified_block_pass_zero _ _ _ _ entry) by assumption.
      unfold Direct.conceptual_block_pass. rewrite Hc. now split.
    + destruct (unified_block_pass_known bpr w h i category entry c He Hbpr)
        as (rgb & added & ps & Hrgb & -> & Hd & _).
      rewrite LayoutFacts.conceptual_block_pass_run by assumption.
      cbn [grid_by_index fst snd]. rewrite Hc.
      change Unified.colors with Direct.colors in Hrgb. rewrite Hrgb.
      split; [| reflexivity].
      unfold same_shapes in *.
      rewrite set_paragraphs_geometry, drawn_app, !map_app.
      cbn [drawn flat_map app map]. fold (drawn added).
      now rewrite Hd, Hcs.
  - rewrite unified_block_pass_unknown by assumption.
    apply catalogs_agree in He.
    unfold Direct.conceptual_block_pass. rewrite He. now split.
Qed.

Lemma azure_service_pass_run (y : float) (i : Z) (service : string)
    (c : Canvas) :
  exists added text,
    Unified.azure_service_pass path_exists path_join picture_loads
      read_inches y i service c
    = (set_paragraphs_at (List.length c) [text]
         (c ++ AutoShape
                 (mkShape RECTANGLE
                    (0.5 + Py.float_of_int i * (1.25 + 0.05)) y 1.25 0.6
                    (Some black) [""]) :: added),
       inr tt)
    /\ drawn added = []
    /\ (List.length added <= 1)%nat
    /\ pictures added = added
    /\ (path_exists "azure_icons" = false -> added = []).
Proof.
  unfold Unified.azure_service_pass, cbind, next_index, add_item.
  match goal with
  | |- context [Unified.load_azure_icon_image _ _ _ ?x ?y' ?n ?f ?c'] =>
      destruct (load_adds_pictures x y' n f c')
        as (added & icon & Hload & Hd & Hl & Hp & Hn)
  end.
  subst load. rewrite Hload. unfold set_paragraphs.
  eexists added, _. rewrite <- app_assoc. cbn [app].
  repeat split; auto.
Qed.

Lemma azure_service_pass_canvas_sim (y : float) (i : Z)
    (service concern : string) :
  canvas_sim
    (Unified.azure_service_pass path_exists path_join picture_loads
       read_inches y i service)
    (add_shape (Direct.service_box_pass y i concern)).
Proof.
  intros c s Hcs.
  destruct (azure_service_pass_run y i service c)
    as (added & text & -> & Hd & _).
  unfold add_shape. cbn [fst snd]. split; [| reflexivity].
  unfold same_shapes in *.
  rewrite set_paragraphs_geometry, drawn_app, !map_app.
  cbn [drawn flat_map app map]. fold (drawn added).
  now rewrite Hd, Hcs.
Qed.

Lemma azure_slide_canvas_sim (categories : list string) :
  canvas_sim
    (Unified.create_azure_specific_slide path_exists path_join picture_loads
       read_inches categories)
    (Direct.create_conceptual_slide categories).
Proof.
  unfold Unified.create_azure_specific_slide, Direct.create_conceptual_slide.
  change Unified.layout_tier with Direct.layout_tier.
  destruct (Direct.layout_tier (Z.of_nat (List.length categories)))
    as [[bpr w] h].
  apply canvas_sim_bind; [now apply canvas_sim_add | intros _].
  apply canvas_sim_bind;
    [apply canvas_sim_for; intros; apply azure_block_pass_canvas_sim
    | intros _].
  apply canvas_sim_bind; [apply canvas_sim_lift | intros q].
  apply canvas_sim_bind;
    [apply canvas_sim_for_both;
       [intros; apply azure_service_pass_canvas_sim | reflexivity]
    | intros _].
  apply canvas_sim_bind; [now apply canvas_sim_add | intros _].
  apply canvas_sim_ret.
Qed.

(** *** Counting the pictures *)

Lemma azure_block_loop_pictures (bpr : Z) (w h : float)
    (l : list string) :
  forall i c,
    let run :=
      for_enumerate_canvas
        (Unified.azure_block_pass path_exists path_join picture_loads
           read_inches bpr w h) i l c in
    (List.length (pictures (fst run))
     <= List.length (pictures c)
        + 4 * List.length
                (filter (Py.dict_has Unified.service_recommendations) l))%nat
    /\ (path_exists "azure_icons" = false -> pictures (fst run) = pictures c).
Proof.
  induction l as [| category rest IH]; intros i c;
    cbn [for_enumerate_canvas filter].
  - unfold cret. cbn [fst List.length]. split; [lia | reflexivity].
  - unfold cbind.
    destruct (Py.dict_get Unified.service_recommendations category)
      as [entry |] eqn:He;
      [replace (Py.dict_has Unified.service_recommendations category)
         with true by (unfold Py.dict_has; now rewrite He)
      | replace (Py.dict_has Unified.service_recommendations category)
          with false by (unfold Py.dict_has; now rewrite He)].
    + destruct (Z.eq_dec bpr 0) as [-> | Hbpr].
      * rewrite (unified_block_pass_zero _ _ _ _ entry) by assumption.
        cbn [fst]. split; [lia | reflexivity].
      * destruct (unified_block_pass_known bpr w h i category entry c He Hbpr)
          as (rgb & added & ps & _ & -> & _ & Hl & Hp & Hn).
        match goal with
        | |- context [for_enumerate_canvas _ _ rest ?c'] =>
            destruct (IH (i + 1)%Z c') as [IHl IHn];
            assert (Hc' : pictures c' = pictures c ++ added)
              by (rewrite set_paragraphs_pictures, pictures_app;
                  cbn [pictures filter]; fold (pictures added);
                  now rewrite Hp)
        end.
        rewrite Hc' in IHl, IHn. rewrite length_app in IHl.
        cbn [List.length]. split; [lia |].
        intros Hno. rewrite (IHn Hno), (Hn Hno). apply app_nil_r.
    + rewrite unified_block_pass_unknown by assumption. apply IH.
Qed.

Lemma azure_strip_loop_pictures (y : float) (l : list string) :
  forall i c,
    exists c',
      for_enumerate_canvas
        (Unified.azure_service_pass path_exists path_join picture_loads
           read_inches y) i l c = (c', inr tt)
      /\ (List.length (pictures c')
          <= List.length (pictures c) + List.length l)%nat
      /\ (path_exists "azure_icons" = false -> pictures c' = pictures c).
Proof.
  induction l as [| service rest IH]; intros i c;
    cbn [for_enumerate_canvas].
  - exists c. unfold cret. cbn [List.length]. repeat split; lia.
  - unfold cbind.
    destruct (azure_service_pass_run y i service c)
      as (added & text & -> & _ & Hl & Hp & Hn).
    match goal with
    | |- context [for_enumerate_canvas _ _ rest ?c1] =>
        destruct (IH (i + 1)%Z c1) as (c' & -> & IHl & IHn);
        assert (Hc1 : pictures c1 = pictures c ++ added)
          by (rewrite set_paragraphs_pictures, pictures_app;
              cbn [pictures filter]; fold (pictures added);
              now rewrite Hp)
    end.
    rewrite Hc1 in IHl, IHn. rewrite length_app in IHl.
    exists c'. cbn [List.length]. repeat split; [lia |].
    intros Hno. rewrite (IHn Hno), (Hn Hno). apply app_nil_r.
Qed.

Lemma azure_slide_pictures (categories : list string) (c : Canvas) :
  exists c' r,
    Unified.create_azure_specific_slide path_exists path_join picture_loads
      read_inches categories c = (c', r)
    /\ (List.length (pictures c')
        <= List.length (pictures c)
           + 4 * List.length
                   (filter (Py.dict_has Unified.service_recommendations)
                      categories)
           + 7)%nat
    /\ (path_exists "azure_icons" = false -> pictures c' = pictures c).
Proof.
  unfold Unified.create_azure_specific_slide.
  destruct (Unified.layout_tier (Z.of_nat (List.length categories)))
    as [[bpr w] h].
  unfold cbind at 1. unfold add_item at 1.
  match goal with
  | |- context [c ++ [?t]] =>
      assert (Ht : pictures (c ++ [t]) = pictures c)
        by (rewrite pictures_app; apply app_nil_r);
      set (c0 := c ++ [t]) in *
  end.
  unfold cbind at 1.
  destruct (azure_block_loop_pictures bpr w h categories 0 c0) as [Hl Hn].
  cbv zeta in Hl, Hn. rewrite Ht in Hl, Hn.
  destruct (for_enumerate_canvas _ 0 categories c0) as [c1 [e | []]];
    cbn [fst] in *.
  { eexists _, _. split; [reflexivity |]. split; [lia | exact Hn]. }
  unfold cbind at 1. unfold clift.
  destruct (Py.floordiv _ bpr) as [e | q].
  { eexists _, _. split; [reflexivity |]. split; [lia | exact Hn]. }
  unfold cbind at 1.
  match goal with
  | |- context [for_enumerate_canvas (_ ?y) 0 _ c1] =>
      destruct (azure_strip_loop_pictures y
                  Unified.azure_cross_cutting_services 0 c1)
        as (c2 & -> & Hl2 & Hn2)
  end.
  unfold cbind, add_item, cret.
  eexists _, _. split; [reflexivity |].
  rewrite pictures_app. cbn [pictures filter]. rewrite app_nil_r.
  change (List.length Unified.azure_cross_cutting_services) with 7%nat in Hl2.
  split; [lia |].
  intros Hno. now rewrite (Hn2 Hno), (Hn Hno).
Qed.

End Environment.

End UnifiedAzureFacts.

Lemma same_geometry_shapes_of (k : shape_type) (s1 s2 : Slide) :
  same_geometry s1 s2 ->
  List.length (shapes_of k s1) = List.length (shapes_of k s2).
Proof.
  unfold same_geometry. revert s2.
  induction s1 as [| a s1 IH]; intros [| b s2] H; try discriminate H;
    [reflexivity |].
  cbn [map] in H. injection H as Hab Hrest.
  cbn [shapes_of filter]. fold (shapes_of k s1). fold (shapes_of k s2).
  assert (Hty : sh_type a = sh_type b)
    by (unfold geometry in Hab; congruence).
  rewrite Hty. destruct (match sh_type b, k with
                         | TEXT_BOX, TEXT_BOX => true
                         | ROUNDED_RECTANGLE, ROUNDED_RECTANGLE => true
                         | RECTANGLE, RECTANGLE => true
                         | _, _ => false
                         end); cbn [List.length]; now rewrite (IH s2).
Qed.

Lemma known_in_both_catalogs (l : list string) :
  List.length (filter (Py.dict_has Direct.conceptual_blocks) l)
  = List.length (filter (Py.dict_has Unified.service_recommendations) l).
Proof.
  induction l as [| c l IH]; [reflexivity |].
  cbn [filter].
  assert (Hsame : Py.dict_has Direct.conceptual_blocks c
                  = Py.dict_has Unified.service_recommendations c).
  { unfold Py.dict_has.
    destruct (Py.dict_get Direct.conceptual_blocks c) eqn:Hc.
    - destruct (Py.dict_get Unified.service_recommendations c) eqn:Hs;
        [reflexivity |].
      apply UnifiedAzureFacts.catalogs_agree in Hs. congruence.
    - apply UnifiedAzureFacts.catalogs_agree in Hc. now rewrite Hc. }
  rewrite Hsame.
  destruct (Py.dict_has Unified.service_recommendations c);
    cbn [List.length]; now rewrite IH.
Qed.

(** X11.  [load_azure_icon_image] never raises and adds at most one
    picture: of the six file names it builds from the service name, tried
    in their order, the first whose path exists and that [add_picture]
    accepts, 0.3 by 0.3 inches at the position asked for.  When the icon
    folder is missing, or no file name qualifies, the slide is left as it
    is and the result is [None]. *)
Theorem icon_is_first_loadable_candidate (path_exists : string -> bool)
    (path_join : string -> string -> string) (picture_loads : string -> bool)
    (x_pos y_pos : float) (service_name icon_folder : string) (c : Canvas) :
  Unified.load_azure_icon_image path_exists path_join picture_loads
    x_pos y_pos service_name icon_folder c
  = match
      (if path_exists icon_folder
       then
         find (fun filename =>
                 path_exists (path_join icon_folder filename)
                 && picture_loads (path_join icon_folder filename))
           (Unified.possible_filenames service_name)
       else None)
    with
    | Some filename =>
        (c ++ [Picture (path_join icon_folder filename) x_pos y_pos 0.3 0.3],
         inr (Some
                (Picture (path_join icon_folder filename) x_pos y_pos
                   0.3 0.3)))
    | None => (c, inr None)
    end.
Proof. apply UnifiedAzureFacts.load_first. Qed.

(** X12.  Whatever the file system holds, the Azure slide of the unified
    generator has the shapes of its conceptual slide, of the same kinds in
    the same boxes and in the same order (only texts, fills and the icon
    pictures differ), and it ends as the conceptual slide does: with the
    same strip position and box height, or with the same exception. *)
Theorem unified_azure_slide_follows_conceptual
    (path_exists : string -> bool) (path_join : string -> string -> string)
    (picture_loads : string -> bool) (read_inches : float -> float)
    (categories : list string) :
  let azure :=
    Unified.create_azure_specific_slide path_exists path_join picture_loads
      read_inches categories [] in
  let conceptual := Unified.create_conceptual_slide categories [] in
  same_geometry (drawn (fst azure)) (fst conceptual)
  /\ snd azure = snd conceptual.
Proof.
  exact (UnifiedAzureFacts.azure_slide_canvas_sim path_exists path_join
           picture_loads read_inches categories [] [] eq_refl).
Qed.

(** X13.  On a list that is not empty the Azure slide of the unified
    generator is drawn to the end (the unbound names of the direct
    generator are bound here): it returns the strip position and the box
    height 0.6, and holds one block per catalog id of the list and the
    seven black boxes of the strip. *)
Theorem unified_azure_slide_is_drawn (path_exists : string -> bool)
    (path_join : string -> string -> string) (picture_loads : string -> bool)
    (read_inches : float -> float) (categories : list string) :
  categories <> [] ->
  exists slide y,
    Unified.create_azure_specific_slide path_exists path_join picture_loads
      read_inches categories []
    = (slide, inr (y, 0.6%float))
    /\ List.length (shapes_of ROUNDED_RECTANGLE (drawn slide))
       = List.length
           (filter (Py.dict_has Unified.service_recommendations) categories)
    /\ List.length (shapes_of RECTANGLE (drawn slide)) = 7%nat.
Proof.
  intros Hne.
  destruct (UnifiedAzureFacts.azure_slide_canvas_sim path_exists path_join
              picture_loads read_inches categories [] [] eq_refl)
    as [Hgeo Hres].
  destruct (LayoutFacts.direct_strip_has_seven_boxes categories Hne)
    as (y & Hret & Hseven).
  destruct (Direct.layout_tier (Z.of_nat (List.length categories)))
    as [[bpr w] h] eqn:Htier.
  pose proof (LayoutFacts.direct_blocks_on_slide categories bpr w h Htier)
    as Hblocks.
  destruct (Unified.create_azure_specific_slide _ _ _ _ categories [])
    as [slide r].
  cbn [fst snd] in Hgeo, Hres. rewrite Hret in Hres. subst r.
  exists slide, y. split; [reflexivity |]. split.
  - rewrite (same_geometry_shapes_of _ _ _ Hgeo), Hblocks.
    rewrite LayoutFacts.grid_by_index_length.
    apply known_in_both_catalogs.
  - now rewrite (same_geometry_shapes_of _ _ _ Hgeo).
Qed.

Lemma unified_azure_slide_is_drawn_witness :
  exists slide y,
    Unified.create_azure_specific_slide (fun _ => false)
      (fun a b => (a ++ "/" ++ b)%string) (fun _ => false) (fun x => x)
      ["web_application"; "storage"] []
    = (slide, inr (y, 0.6%float))
    /\ List.length (shapes_of ROUNDED_RECTANGLE (drawn slide))
       = List.length
           (filter (Py.dict_has Unified.service_recommendations)
              ["web_application"; "storage"])
    /\ List.length (shapes_of RECTANGLE (drawn slide)) = 7%nat.
Proof.
  apply (unified_azure_slide_is_drawn (fun _ => false)
           (fun a b => (a ++ "/" ++ b)%string) (fun _ => false) (fun x => x)
           ["web_application"; "storage"]).
  discriminate.
Defined.

(** X14.  The Azure slide of the unified generator holds at most four icon
    pictures per catalog id of the list and seven for the strip, and no
    picture at all when the folder "azure_icons" is missing. *)
Theorem unified_azure_slide_pictures (path_exists : string -> bool)
    (path_join : string -> string -> string) (picture_loads : string -> bool)
    (read_inches : float -> float) (categories : list string) :
  let slide :=
    fst (Unified.create_azure_specific_slide path_exists path_join
           picture_loads read_inches categories []) in
  (List.length (pictures slide)
   <= 4 * List.length
            (filter (Py.dict_has Unified.service_recommendations) categories)
      + 7)%nat
  /\ (path_exists "azure_icons" = false -> pictures slide = []).
Proof.
  destruct (UnifiedAzureFacts.azure_slide_pictures path_exists path_join
              picture_loads read_inches categories [])
    as (c' & r & -> & Hl & Hn).
  cbn [fst]. split; [exact Hl | exact Hn].
Qed.

(** ** The presentation of the unified generator *)

Module UnifiedPresentationFacts.


Lemma slide_type_unknown (slide_type : string) :
  Py.list_in slide_type ["conceptual"; "azure"; "both"] = false ->
  Py.list_in slide_type ["conceptual"; "both"] = false
  /\ Py.list_in slide_type ["azure"; "both"] = false.
Proof.
  unfold Py.list_in. cbn [existsb].
  destruct (String.eqb slide_type "conceptual"),
    (String.eqb slide_type "azure"), (String.eqb slide_type "both");
    cbn; intros H; (discriminate H || now split).
Qed.

(** The name the presentation is saved under. *)
Lemma saved_name_has_extension (filename : option string) :
  Py.endswith
    match filename with
    | None | Some EmptyString => "Building_Blocks_Architecture.pptx"
    | Some f =>
        if negb (Py.endswith f ".pptx") then (f ++ ".pptx")%string else f
    end ".pptx" = true.
Proof.
  destruct filename as [[| a f] |]; try reflexivity.
  destruct (Py.endswith (String a f) ".pptx") eqn:Hext; cbn [negb];
    [exact Hext | apply AgentToolFacts.endswith_append].
Qed.

Section Environment.

Variable path_exists : string -> bool.
Variable path_join : string -> string -> string.
Variable picture_loads : string -> bool.
Variable read_inches : float -> float.



End Environment.



End UnifiedPresentationFacts.

(** X15.  A slide type other than "conceptual", "azure" and "both" (the
    comparison is exact, so "Both" is one) is no error for
    [create_building_block_presentation]: no slide routine runs, so even a
    text without a keyword raises nothing, and a presentation without any
    slide is saved under a name that ends with ".pptx" and reported as
    created, with 0 slides and the number of categories found. *)
Theorem unknown_slide_type_saves_an_empty_deck
    (path_exists : string -> bool) (path_join : string -> string -> string)
    (picture_loads : string -> bool) (read_inches : float -> float)
    (write_ok : string -> bool) (requirements : string)
    (filename : option string) (slide_type : string) :
  Py.list_in slide_type ["conceptual"; "azure"; "both"] = false ->
  exists saved_as,
    Py.endswith saved_as ".pptx" = true
    /\ Unified.create_building_block_presentation path_exists path_join
         picture_loads read_inches write_ok requirements filename slide_type
       = (if write_ok saved_as
          then
            Unified.Created [] saved_as 0
              (List.length (Unified.analyze_requirements requirements)) []
          else Unified.ErrorWriting).
Proof.
  intros Hunknown.
  destruct (UnifiedPresentationFacts.slide_type_unknown _ Hunknown)
    as [Hc Ha].
  unfold Unified.create_building_block_presentation. rewrite Hc, Ha.
  eexists. split; [apply (UnifiedPresentationFacts.saved_name_has_extension
                            filename) |].
  reflexivity.
Qed.

Lemma unknown_slide_type_saves_an_empty_deck_witness :
  exists saved_as,
    Py.endswith saved_as ".pptx" = true
    /\ Unified.create_building_block_presentation (fun _ => false)
         (fun a b => (a ++ "/" ++ b)%string) (fun _ => false) (fun x => x)
         (fun _ => true) "hello" (Some "deck") "Both"
       = (if (fun _ : string => true) saved_as
          then
            Unified.Created [] saved_as 0
              (List.length (Unified.analyze_requirements "hello")) []
          else Unified.ErrorWriting).
Proof.
  apply (unknown_slide_type_saves_an_empty_deck (fun _ => false)
           (fun a b => (a ++ "/" ++ b)%string) (fun _ => false) (fun x => x)
           (fun _ => true) "hello" (Some "deck") "Both").
  reflexivity.
Defined.



(** X17.  [generate] degrades to the direct path: when the AI framework is
    not available or no GitHub token was given, the methods "auto" and
    "ai" give exactly what "direct" gives, the answer of
    [create_building_block_presentation], and the remote agent is not
    called.  A method other than "auto", "ai" and "direct" (the comparison
    is exact) makes nothing and is named in the answer. *)
Theorem generate_falls_back_to_direct
    (path_exists : string -> bool) (path_join : string -> string -> string)
    (picture_loads : string -> bool) (read_inches : float -> float)
    (write_ok : string -> bool) (AI_AVAILABLE : bool)
    (create_ai_presentation : string -> string)
    (github_token : option string) (requirements method : string)
    (filename : option string) (slide_type : string) :
  let generate :=
    Unified.generate path_exists path_join picture_loads read_inches
      write_ok AI_AVAILABLE create_ai_presentation github_token
      requirements in
  let direct :=
    Unified.DirectAnswer
      (Unified.create_building_block_presentation path_exists path_join
         picture_loads read_inches write_ok requirements filename
         slide_type) in
  (AI_AVAILABLE = false \/ github_token = None \/ github_token = Some "" ->
   Py.list_in method ["auto"; "ai"; "direct"] = true ->
   generate method filename slide_type = direct)
  /\ (Py.list_in method ["auto"; "ai"; "direct"] = false ->
      generate method filename slide_type = Unified.UnknownMethod method)
  /\ generate "direct" filename slide_type = direct.
Proof.
  intros generate direct. subst generate direct. unfold Unified.generate.
  cbv zeta. unfold Py.list_in. cbn [existsb].
  repeat split.
  - intros Hno Hmethod.
    destruct (String.eqb_spec method "auto") as [-> | _];
      [| destruct (String.eqb_spec method "ai") as [-> | _];
         [| destruct (String.eqb_spec method "direct") as [-> | _];
            [| discriminate Hmethod]]];
      destruct Hno as [-> | [-> | ->]]; try reflexivity;
      destruct AI_AVAILABLE; try reflexivity;
      destruct github_token as [[| a t] |]; reflexivity.
  - intros Hmethod.
    destruct (String.eqb method "auto") eqn:Hauto; [discriminate Hmethod |].
    destruct (String.eqb method "ai") eqn:Hai; [discriminate Hmethod |].
    destruct (String.eqb method "direct") eqn:Hdirect;
      [discriminate Hmethod |].
    cbv iota. now rewrite Hai.
Qed.

Lemma generate_falls_back_to_direct_witness :
  Unified.generate (fun _ => false) (fun a b => (a ++ "/" ++ b)%string)
    (fun _ => false) (fun x => x) (fun _ => true) true (fun s => s)
    (Some "") "web portal" "ai" None "both"
  = Unified.DirectAnswer
      (Unified.create_building_block_presentation (fun _ => false)
         (fun a b => (a ++ "/" ++ b)%string) (fun _ => false) (fun x => x)
         (fun _ => true) "web portal" None "both").
Proof.
  exact (proj1
           (generate_falls_back_to_direct (fun _ => false)
              (fun a b => (a ++ "/" ++ b)%string) (fun _ => false)
              (fun x => x) (fun _ => true) true (fun s => s) (Some "")
              "web portal" "ai" None "both")
           (or_intror (or_intror eq_refl)) eq_refl).
Defined.

(** ** The texts of the second slide *)

Module UnifiedTextFacts.

Lemma set_paragraphs_last (c : Canvas) (sh : Shape) (rest : Canvas)
    (ps : list string) :
  set_paragraphs_at (List.length c) ps (c ++ AutoShape sh :: rest)
  = c ++ AutoShape
           (mkShape (sh_type sh) (sh_left sh) (sh_top sh) (sh_width sh)
              (sh_height sh) (sh_fill sh) ps) :: rest.
Proof.
  induction c as [| it c IH]; [reflexivity |].
  cbn [List.length app set_paragraphs_at]. rewrite IH. now destruct it.
Qed.

Lemma shapes_of_drawn_app (k : shape_type) (c1 c2 : Canvas) :
  shapes_of k (drawn (c1 ++ c2))
  = shapes_of k (drawn c1) ++ shapes_of k (drawn c2).
Proof.
  now rewrite UnifiedAzureFacts.drawn_app, LayoutFacts.shapes_of_app.
Qed.

Section Environment.

Variable path_exists : string -> bool.
Variable path_join : string -> string -> string.
Variable picture_loads : string -> bool.
Variable read_inches : float -> float.

(** What a service line can read: the service alone, or behind its symbol;
    the latter whenever there is no icon folder. *)
Let line_of (service line : string) : Prop :=
  line = service
  \/ line = (Unified.get_azure_icon_symbol service ++ " " ++ service)%string.

Lemma service_lines_text (left top : float) (services : list string) :
  forall paragraphs c,
    exists lines,
      snd (Unified.service_lines path_exists path_join picture_loads
             read_inches left top paragraphs services c)
      = inr (paragraphs ++ lines)
      /\ Forall2 line_of services lines
      /\ (path_exists "azure_icons" = false ->
          lines
          = map (fun service =>
                   (Unified.get_azure_icon_symbol service ++ " " ++ service)
                     %string) services).
Proof.
  induction services as [| service rest IH]; intros paragraphs c;
    cbn [Unified.service_lines].
  - exists []. unfold cret. rewrite app_nil_r. cbn [snd map].
    repeat split; auto.
  - unfold cbind. rewrite UnifiedAzureFacts.load_first.
    rewrite removelast_last.
    destruct (path_exists "azure_icons") eqn:Hfolder.
    + destruct (find _ _) as [f |].
      * match goal with
        | |- context [Unified.service_lines _ _ _ _ _ _ ?ps rest ?c'] =>
            destruct (IH ps c') as (lines & -> & Hlines & _)
        end.
        exists (service :: lines). rewrite <- app_assoc.
        repeat split; [| discriminate].
        constructor; [now left | assumption].
      * match goal with
        | |- context [Unified.service_lines _ _ _ _ _ _ ?ps rest ?c'] =>
            destruct (IH ps c') as (lines & -> & Hlines & _)
        end.
        eexists (_ :: lines). rewrite <- app_assoc.
        repeat split; [| discriminate].
        constructor; [now right | assumption].
    + match goal with
      | |- context [Unified.service_lines _ _ _ _ _ _ ?ps rest ?c'] =>
          destruct (IH ps c') as (lines & -> & Hlines & Hsym)
      end.
      eexists (_ :: lines). rewrite <- app_assoc.
      repeat split.
      * constructor; [now right | assumption].
      * intros _. cbn [map]. now rewrite Hsym.
Qed.

(** What a block of the Azure slide holds for a category of [l]. *)
Let block_of (l : list string) (sh : Shape) : Prop :=
  exists category entry rgb lines,
    In category l
    /\ Py.dict_get Unified.service_recommendations category = Some entry
    /\ Py.dict_get Unified.colors category = Some rgb
    /\ sh_fill sh = Some rgb
    /\ sh_paragraphs sh = fst entry :: lines
    /\ Forall2 line_of (firstn 4 (snd entry)) lines
    /\ (path_exists "azure_icons" = false ->
        lines
        = map (fun service =>
                 (Unified.get_azure_icon_symbol service ++ " " ++ service)
                   %string) (firstn 4 (snd entry))).

(** What a box of the strip holds. *)
Let box_of (sh : Shape) : Prop :=
  exists service,
    In service Unified.azure_cross_cutting_services
    /\ sh_fill sh = Some black
    /\ (sh_paragraphs sh = [service]
        \/ sh_paragraphs sh
           = [(Unified.get_azure_icon_symbol service ++ nl ++ service)
                %string])
    /\ (path_exists "azure_icons" = false ->
        sh_paragraphs sh
        = [(Unified.get_azure_icon_symbol service ++ nl ++ service)
             %string]).

Lemma unified_block_pass_text (bpr : Z) (w h : float) (i : Z)
    (category : string) (entry : string * list string) (c : Canvas) :
  Py.dict_get Unified.service_recommendations category = Some entry ->
  bpr <> 0%Z ->
  exists sh added,
    Unified.azure_block_pass path_exists path_join picture_loads
      read_inches bpr w h i category c
    = (c ++ AutoShape sh :: added, inr tt)
    /\ drawn added = []
    /\ sh_type sh = ROUNDED_RECTANGLE
    /\ block_of [category] sh.
Proof.
  intros He Hbpr.
  destruct (UnifiedAzureFacts.services_have_colors category entry He)
    as [rgb Hrgb].
  unfold Unified.azure_block_pass. rewrite He.
  unfold Py.floordiv, Py.pymod.
  destruct (Z.eqb_spec bpr 0) as [-> | _]; [congruence |].
  unfold cbind, clift, next_index, add_item. rewrite Hrgb.
  match goal with
  | |- context [Unified.service_lines _ _ _ _ ?l ?t ?ps ?sv ?c'] =>
      destruct (UnifiedAzureFacts.service_lines_add_pictures path_exists
                  path_join picture_loads read_inches l t sv ps c')
        as (added & ps' & Hlines & Hd & _);
      destruct (service_lines_text l t sv ps c')
        as (lines & Htext & Hof & Hsym)
  end.
  rewrite Hlines in Htext. cbn [snd] in Htext. injection Htext as ->.
  rewrite Hlines. unfold set_paragraphs.
  rewrite <- app_assoc. cbn [app]. rewrite set_paragraphs_last.
  eexists _, added. split; [reflexivity |].
  split; [exact Hd |]. split; [reflexivity |].
  exists category, entry, rgb, lines. cbn [sh_fill sh_paragraphs].
  repeat split; auto. now left.
Qed.

Lemma block_of_incl (l1 l2 : list string) (sh : Shape) :
  incl l1 l2 -> block_of l1 sh -> block_of l2 sh.
Proof.
  intros Hincl (category & entry & rgb & lines & Hin & H).
  exists category, entry, rgb, lines. split; [now apply Hincl | exact H].
Qed.

Lemma azure_block_loop_text (bpr : Z) (w h : float) (l : list string) :
  forall i c,
    exists blocks,
      drawn
        (fst (for_enumerate_canvas
                (Unified.azure_block_pass path_exists path_join
                   picture_loads read_inches bpr w h) i l c))
      = drawn c ++ blocks
      /\ Forall (fun sh => sh_type sh = ROUNDED_RECTANGLE /\ block_of l sh)
           blocks.
Proof.
  induction l as [| category rest IH]; intros i c;
    cbn [for_enumerate_canvas].
  - exists []. unfold cret. cbn [fst]. now rewrite app_nil_r.
  - unfold cbind.
    destruct (Py.dict_get Unified.service_recommendations category)
      as [entry |] eqn:He.
    + destruct (Z.eq_dec bpr 0) as [-> | Hbpr].
      * rewrite (UnifiedAzureFacts.unified_block_pass_zero _ _ _ _ _ _ _ _
                   entry) by assumption.
        exists []. cbn [fst]. now rewrite app_nil_r.
      * destruct (unified_block_pass_text bpr w h i category entry c He Hbpr)
          as (sh & added & -> & Hd & Hty & Hof).
        match goal with
        | |- context [for_enumerate_canvas _ _ rest ?c'] =>
            destruct (IH (i + 1)%Z c') as (blocks & -> & Hblocks)
        end.
        exists (sh :: blocks).
        rewrite UnifiedAzureFacts.drawn_app. cbn [drawn flat_map app].
        fold (drawn added). rewrite Hd, <- app_assoc. cbn [app].
        split; [reflexivity |]. constructor.
        -- split; [exact Hty |].
           apply (block_of_incl [category]); [| exact Hof].
           intros x [<- | []]. now left.
        -- eapply Forall_impl; [| exact Hblocks].
           intros a [Ha1 Ha2]. split; [exact Ha1 |].
           apply (block_of_incl rest); [| exact Ha2].
           intros x Hx. now right.
    + rewrite UnifiedAzureFacts.unified_block_pass_unknown by assumption.
      destruct (IH (i + 1)%Z c) as (blocks & -> & Hblocks).
      exists blocks. split; [reflexivity |].
      eapply Forall_impl; [| exact Hblocks].
      intros a [Ha1 Ha2]. split; [exact Ha1 |].
      apply (block_of_incl rest); [| exact Ha2].
      intros x Hx. now right.
Qed.

Lemma azure_service_pass_text (y : float) (i : Z) (service : string)
    (c : Canvas) :
  exists sh added,
    Unified.azure_service_pass path_exists path_join picture_loads
      read_inches y i service c
    = (c ++ AutoShape sh :: added, inr tt)
    /\ drawn added = []
    /\ sh_type sh = RECTANGLE
    /\ sh_fill sh = Some black
    /\ (sh_paragraphs sh = [service]
        \/ sh_paragraphs sh
           = [(Unified.get_azure_icon_symbol service ++ nl ++ service)
                %string])
    /\ (path_exists "azure_icons" = false ->
        sh_paragraphs sh
        = [(Unified.get_azure_icon_symbol service ++ nl ++ service)
             %string]).
Proof.
  unfold Unified.azure_service_pass, cbind, next_index, add_item.
  rewrite UnifiedAzureFacts.load_first.
  destruct (path_exists "azure_icons") eqn:Hfolder.
  - destruct (find _ _) as [f |]; unfold set_paragraphs;
      rewrite <- ?app_assoc; cbn [app]; rewrite set_paragraphs_last;
      eexists _, _; (split; [reflexivity |]);
      cbn [sh_type sh_fill sh_paragraphs];
      repeat split; auto; discriminate.
  - unfold set_paragraphs. rewrite <- (app_nil_r [AutoShape _]).
    cbn [app]. rewrite set_paragraphs_last.
    eexists _, _. split; [reflexivity |].
    cbn [sh_type sh_fill sh_paragraphs]. repeat split; auto.
Qed.

Lemma azure_strip_loop_text (y : float) (l : list string) :
  (forall service, In service l ->
                   In service Unified.azure_cross_cutting_services) ->
  forall i c,
    exists c' boxes,
      for_enumerate_canvas
        (Unified.azure_service_pass path_exists path_join picture_loads
           read_inches y) i l c = (c', inr tt)
      /\ drawn c' = drawn c ++ boxes
      /\ Forall (fun sh => sh_type sh = RECTANGLE /\ box_of sh) boxes.
Proof.
  induction l as [| service rest IH]; intros Hin i c;
    cbn [for_enumerate_canvas].
  - exists c, []. unfold cret. now rewrite app_nil_r.
  - unfold cbind.
    destruct (azure_service_pass_text y i service c)
      as (sh & added & -> & Hd & Hty & Hfill & Htext & Hsym).
    match goal with
    | |- context [for_enumerate_canvas _ _ rest ?c1] =>
        destruct (IH (fun s Hs => Hin s (or_intror Hs)) (i + 1)%Z c1)
          as (c' & boxes & -> & Hdrawn & Hboxes)
    end.
    exists c', (sh :: boxes). split; [reflexivity |].
    rewrite Hdrawn, UnifiedAzureFacts.drawn_app. cbn [drawn flat_map app].
    fold (drawn added). rewrite Hd, <- app_assoc. cbn [app].
    split; [reflexivity |]. constructor; [| exact Hboxes].
    split; [exact Hty |]. exists service.
    repeat split; auto. apply Hin. now left.
Qed.

Lemma azure_slide_text (categories : list string) :
  exists blocks boxes others,
    drawn
      (fst (Unified.create_azure_specific_slide path_exists path_join
              picture_loads read_inches categories []))
    = Direct.azure_title_box :: blocks ++ boxes ++ others
    /\ Forall
         (fun sh => sh_type sh = ROUNDED_RECTANGLE /\ block_of categories sh)
         blocks
    /\ Forall (fun sh => sh_type sh = RECTANGLE /\ box_of sh) boxes
    /\ Forall (fun sh => sh_type sh = TEXT_BOX) others.
Proof.
  unfold Unified.create_azure_specific_slide.
  destruct (Unified.layout_tier (Z.of_nat (List.length categories)))
    as [[bpr w] h].
  unfold cbind at 1. unfold add_item at 1. cbn [app].
  unfold cbind at 1.
  match goal with
  | |- context [for_enumerate_canvas _ 0 categories ?c0] =>
      destruct (azure_block_loop_text bpr w h categories 0 c0)
        as (blocks & Hdrawn & Hblocks);
      destruct (for_enumerate_canvas _ 0 categories c0) as [c1 [e | []]]
  end; cbn [fst] in Hdrawn; cbn [drawn flat_map app] in Hdrawn.
  { exists blocks, [], []. cbn [fst]. rewrite Hdrawn, !app_nil_r.
    repeat split; auto. }
  unfold cbind at 1. unfold clift.
  destruct (Py.floordiv _ bpr) as [e | q].
  { exists blocks, [], []. cbn [fst]. rewrite Hdrawn, !app_nil_r.
    repeat split; auto. }
  unfold cbind at 1.
  match goal with
  | |- context [for_enumerate_canvas (_ ?y) 0 _ c1] =>
      destruct (azure_strip_loop_text y Unified.azure_cross_cutting_services
                  (fun s Hs => Hs) 0 c1)
        as (c2 & boxes & -> & Hdrawn2 & Hboxes)
  end.
  unfold cbind, add_item, cret. cbn [fst].
  rewrite UnifiedAzureFacts.drawn_app, Hdrawn2, Hdrawn.
  eexists blocks, boxes, [_]. cbn [drawn flat_map app].
  rewrite <- !app_assoc. split; [reflexivity |].
  repeat split; auto.
Qed.

End Environment.

End UnifiedTextFacts.

(** X18.  What the Azure slide of the unified generator writes.  Every
    rounded block belongs to a catalog id of the list: it is filled with
    the colour of that id and holds its name, then one line for each of
    its first four services, the service alone (its icon was loaded) or
    behind its symbol and a space.  Every black box of the strip holds one
    cross-cutting service, alone or under its symbol.  When the folder
    "azure_icons" is missing every line carries the symbol. *)
Theorem unified_azure_slide_texts (path_exists : string -> bool)
    (path_join : string -> string -> string) (picture_loads : string -> bool)
    (read_inches : float -> float) (categories : list string) :
  let slide :=
    drawn
      (fst (Unified.create_azure_specific_slide path_exists path_join
              picture_loads read_inches categories [])) in
  let with_symbol (sep service : string) :=
    (Unified.get_azure_icon_symbol service ++ sep ++ service)%string in
  Forall
    (fun block =>
       exists category entry rgb lines,
         In category categories
         /\ Py.dict_get Unified.service_recommendations category = Some entry
         /\ Py.dict_get Unified.colors category = Some rgb
         /\ sh_fill block = Some rgb
         /\ sh_paragraphs block = fst entry :: lines
         /\ Forall2
              (fun service line =>
                 line = service \/ line = with_symbol " " service)
              (firstn 4 (snd entry)) lines
         /\ (path_exists "azure_icons" = false ->
             lines = map (with_symbol " ") (firstn 4 (snd entry))))
    (shapes_of ROUNDED_RECTANGLE slide)
  /\ Forall
       (fun box =>
          exists service,
            In service Unified.azure_cross_cutting_services
            /\ sh_fill box = Some black
            /\ (sh_paragraphs box = [service]
                \/ sh_paragraphs box = [with_symbol nl service])
            /\ (path_exists "azure_icons" = false ->
                sh_paragraphs box = [with_symbol nl service]))
       (shapes_of RECTANGLE slide).
Proof.
  intros slide with_symbol. subst slide with_symbol.
  destruct (UnifiedTextFacts.azure_slide_text path_exists path_join
              picture_loads read_inches categories)
    as (blocks & boxes & others & -> & Hblocks & Hboxes & Hothers).
  assert (Hb1 : Forall (fun sh => sh_type sh = ROUNDED_RECTANGLE) blocks)
    by (eapply Forall_impl; [| exact Hblocks]; now intros a [Ha _]).
  assert (Hb2 : Forall (fun sh => sh_type sh = RECTANGLE) boxes)
    by (eapply Forall_impl; [| exact Hboxes]; now intros a [Ha _]).
  change (Direct.azure_title_box :: blocks ++ boxes ++ others)
    with ([Direct.azure_title_box] ++ blocks ++ boxes ++ others).
  rewrite !LayoutFacts.shapes_of_app.
  rewrite (LayoutFacts.shapes_of_all _ _ Hb1).
  rewrite (LayoutFacts.shapes_of_all _ _ Hb2).
  rewrite (LayoutFacts.shapes_of_none ROUNDED_RECTANGLE RECTANGLE boxes)
    by (discriminate || assumption).
  rewrite (LayoutFacts.shapes_of_none RECTANGLE ROUNDED_RECTANGLE blocks)
    by (discriminate || assumption).
  rewrite (LayoutFacts.shapes_of_none ROUNDED_RECTANGLE TEXT_BOX others)
    by (discriminate || assumption).
  rewrite (LayoutFacts.shapes_of_none RECTANGLE TEXT_BOX others)
    by (discriminate || assumption).
  cbn [shapes_of filter Direct.azure_title_box text_box sh_type app].
  rewrite !app_nil_r.
  split.
  - eapply Forall_impl; [| exact Hblocks]. now intros a [_ Ha].
  - eapply Forall_impl; [| exact Hboxes]. now intros a [_ Ha].
Qed.

(** ** The tools of the presentation agent *)

Module PresentationAgentFacts.

Lemma title_chars (c : ascii) :
  Py.is_upper_char (Py.lower_char c) = false
  /\ Py.is_lower_char (Py.lower_char c)
     = Py.is_lower_char c || Py.is_upper_char c
  /\ (Py.is_upper_char c = true ->
      Py.is_lower_char c = false
      /\ Py.upper_char (Py.lower_char c) = c)
  /\ (Py.is_upper_char c = false -> Py.lower_char c = c).
Proof.
  destruct c as [[] [] [] [] [] [] [] []]; vm_compute;
    repeat split; intros; (reflexivity || discriminate).
Qed.

(** [s.lower().title()] is [s.title()], with the casing of ASCII text. *)
Lemma title_lower (s : string) :
  forall prev_cased,
    Py.title_from prev_cased (Py.lower s) = Py.title_from prev_cased s.
Proof.
  induction s as [| c s IH]; intros prev_cased;
    cbn [Py.lower Py.title_from]; [reflexivity |].
  destruct (title_chars c) as (Hup & Hlow & Hupper & Hother).
  rewrite Hup, Hlow, !IH.
  destruct (Py.is_upper_char c) eqn:Hc.
  - destruct (Hupper eq_refl) as [-> ->]. cbn [orb]. reflexivity.
  - rewrite (Hother eq_refl), orb_false_r. reflexivity.
Qed.

Lemma known_category (category : string) :
  Py.list_in category
    ["compute"; "storage"; "networking"; "database"; "ai_ml"; "security";
     "monitoring"]
  = Py.dict_has PowerPointAgent.azure_building_blocks category.
Proof.
  unfold Py.list_in, Py.dict_has, PowerPointAgent.azure_building_blocks.
  cbn [existsb Py.dict_get].
  repeat match goal with
         | |- context [String.eqb category ?k] =>
             destruct (String.eqb category k); cbn [orb]
         end; reflexivity.
Qed.

Lemma draw_components_all (i : Z) (components : list string) (slide : Slide) :
  PowerPointAgent.draw_components true i components slide
  = (slide ++ enumerate_map PowerPointAgent.component_box i components,
     false).
Proof.
  revert i slide. induction components as [| c rest IH]; intros i slide;
    cbn [PowerPointAgent.draw_components enumerate_map].
  - now rewrite app_nil_r.
  - now rewrite IH, <- app_assoc.
Qed.

Lemma component_boxes_rounded (i : Z) (components : list string) :
  Forall (fun sh => sh_type sh = ROUNDED_RECTANGLE)
    (enumerate_map PowerPointAgent.component_box i components).
Proof. apply LayoutFacts.enumerate_map_Forall. reflexivity. Qed.

End PresentationAgentFacts.

(** X19.  For a category written in ASCII, [get_azure_services] looks it
    up without regard to case, and the case leaves no trace in the answer:
    when the lowered name is one of the seven of the table, the text is the
    text for the lowered name.  For any other category the text quotes it
    as given and lists the seven names in the order of the table. *)
Theorem azure_services_ignore_case (category : string) :
  Py.isascii category = true ->
  let known :=
    Py.list_in (Py.lower category)
      ["compute"; "storage"; "networking"; "database"; "ai_ml"; "security";
       "monitoring"] in
  (known = true ->
   PowerPointAgent.get_azure_services category
   = PowerPointAgent.get_azure_services (Py.lower category))
  /\ (known = false ->
      PowerPointAgent.get_azure_services category
      = ("Category '" ++ category
           ++ "' not found. Available categories: compute, storage, "
           ++ "networking, database, ai_ml, security, monitoring")%string).
Proof.
  intros _ known. subst known.
  rewrite PresentationAgentFacts.known_category.
  unfold Py.dict_has, PowerPointAgent.get_azure_services.
  rewrite TextFacts.lower_idempotent.
  destruct (Py.dict_get PowerPointAgent.azure_building_blocks
              (Py.lower category)) as [services |].
  - split; [intros _ | discriminate].
    unfold Py.title. now rewrite PresentationAgentFacts.title_lower.
  - split; [discriminate | intros _]. reflexivity.
Qed.

Lemma azure_services_ignore_case_witness :
  PowerPointAgent.get_azure_services "AI_ML"
  = PowerPointAgent.get_azure_services (Py.lower "AI_ML").
Proof.
  exact (proj1 (azure_services_ignore_case "AI_ML" eq_refl) eq_refl).
Defined.

(** X20.  [create_architecture_diagram] always leaves its slide in the
    presentation, with at most six component boxes on it.  Where text
    frames have the attribute [text_frame_format], it succeeds on every
    list: the slide holds the title, the boxes of the first six components
    three to a row, and the description, while the answer counts all the
    components given, also those beyond the sixth that were not drawn.
    Where they have not, it succeeds only on the empty list: any component
    raises the error after the first box was drawn. *)
Theorem architecture_diagram_boxes (has_text_frame_format : bool)
    (title : string) (components : list string) (description : string)
    (presentation : list Slide) :
  exists slide answer,
    PowerPointAgent.create_architecture_diagram has_text_frame_format title
      components description presentation
    = (presentation ++ [slide], answer)
    /\ (List.length (shapes_of ROUNDED_RECTANGLE slide) <= 6)%nat
    /\ match has_text_frame_format, components with
       | false, first :: _ =>
           answer = PowerPointAgent.ErrorCreatingDiagram "text_frame_format"
           /\ slide
              = [text_box 0.5 0.5 9 1 title;
                 PowerPointAgent.component_box 0 first]
       | _, _ =>
           answer
           = PowerPointAgent.CreatedDiagram (S (List.length presentation))
               title (List.length components)
           /\ slide
              = text_box 0.5 0.5 9 1 title
                  :: enumerate_map PowerPointAgent.component_box 0
                       (firstn 6 components)
                  ++ [text_box 0.5 5.5 9 1.5 description]
           /\ List.length (shapes_of ROUNDED_RECTANGLE slide)
              = Nat.min 6 (List.length components)
       end.
Proof.
  unfold PowerPointAgent.create_architecture_diagram.
  assert (Hlen : forall n : nat, (n + 1 = S n)%nat) by (intros; lia).
  destruct has_text_frame_format.
  - rewrite PresentationAgentFacts.draw_components_all.
    assert (Hboxes :
              List.length
                (shapes_of ROUNDED_RECTANGLE
                   (([text_box 0.5 0.5 9 1 title]
                       ++ enumerate_map PowerPointAgent.component_box 0
                            (firstn 6 components))
                      ++ [text_box 0.5 5.5 9 1.5 description]))
              = Nat.min 6 (List.length components)).
    { rewrite !LayoutFacts.shapes_of_app.
      rewrite (LayoutFacts.shapes_of_all _ _
                 (PresentationAgentFacts.component_boxes_rounded 0 _)).
      cbn [shapes_of filter text_box sh_type app].
      rewrite app_nil_r, LayoutFacts.enumerate_map_length.
      apply length_firstn. }
    eexists _, _. split; [reflexivity |]. split; [rewrite Hboxes; lia |].
    rewrite length_app, Hlen. cbn [List.length].
    destruct components; (split; [reflexivity |]); (split; [reflexivity |]);
      exact Hboxes.
  - destruct components as [| first rest].
    + cbn [firstn PowerPointAgent.draw_components].
      eexists _, _. split; [reflexivity |]. split; [cbn; lia |].
      rewrite length_app, Hlen. repeat split.
    + cbn [firstn PowerPointAgent.draw_components].
      eexists _, _. split; [reflexivity |]. split; [cbn; lia |].
      split; reflexivity.
Qed.

(** X21.  The generator of [fixed_generator.py] never saves a file either:
    with or without the AI analysis, with or without a token, and whether
    or not the agent can be started, [create_slide] returns what the direct
    generator returns for the text, which is always its error text. *)
Theorem fixed_generator_never_saves (github_token : option string)
    (agent_starts : bool) (requirements : string) (use_ai : bool) :
  FixedBuildingBlockGenerator.create_slide github_token agent_starts
    requirements use_ai
  = Direct.ErrorCreatingSlide
      match Direct.analyze_requirements requirements with
      | [] => Py.ZeroDivisionError
      | _ :: _ => Py.NameError "shape"
      end.
Proof.
  unfold FixedBuildingBlockGenerator.create_slide.
  rewrite <- (direct_entry_point_error requirements None).
  destruct use_ai, agent_starts, github_token as [[| a t] |]; reflexivity.
Qed.

(** X22.  The slide tool of the agent takes any list of ids: it draws one
    block for each id of the catalog and passes over the others, yet its
    success text counts every id given.  It fails, with
    [ZeroDivisionError], exactly on the lists that hold no id of the
    catalog; the slide stays in the presentation in both cases. *)
Theorem agent_answer_counts_every_id (title requirements : string)
    (categories : list string) (presentation : list Slide) :
  let known :=
    filter (Py.dict_has Agent.service_recommendations) categories in
  exists slide,
    Agent.create_building_block_slide title requirements categories
      presentation
    = (presentation ++ [slide],
       match known with
       | [] => Agent.ErrorCreating Py.ZeroDivisionError
       | _ :: _ => Agent.Created title (List.length categories)
       end)
    /\ List.length (shapes_of ROUNDED_RECTANGLE slide) = List.length known.
Proof.
  intros known.
  destruct (Agent.layout_tier (Z.of_nat (List.length known)))
    as [[bpr w] h] eqn:Htier.
  pose proof (LayoutFacts.agent_blocks_on_slide title requirements categories
                bpr w h Htier) as Hblocks.
  unfold Agent.create_building_block_slide.
  destruct known as [| c rest] eqn:Hknown; subst known.
  - rewrite LayoutFacts.agent_draw_without_known in * by assumption.
    eexists. split; [reflexivity |]. reflexivity.
  - destruct (LayoutFacts.agent_strip_has_seven_boxes title requirements
                categories) as [Hret _]; [congruence |].
    destruct (Agent.draw_building_block_slide title requirements categories
                []) as [slide r].
    cbn [fst snd] in *. subst r.
    exists slide. split; [reflexivity |].
    now rewrite Hblocks, LayoutFacts.grid_by_rank_length, Hknown.
Qed.
